(** * The overlay network driver of libnetwork (drivers/overlay/ov_network.go)

    A shallow embedding of the overlay driver's network object: the subnet
    lookup helpers, the persisted configuration and its JSON codec, the
    join/leave reference counting with the sandbox, the host-mode probe, the
    neighbour-miss watcher and the VXLAN id allocation against the store.

    Conventions.
    - A Go pointer that may be nil is an [option]; a [*subnet] that points
      into [n.subnets] is the index of that element (the code never stores
      one subnet twice in the slice).
    - A Go [error] result is an [option error], [None] being [nil].
    - A run-time panic (nil dereference, failed type assertion, slice out of
      range) is the outcome [Panic]; a call that waits for an answer the
      environment never gives is [Blocked].
    - Fixed-width integers are [Z] with the wrap-around written out. *)

From Stdlib Require Import ZArith String Ascii.
From stdpp Require Import gmap strings list pretty.

Local Open Scope string_scope.
Local Open Scope list_scope.
Local Open Scope Z_scope.

(** ** Outcomes of a Go call *)

Inductive outcome (A : Type) : Type :=
| Done (a : A)
| Panic
| Blocked.
Arguments Done {A} a.
Arguments Panic {A}.
Arguments Blocked {A}.

Definition obind {A B} (m : outcome A) (f : A -> outcome B) : outcome B :=
  match m with
  | Done a => f a
  | Panic => Panic
  | Blocked => Blocked
  end.

Notation "x <- m ;;; k" := (obind m (fun x => k))
  (at level 100, m at next level, right associativity).

(** Go [error] values.  The two datastore sentinels are compared with [==]
    in the source; every other error is a message. *)
Inductive error : Type :=
| ErrKeyModified
| ErrKeyNotFound
| Errorf (msg : string).

Global Instance error_eq_dec : EqDecision error.
Proof. solve_decision. Defined.

Definition Error (e : error) : string :=
  match e with
  | ErrKeyModified => "key modified"
  | ErrKeyNotFound => "key not found"
  | Errorf m => m
  end.

(** [%q] applied to a string that needs no escaping. *)
Definition quoted (s : string) : string :=
  String (ascii_of_nat 34) s +:+ String (ascii_of_nat 34) EmptyString.

(** ** Machine integers *)

(** Go [int] on a 64-bit host. *)
Definition wrap_int (z : Z) : Z := (z + 2 ^ 63) mod 2 ^ 64 - 2 ^ 63.
(** Conversion to [uint32]. *)
Definition uint32 (z : Z) : Z := z mod 2 ^ 32.
(** Conversion to [uint64]. *)
Definition uint64 (z : Z) : Z := z mod 2 ^ 64.

(** ** The part of Go's [net] package the driver calls

    An [IP] and an [IPMask] are byte slices; a nil slice is the empty list. *)

Definition IP := list Z.
Definition IPMask := list Z.

Record IPNet := { ipnet_IP : IP; ipnet_Mask : IPMask }.

Global Instance IPNet_eq_dec : EqDecision IPNet.
Proof. solve_decision. Defined.

Definition IPv4len : nat := 4.
Definition IPv6len : nat := 16.
Definition v4InV6Prefix : list Z := [0; 0; 0; 0; 0; 0; 0; 0; 0; 0; 255; 255].

Definition IPv4 (a b c d : Z) : IP := v4InV6Prefix ++ [a; b; c; d].

Definition bytesEqual (x y : list Z) : bool := bool_decide (x = y).

Definition isZeros (p : list Z) : bool := forallb (Z.eqb 0) p.

(** [ip.To4()]: [None] is the nil result. *)
Definition To4 (ip : IP) : option IP :=
  if Nat.eqb (length ip) IPv4len then Some ip
  else if Nat.eqb (length ip) IPv6len
          && isZeros (take 10 ip)
          && bool_decide (ip !! 10%nat = Some 255)
          && bool_decide (ip !! 11%nat = Some 255)
       then Some (drop 12 ip)
       else None.

(** [ip.To16()]: [None] is the nil result. *)
Definition To16 (ip : IP) : option IP :=
  if Nat.eqb (length ip) IPv4len then
    match ip with
    | [a; b; c; d] => Some (IPv4 a b c d)
    | _ => None
    end
  else if Nat.eqb (length ip) IPv6len then Some ip
  else None.

(** [ip.Equal(x)] *)
Definition IP_Equal (ip x : IP) : bool :=
  if Nat.eqb (length ip) (length x) then bytesEqual ip x
  else if Nat.eqb (length ip) IPv4len && Nat.eqb (length x) IPv6len then
    bytesEqual (take 12 x) v4InV6Prefix && bytesEqual ip (drop 12 x)
  else if Nat.eqb (length ip) IPv6len && Nat.eqb (length x) IPv4len then
    bytesEqual (take 12 ip) v4InV6Prefix && bytesEqual (drop 12 ip) x
  else false.

(** The inner loop of [simpleMaskLength]:
    [for v&0x80 != 0 { n++; v <<= 1 }] on a byte. *)
Fixpoint leading_ones (fuel : nat) (v n : Z) : Z * Z :=
  match fuel with
  | O => (n, v)
  | S f =>
      if Z.land v 128 =? 0 then (n, v)
      else leading_ones f (Z.land (Z.shiftl v 1) 255) (n + 1)
  end.

(** [simpleMaskLength]: the number of leading ones of a canonical mask,
    [-1] for a mask that is not ones followed by zeros. *)
Fixpoint simpleMaskLength_from (n : Z) (mask : IPMask) : Z :=
  match mask with
  | [] => n
  | v :: rest =>
      if v =? 255 then simpleMaskLength_from (n + 8) rest
      else
        let '(n', v') := leading_ones 8 v n in
        if negb (v' =? 0) then -1
        else if isZeros rest then n' else -1
  end.

Definition simpleMaskLength (mask : IPMask) : Z := simpleMaskLength_from 0 mask.

(** [m.Size()] *)
Definition Size (m : IPMask) : Z * Z :=
  let ones := simpleMaskLength m in
  if ones =? -1 then (0, 0) else (ones, Z.of_nat (length m) * 8).

Definition networkNumberAndMask (n : IPNet) : option (IP * IPMask) :=
  let ipm :=
    match To4 (ipnet_IP n) with
    | Some ip => Some ip
    | None =>
        if Nat.eqb (length (ipnet_IP n)) IPv6len then Some (ipnet_IP n) else None
    end in
  match ipm with
  | None => None
  | Some ip =>
      let m := ipnet_Mask n in
      if Nat.eqb (length m) IPv4len then
        if Nat.eqb (length ip) IPv4len then Some (ip, m) else None
      else if Nat.eqb (length m) IPv6len then
        if Nat.eqb (length ip) IPv4len then Some (ip, drop 12 m) else Some (ip, m)
      else None
  end.

Fixpoint masked_equal (nn m ip : list Z) : bool :=
  match nn, m, ip with
  | a :: nn', k :: m', b :: ip' =>
      if Z.land a k =? Z.land b k then masked_equal nn' m' ip' else false
  | _, _, _ => true
  end.

(** [n.Contains(ip)].  With a nil network number the length test fails for
    every non-empty address and the loop is empty for the empty one. *)
Definition Contains (n : IPNet) (ip : IP) : bool :=
  let '(nn, m) := default ([], []) (networkNumberAndMask n) in
  let ip := default ip (To4 ip) in
  if negb (Nat.eqb (length ip) (length nn)) then false
  else masked_equal nn m ip.

(** ** Data model *)

(** The handle the sandbox facade returns. *)
Record Sandbox := { sb_key : string; sb_osCreate : bool; sb_ifaces : list string }.

Record subnet := {
  s_once : bool;              (* has the subnet's sync.Once fired? *)
  vxlanName : string;
  brName : string;
  vni : Z;                    (* uint32 *)
  s_initErr : option error;
  subnetIP : option IPNet;
  gwIP : option IPNet;
}.

Record networkConfiguration := {
  subnets : list subnet;
  disableDefaultGW : bool;
}.

(** [endpoints] and the back pointer [driver] are left out: the driver is
    passed next to the network wherever the code follows [n.driver]. *)
Record network := {
  net_id : string;
  dbIndex : Z;                (* uint64 *)
  dbExists : bool;
  sbox : option Sandbox;
  joinCnt : Z;                (* int *)
  once : bool;                (* has the network's sync.Once fired? *)
  initEpoch : Z;              (* int *)
  initErr : option error;
  config : option networkConfiguration;   (* the embedded *networkConfiguration *)
}.

Definition new_subnet (ip gw : option IPNet) (v : Z) : subnet :=
  {| s_once := false; vxlanName := ""; brName := ""; vni := v;
     s_initErr := None; subnetIP := ip; gwIP := gw |}.

Definition set_vni (v : Z) (s : subnet) : subnet :=
  {| s_once := s_once s; vxlanName := vxlanName s; brName := brName s; vni := v;
     s_initErr := s_initErr s; subnetIP := subnetIP s; gwIP := gwIP s |}.

Definition set_s_once (o : bool) (s : subnet) : subnet :=
  {| s_once := o; vxlanName := vxlanName s; brName := brName s; vni := vni s;
     s_initErr := s_initErr s; subnetIP := subnetIP s; gwIP := gwIP s |}.

Definition set_config (c : option networkConfiguration) (n : network) : network :=
  {| net_id := net_id n; dbIndex := dbIndex n; dbExists := dbExists n;
     sbox := sbox n; joinCnt := joinCnt n; once := once n;
     initEpoch := initEpoch n; initErr := initErr n; config := c |}.

Definition set_sbox (s : option Sandbox) (n : network) : network :=
  {| net_id := net_id n; dbIndex := dbIndex n; dbExists := dbExists n;
     sbox := s; joinCnt := joinCnt n; once := once n;
     initEpoch := initEpoch n; initErr := initErr n; config := config n |}.

Definition set_joinCnt (c : Z) (n : network) : network :=
  {| net_id := net_id n; dbIndex := dbIndex n; dbExists := dbExists n;
     sbox := sbox n; joinCnt := c; once := once n;
     initEpoch := initEpoch n; initErr := initErr n; config := config n |}.

Definition set_once (o : bool) (n : network) : network :=
  {| net_id := net_id n; dbIndex := dbIndex n; dbExists := dbExists n;
     sbox := sbox n; joinCnt := joinCnt n; once := o;
     initEpoch := initEpoch n; initErr := initErr n; config := config n |}.

Definition set_initEpoch (e : Z) (n : network) : network :=
  {| net_id := net_id n; dbIndex := dbIndex n; dbExists := dbExists n;
     sbox := sbox n; joinCnt := joinCnt n; once := once n;
     initEpoch := e; initErr := initErr n; config := config n |}.

Definition set_initErr (e : option error) (n : network) : network :=
  {| net_id := net_id n; dbIndex := dbIndex n; dbExists := dbExists n;
     sbox := sbox n; joinCnt := joinCnt n; once := once n;
     initEpoch := initEpoch n; initErr := e; config := config n |}.

(** [n.SetIndex(index)] *)
Definition SetIndex (index : Z) (n : network) : network :=
  {| net_id := net_id n; dbIndex := index; dbExists := true;
     sbox := sbox n; joinCnt := joinCnt n; once := once n;
     initEpoch := initEpoch n; initErr := initErr n; config := config n |}.

(** Reading the promoted field [n.subnets] dereferences the embedded pointer. *)
Definition n_subnets (n : network) : outcome (list subnet) :=
  match config n with
  | None => Panic
  | Some c => Done (subnets c)
  end.

Definition set_subnets (ss : list subnet) (c : networkConfiguration) : networkConfiguration :=
  {| subnets := ss; disableDefaultGW := disableDefaultGW c |}.

Definition set_disableDefaultGW (b : bool) (c : networkConfiguration) : networkConfiguration :=
  {| subnets := subnets c; disableDefaultGW := b |}.

(** [n.vxlanID(s)] and [n.setVxlanID(s, vni)] for the subnet at index [i]. *)
Definition vxlanID (n : network) (i : nat) : outcome Z :=
  ss <- n_subnets n ;;;
  match ss !! i with
  | None => Panic
  | Some s => Done (vni s)
  end.

Definition setVxlanID (n : network) (i : nat) (v : Z) : outcome network :=
  match config n with
  | None => Panic
  | Some c =>
      match subnets c !! i with
      | None => Panic
      | Some s => Done (set_config (Some (set_subnets (<[i := set_vni v s]> (subnets c)) c)) n)
      end
  end.

(** ** Subnet lookup helpers *)

(** The loop of [getSubnetforIP]; [k] is the index of the head of [ss]. *)
Fixpoint getSubnetforIP_loop (ip : option IPNet) (ss : list subnet) (k : nat)
  : outcome (option nat) :=
  match ss with
  | [] => Done None
  | s :: rest =>
      match subnetIP s with
      | None => Panic
      | Some sn =>
          let i := fst (Size (ipnet_Mask sn)) in
          match ip with
          | None => Panic
          | Some ipn =>
              let j := fst (Size (ipnet_Mask ipn)) in
              if negb (i =? j) then getSubnetforIP_loop ip rest (S k)
              else if Contains sn (ipnet_IP ipn) then Done (Some k)
              else getSubnetforIP_loop ip rest (S k)
          end
      end
  end.

Definition getSubnetforIP (n : network) (ip : option IPNet) : outcome (option nat) :=
  ss <- n_subnets n ;;; getSubnetforIP_loop ip ss 0.

Fixpoint getMatchingSubnet_loop (ipn : IPNet) (ss : list subnet) (k : nat)
  : outcome (option nat) :=
  match ss with
  | [] => Done None
  | s :: rest =>
      match subnetIP s with
      | None => Panic
      | Some sn =>
          let i := fst (Size (ipnet_Mask sn)) in
          let j := fst (Size (ipnet_Mask ipn)) in
          if negb (i =? j) then getMatchingSubnet_loop ipn rest (S k)
          else if IP_Equal (ipnet_IP sn) (ipnet_IP ipn) then Done (Some k)
          else getMatchingSubnet_loop ipn rest (S k)
      end
  end.

Definition getMatchingSubnet (n : network) (ip : option IPNet) : outcome (option nat) :=
  match ip with
  | None => Done None
  | Some ipn => ss <- n_subnets n ;;; getMatchingSubnet_loop ipn ss 0
  end.

(** ** JSON values

    [encoding/json] is used through its documented behaviour on values: a
    [jvalue] is what a JSON text denotes, an object keeping its members in
    document order.  Numbers are the integral ones, which is all the encoder
    of this file produces. *)

#[warnings="-register-all"]
Inductive jvalue : Type :=
| JNull
| JBool (b : bool)
| JNum (z : Z)
| JStr (s : string)
| JArr (l : list jvalue)
| JObj (m : list (string * jvalue)).

(** Decoding an object into [map[string]interface{}]: a later member
    replaces an earlier one with the same key. *)
Fixpoint jlookup (k : string) (m : list (string * jvalue)) : option jvalue :=
  match m with
  | [] => None
  | (k', v) :: rest =>
      match jlookup k rest with
      | Some v' => Some v'
      | None => if String.eqb k k' then Some v else None
      end
  end.

(** [nMap[k]]: a missing key and a [null] member both read as the nil
    interface. *)
Definition jget (k : string) (m : list (string * jvalue)) : jvalue :=
  default JNull (jlookup k m).

Definition ascii_lower (c : ascii) : ascii :=
  let n := nat_of_ascii c in
  if (Nat.leb 65 n && Nat.leb n 90)%bool then ascii_of_nat (n + 32) else c.

Fixpoint lower (s : string) : string :=
  match s with
  | EmptyString => EmptyString
  | String c r => String (ascii_lower c) (lower r)
  end.

(** The record of the previous persisted format. *)
Record subnetJSON := { SubnetIP : string; GwIP : string; Vni : Z }.

(** Storing one object member into a [subnetJSON]: the field is found by
    its name up to letter case, [null] leaves it alone, a value of the wrong
    type is recorded as an error and decoding goes on. *)
Definition store_member (acc : subnetJSON * option error) (kv : string * jvalue)
  : subnetJSON * option error :=
  let '(r, err) := acc in
  let bad := (r, Some (default (Errorf "json: cannot unmarshal into Go struct field") err)) in
  let k := lower (fst kv) in
  if String.eqb k "subnetip" then
    match snd kv with
    | JStr s => ({| SubnetIP := s; GwIP := GwIP r; Vni := Vni r |}, err)
    | JNull => acc
    | _ => bad
    end
  else if String.eqb k "gwip" then
    match snd kv with
    | JStr s => ({| SubnetIP := SubnetIP r; GwIP := s; Vni := Vni r |}, err)
    | JNull => acc
    | _ => bad
    end
  else if String.eqb k "vni" then
    match snd kv with
    | JNum z =>
        if (0 <=? z) && (z <? 2 ^ 32)
        then ({| SubnetIP := SubnetIP r; GwIP := GwIP r; Vni := z |}, err)
        else bad
    | JNull => acc
    | _ => bad
    end
  else acc.

(** [json.Unmarshal(value, &netJSON)] with [netJSON : []*subnetJSON]: the
    decoded elements ([None] for a [null] element, which leaves a nil
    pointer) and the first error met. *)
Fixpoint unmarshal_elems (l : list jvalue) (err : option error)
  : list (option subnetJSON) * option error :=
  match l with
  | [] => ([], err)
  | v :: rest =>
      let '(e, err') :=
        match v with
        | JNull => (None, err)
        | JObj m =>
            let '(r, err1) :=
              fold_left store_member m ({| SubnetIP := ""; GwIP := ""; Vni := 0 |}, err) in
            (Some r, err1)
        | _ =>
            (Some {| SubnetIP := ""; GwIP := ""; Vni := 0 |},
             Some (default (Errorf "json: cannot unmarshal into Go value of type overlay.subnetJSON") err))
        end in
      let '(es, err'') := unmarshal_elems rest err' in
      (e :: es, err'')
  end.

Definition unmarshal_netJSON (value : jvalue) : list (option subnetJSON) * option error :=
  match value with
  | JArr l => unmarshal_elems l None
  | JNull => ([], None)
  | _ => ([], Some (Errorf "json: cannot unmarshal into Go value of type []*overlay.subnetJSON"))
  end.

Section Overlay.

(** [IPNet.String] and [types.ParseCIDR] (which keeps the address
    as written and returns a nil network with its error) belong to packages
    outside this file; the driver is verified for any such pair. *)
Variable IPNet_String : IPNet -> string.
Variable ParseCIDR : string -> option IPNet.

(** *** Encoding *)

(** [subnet.MarshalJSON]: [String] on a nil [*net.IPNet] dereferences it.
    The members are in the key order [json.Marshal] gives a map. *)
Definition subnet_MarshalJSON (s : subnet) : outcome jvalue :=
  match gwIP s with
  | None => Panic
  | Some gw =>
      match subnetIP s with
      | None => Panic
      | Some ip =>
          Done (JObj [("gwIP", JStr (IPNet_String gw));
                      ("subnetIP", JStr (IPNet_String ip));
                      ("vni", JNum (vni s))])
      end
  end.

Fixpoint marshal_subnets (ss : list subnet) : outcome (list jvalue) :=
  match ss with
  | [] => Done []
  | s :: rest =>
      j <- subnet_MarshalJSON s ;;;
      js <- marshal_subnets rest ;;;
      Done (j :: js)
  end.

(** [networkConfiguration.MarshalJSON] *)
Definition networkConfiguration_MarshalJSON (nc : networkConfiguration) : outcome jvalue :=
  js <- marshal_subnets (subnets nc) ;;;
  Done (JObj [("disableDefaultGW", JBool (disableDefaultGW nc)); ("subnets", JArr js)]).

(** [n.Value()]: a nil configuration pointer is encoded as [null]. *)
Definition Value (n : network) : outcome jvalue :=
  match config n with
  | None => Done JNull
  | Some nc => networkConfiguration_MarshalJSON nc
  end.

(** *** Decoding *)

Definition set_gwIP (g : option IPNet) (s : subnet) : subnet :=
  {| s_once := s_once s; vxlanName := vxlanName s; brName := brName s; vni := vni s;
     s_initErr := s_initErr s; subnetIP := subnetIP s; gwIP := g |}.

Definition set_subnetIP (p : option IPNet) (s : subnet) : subnet :=
  {| s_once := s_once s; vxlanName := vxlanName s; brName := brName s; vni := vni s;
     s_initErr := s_initErr s; subnetIP := p; gwIP := gwIP s |}.

(** [subnet.UnmarshalJSON] on the subnet [s] the decoder allocated.  The
    three type assertions are unchecked. *)
Definition subnet_UnmarshalJSON (s : subnet) (b : jvalue) : outcome (subnet * option error) :=
  let body (nMap : list (string * jvalue)) :=
    match jget "vni" nMap with
    | JNum f =>
        let s1 := set_vni (uint32 f) s in
        match jget "gwIP" nMap with
        | JStr g =>
            match ParseCIDR g with
            | None =>
                Done (set_gwIP None s1,
                      Some (Errorf "failed to decode overlay gateway address IPv4 after json unmarshal"))
            | Some gw =>
                let s2 := set_gwIP (Some gw) s1 in
                match jget "subnetIP" nMap with
                | JStr p =>
                    match ParseCIDR p with
                    | None =>
                        Done (set_subnetIP None s2,
                              Some (Errorf "failed to decode overlay subnet address IPv4 after json unmarshal"))
                    | Some ip => Done (set_subnetIP (Some ip) s2, None)
                    end
                | _ => Panic
                end
            end
        | _ => Panic
        end
    | _ => Panic
    end in
  match b with
  | JObj nMap => body nMap
  | JNull => body []
  | _ => Done (s, Some (Errorf "json: cannot unmarshal into Go value of type map[string]interface {}"))
  end.

(** [json.Unmarshal(sj, &subnets)] on the elements of an array: a [null]
    element is a nil pointer, any other is decoded by
    [subnet_UnmarshalJSON]; the first error stops the decoder, which leaves
    the elements decoded so far, the failing one included. *)
Fixpoint unmarshal_subnets (l : list jvalue) : outcome (list (option subnet)) :=
  match l with
  | [] => Done []
  | JNull :: rest =>
      r <- unmarshal_subnets rest ;;; Done (None :: r)
  | v :: rest =>
      se <- subnet_UnmarshalJSON (new_subnet None None 0) v ;;;
      match snd se with
      | Some _ => Done [Some (fst se)]
      | None => r <- unmarshal_subnets rest ;;; Done (Some (fst se) :: r)
      end
  end.

(** [networkConfiguration.UnmarshalJSON]: the decoded subnets and flag,
    or an error.  The error of the inner [json.Unmarshal] is dropped. *)
Definition networkConfiguration_UnmarshalJSON (b : jvalue)
  : outcome (list (option subnet) * bool + error) :=
  let body (nMap : list (string * jvalue)) :=
    match jget "disableDefaultGW" nMap with
    | JBool d =>
        ss <- match jget "subnets" nMap with
              | JArr l => unmarshal_subnets l
              | _ => Done []
              end ;;;
        Done (inl (ss, d))
    | _ => Panic
    end in
  match b with
  | JObj nMap => body nMap
  | JNull => body []
  | _ => Done (inr (Errorf "json: cannot unmarshal into Go value of type map[string]interface {}"))
  end.

(** The loop of the compatibility branch of [SetValue]. *)
Fixpoint legacy_subnets (l : list (option subnetJSON)) : outcome (list (option subnet)) :=
  match l with
  | [] => Done []
  | None :: _ => Panic
  | Some nj :: rest =>
      let gw := ParseCIDR (GwIP nj) in
      let ip := ParseCIDR (SubnetIP nj) in
      r <- legacy_subnets rest ;;;
      Done (Some {| s_once := false; vxlanName := ""; brName := ""; vni := Vni nj;
                    s_initErr := None; subnetIP := ip; gwIP := gw |} :: r)
  end.

(** The second loop of [SetValue], over the decoded subnets. *)
Fixpoint SetValue_loop (newNet : bool) (ds : list (option subnet)) (n : network)
  : outcome network :=
  match ds with
  | [] => Done n
  | None :: _ => Panic
  | Some s :: rest =>
      if newNet then
        match config n with
        | None => Panic
        | Some c =>
            SetValue_loop newNet rest
              (set_config
                 (Some (set_subnets (subnets c ++ [new_subnet (subnetIP s) (gwIP s) (vni s)]) c)) n)
        end
      else
        sNet <- getMatchingSubnet n (subnetIP s) ;;;
        match sNet with
        | None => SetValue_loop newNet rest n
        | Some k => n' <- setVxlanID n k (vni s) ;;; SetValue_loop newNet rest n'
        end
  end.

(** [n.SetValue(value)] *)
Definition SetValue (n : network) (value : jvalue) : outcome (network * option error) :=
  let newNet :=
    match config n with
    | None => true
    | Some c => Nat.eqb (length (subnets c)) 0
    end in
  (* nc after the first json.Unmarshal: [inl None] is the nil pointer *)
  first <- match value with
           | JNull => Done (inl None)
           | _ =>
               r <- networkConfiguration_UnmarshalJSON value ;;;
               match r with
               | inl nc => Done (inl (Some nc))
               | inr e => Done (inr e)
               end
           end ;;;
  second <- match first with
            | inl nc => Done (inl nc)
            | inr _ =>
                (* compatible with previous format *)
                let '(netJSON, err) := unmarshal_netJSON value in
                match err with
                | Some e => Done (inr e)
                | None => ss <- legacy_subnets netJSON ;;; Done (inl (Some (ss, false)))
                end
            end ;;;
  match second with
  | inr e => Done (n, Some e)
  | inl nc =>
      let n1 :=
        if newNet then set_config (Some {| subnets := []; disableDefaultGW := false |}) n
        else n in
      match nc, config n1 with
      | Some (ds, d), Some c =>
          let n2 := set_config (Some (set_disableDefaultGW d c)) n1 in
          n3 <- SetValue_loop newNet ds n2 ;;;
          Done (n3, None)
      | _, _ => Panic
      end
  end.

(** ** The driver, its allocator and its store *)

(** Modelled from the spec: the IdentifierAllocator (package [idm] is not
    part of these sources).  [GetID] hands out an identifier of the
    configured range that is not live, here the least one, or fails when
    there is none; [Release] makes an identifier available again. *)
Record Idm := { idm_start : Z; idm_end : Z; idm_live : gset Z }.

(** Modelled from the spec: the search of [GetID] for an identifier that
    is not live, from [x] upwards, over [fuel] candidates. *)
Fixpoint first_free (fuel : nat) (x : Z) (live : gset Z) : option Z :=
  match fuel with
  | O => None
  | S f => if decide (x ∈ live) then first_free f (x + 1) live else Some x
  end.

(** Modelled from the spec: [GetID() -> id | Exhausted]. *)
Definition GetID (i : Idm) : Z * option error * Idm :=
  match first_free (Z.to_nat (idm_end i - idm_start i + 1)) (idm_start i) (idm_live i) with
  | Some x =>
      (x, None, {| idm_start := idm_start i; idm_end := idm_end i;
                   idm_live := idm_live i ∪ {[x]} |})
  | None => (0, Some (Errorf "no bit available"), i)
  end.

(** Modelled from the spec: [Release(id)]. *)
Definition Release (x : Z) (i : Idm) : Idm :=
  {| idm_start := idm_start i; idm_end := idm_end i; idm_live := idm_live i ∖ {[x]} |}.

(** Modelled from the spec: the datastore (package [datastore] is not part
    of these sources), seen from one host.  What the other hosts do is not
    in this program's hands, so the store is the list of answers it will
    give, one per request; an answer carries the stored value and index.
    Every request is logged with the object it was made for. *)
Inductive reply : Type :=
| ReplyErr (e : error)
| ReplyOk (value : jvalue) (index : Z).

Inductive request : Type :=
| ReqGet (key : list string)
| ReqPut (n : network)
| ReqDelete (n : network).

Record driver := {
  networks : gmap string network;
  store : option (list reply);       (* nil when no datastore is configured *)
  store_log : list request;
  vxlanIdm : Idm;
}.

Definition set_networks (m : gmap string network) (d : driver) : driver :=
  {| networks := m; store := store d; store_log := store_log d; vxlanIdm := vxlanIdm d |}.

Definition set_vxlanIdm (i : Idm) (d : driver) : driver :=
  {| networks := networks d; store := store d; store_log := store_log d; vxlanIdm := i |}.

(** Modelled from the spec: one request to the datastore; the next answer
    is taken off the script.  A nil store is a nil interface, whose methods
    cannot be called; a store that has no answer left never returns. *)
Definition ask (d : driver) (q : request) : outcome (driver * reply) :=
  match store d with
  | None => Panic
  | Some [] => Blocked
  | Some (r :: rest) =>
      Done ({| networks := networks d; store := Some rest;
               store_log := store_log d ++ [q]; vxlanIdm := vxlanIdm d |}, r)
  end.

(** [n.Key()] *)
Definition Key (n : network) : list string := ["overlay"; "network"; net_id n].

(** Modelled from the spec: [GetObject(key, out) -> error].  The value read
    is handed to [n.SetValue] and, if that succeeds, the index to
    [n.SetIndex]. *)
Definition GetObject (d : driver) (n : network) : outcome (driver * network * option error) :=
  dr <- ask d (ReqGet (Key n)) ;;;
  match snd dr with
  | ReplyErr e => Done (fst dr, n, Some e)
  | ReplyOk v idx =>
      ne <- SetValue n v ;;;
      match snd ne with
      | Some e => Done (fst dr, fst ne, Some e)
      | None => Done (fst dr, SetIndex idx (fst ne), None)
      end
  end.

(** Modelled from the spec: [PutObjectAtomic(obj) -> error | KeyModified].
    The store writes the object's [Value()], which is taken before the
    store is asked, so an object that cannot be encoded panics here and no
    request is made.  A successful put records the new index with
    [n.SetIndex]. *)
Definition PutObjectAtomic (d : driver) (n : network) : outcome (driver * network * option error) :=
  value <- Value n ;;;
  dr <- ask d (ReqPut n) ;;;
  match snd dr with
  | ReplyErr e => Done (fst dr, n, Some e)
  | ReplyOk _ idx => Done (fst dr, SetIndex idx n, None)
  end.

(** Modelled from the spec:
    [DeleteObjectAtomic(obj) -> error | KeyModified | KeyNotFound]. *)
Definition DeleteObjectAtomic (d : driver) (n : network) : outcome (driver * option error) :=
  dr <- ask d (ReqDelete n) ;;;
  match snd dr with
  | ReplyErr e => Done (fst dr, Some e)
  | ReplyOk _ _ => Done (fst dr, None)
  end.

(** [n.writeToStore()] *)
Definition writeToStore (d : driver) (n : network) : outcome (driver * network * option error) :=
  PutObjectAtomic d n.

(** [d.addNetwork(n)] and [d.deleteNetwork(nid)] *)
Definition addNetwork (d : driver) (n : network) : driver :=
  set_networks (<[net_id n := n]> (networks d)) d.

Definition deleteNetwork (d : driver) (nid : string) : driver :=
  set_networks (delete nid (networks d)) d.

(** ** VXLAN id allocation *)

(** The loop at the end of [releaseVxlanID], over the indices [ks]. *)
Fixpoint release_loop (ks : list nat) (d : driver) (n : network) : outcome (driver * network) :=
  match ks with
  | [] => Done (d, n)
  | k :: rest =>
      v <- vxlanID n k ;;;
      let d' := set_vxlanIdm (Release (uint64 v) (vxlanIdm d)) d in
      n' <- setVxlanID n k 0 ;;;
      release_loop rest d' n'
  end.

(** [n.releaseVxlanID()] *)
Definition releaseVxlanID (d : driver) (n : network) : outcome (driver * network * option error) :=
  match store d with
  | None => Done (d, n, Some (Errorf "no datastore configured. cannot release vxlan id"))
  | Some _ =>
      ss <- n_subnets n ;;;
      if Nat.eqb (length ss) 0 then Done (d, n, None)
      else
        de <- DeleteObjectAtomic d n ;;;
        match snd de with
        | Some err =>
            if bool_decide (err = ErrKeyModified) || bool_decide (err = ErrKeyNotFound)
            then Done (fst de, n, None)
            else Done (fst de, n,
                       Some (Errorf ("failed to delete network to vxlan id map: " +:+ Error err)))
        | None =>
            dn <- release_loop (seq 0 (length ss)) (fst de) n ;;;
            Done (fst dn, snd dn, None)
        end
  end.

(** The [for] loop of [obtainVxlanID] for the subnet at index [i]; every
    turn makes at least one request, so [fuel] turns are enough when the
    script has fewer than [fuel] answers left. *)
Fixpoint obtainVxlanID_loop (fuel : nat) (d : driver) (n : network) (i : nat)
  : outcome (driver * network * option error) :=
  match fuel with
  | O => Blocked
  | S f =>
      g <- GetObject d n ;;;
      let '(d1, n1, gerr) := g in
      match gerr with
      | Some err =>
          Done (d1, n1,
                Some (Errorf ("getting network " +:+ quoted (net_id n1)
                              +:+ " from datastore failed " +:+ Error err)))
      | None =>
          v <- vxlanID n1 i ;;;
          if negb (v =? 0) then Done (d1, n1, None)
          else
            let '(vxlanID_, aerr, idm1) := GetID (vxlanIdm d1) in
            match aerr with
            | Some err =>
                Done (d1, n1, Some (Errorf ("failed to allocate vxlan id: " +:+ Error err)))
            | None =>
                let d2 := set_vxlanIdm idm1 d1 in
                n2 <- setVxlanID n1 i (uint32 vxlanID_) ;;;
                w <- writeToStore d2 n2 ;;;
                let '(d3, n3, werr) := w in
                match werr with
                | Some err =>
                    cur <- vxlanID n3 i ;;;
                    let d4 := set_vxlanIdm (Release (uint64 cur) (vxlanIdm d3)) d3 in
                    n4 <- setVxlanID n3 i 0 ;;;
                    if bool_decide (err = ErrKeyModified) then obtainVxlanID_loop f d4 n4 i
                    else Done (d4, n4,
                               Some (Errorf ("network " +:+ quoted (net_id n4)
                                             +:+ " failed to update data store: " +:+ Error err)))
                | None => Done (d3, n3, None)
                end
            end
      end
  end.

(** [n.obtainVxlanID(s)] with [s = n.subnets[i]] *)
Definition obtainVxlanID (d : driver) (n : network) (i : nat)
  : outcome (driver * network * option error) :=
  v <- vxlanID n i ;;;
  if negb (v =? 0) then Done (d, n, None)
  else
    match store d with
    | None => Done (d, n, Some (Errorf "no datastore configured. cannot obtain vxlan id"))
    | Some script => obtainVxlanID_loop (S (length script)) d n i
    end.

(** ** Creating a network *)

(** The values an option map can hold, as far as [parseNetworkOptions]
    tells them apart. *)
Inductive option_value : Type :=
| OptNil
| OptStringMap (m : gmap string string)
| OptOther.

(** [driverapi.IPAMData], the two fields the driver reads. *)
Record IPAMData := { Pool : option IPNet; Gateway : option IPNet }.

(** The label constants of package [netlabel] and the driver's lazy
    [configure] are declared outside this file. *)
Variable GenericData : string.
Variable DisableDefaultGW : string.
Variable configure : driver -> outcome (driver * option error).

(** [n.parseNetworkOptions(option)] *)
Definition parseNetworkOptions (n : network) (option_ : gmap string option_value) : outcome network :=
  match option_ !! GenericData with
  | Some (OptStringMap m) =>
      match m !! DisableDefaultGW with
      | Some _ =>
          match config n with
          | None => Panic
          | Some c => Done (set_config (Some (set_disableDefaultGW true c)) n)
          end
      | None => Done n
      end
  | _ => Done n
  end.

(** The loop of [CreateNetwork] over the IPv4 pools. *)
Definition append_pool (c : networkConfiguration) (ipd : IPAMData) : networkConfiguration :=
  set_subnets (subnets c ++ [new_subnet (Pool ipd) (Gateway ipd) 0]) c.

(** [d.CreateNetwork(id, option, ipV4Data, ipV6Data)] *)
Definition CreateNetwork (d : driver) (id : string) (option_ : gmap string option_value)
    (ipV4Data ipV6Data : list IPAMData) : outcome (driver * option error) :=
  if String.eqb id "" then Done (d, Some (Errorf "invalid network id"))
  else
    dc <- configure d ;;;
    match snd dc with
    | Some err => Done (fst dc, Some err)
    | None =>
        let n := {| net_id := id; dbIndex := 0; dbExists := false; sbox := None;
                    joinCnt := 0; once := false; initEpoch := 0; initErr := None;
                    config := Some {| subnets := []; disableDefaultGW := false |} |} in
        n1 <- parseNetworkOptions n option_ ;;;
        match config n1 with
        | None => Panic
        | Some c =>
            let n2 := set_config (Some (fold_left append_pool ipV4Data c)) n1 in
            w <- writeToStore (fst dc) n2 ;;;
            let '(d2, n3, werr) := w in
            match werr with
            | Some err =>
                Done (d2, Some (Errorf ("failed to update data store for network " +:+ net_id n3
                                        +:+ ": " +:+ Error err)))
            | None => Done (addNetwork d2 n3, None)
            end
        end
    end.

End Overlay.

(** ** The host: kernel devices, the sandbox facade, the peer database

    These are services the driver calls and does not implement.  [Host]
    holds the answer each call gets; the calls that change something outside
    the driver are recorded, in order, as [effect]s. *)

Record Neigh := { neigh_IP : IP; neigh_State : Z }.

Record NetlinkMessage := { Header_Type : Z; Data : list Z }.

Record Host := {
  Getenv : string -> string;
  createVxlan : string -> Z -> option error;
  deleteVxlan : string -> option error;
  OpenFile : string -> option error;
  LinkByName : string -> option error;
  LinkSetNsFd : string -> option error;
  addNetworkChain : string -> option error;
  removeNetworkChain : string -> option error;
  removeFilters : string -> string -> option error;
  GenerateKey : string -> string;
  NewSandbox : string -> bool -> option error;
  NeighDeserialize : list Z -> option Neigh;
  resolvePeer : string -> IP -> (list Z * IPMask * IP) + error;
  peerAdd : string -> string -> IP -> IPMask -> list Z -> IP -> bool -> option error;
}.

Inductive effect : Type :=
| CreateVxlan (name : string) (id : Z)
| DeleteVxlan (name : string)
| AddNetworkChain (key : string)
| RemoveNetworkChain (key : string)
| RemoveFilters (key br : string)
| IfaceRemove (name : string)
| SandboxNew (key : string) (osCreate : bool)
| SandboxDestroy (key : string)
| PeerDbUpdateSandbox (nid : string)
| SubscribeNeigh
| GoWatchMiss (nid : string)
| PeerAdd (nid eid : string) (ip : IP) (mask : IPMask) (mac : list Z) (vtep : IP) (miss : bool)
| Logged (msg : string).

(** The package-level variables [hostMode] and [hostModeOnce], and the
    effects so far. *)
Record world := { hostMode : bool; hostModeOnce : bool; effects : list effect }.

Definition emit (e : effect) (w : world) : world :=
  {| hostMode := hostMode w; hostModeOnce := hostModeOnce w; effects := effects w ++ [e] |}.

Definition set_hostMode (b : bool) (w : world) : world :=
  {| hostMode := b; hostModeOnce := hostModeOnce w; effects := effects w |}.

Definition set_hostModeOnce (b : bool) (w : world) : world :=
  {| hostMode := hostMode w; hostModeOnce := b; effects := effects w |}.

(** Linux constants of packages [syscall] and [netlink]. *)
Definition RTM_NEWNEIGH : Z := 28.
Definition RTM_GETNEIGH : Z := 30.
Definition NUD_INCOMPLETE : Z := 1.
Definition NUD_STALE : Z := 4.

(** [s[:k]] on a string *)
Definition slice_to (k : nat) (s : string) : outcome string :=
  if Nat.leb k (String.length s) then Done (substring 0 k s) else Panic.

Section Lifecycle.

Variable h : Host.

(** [setHostMode()]; the deferred [deleteVxlan] runs on every return after
    the probe device was created. *)
Definition setHostMode (w : world) : world :=
  if negb (String.eqb (Getenv h "_OVERLAY_HOST_MODE") "") then set_hostMode true w
  else
    let w1 := emit (CreateVxlan "testvxlan" 1) w in
    match createVxlan h "testvxlan" 1 with
    | Some _ => emit (Logged "Failed to create testvxlan interface") w1
    | None =>
        let deferred := emit (DeleteVxlan "testvxlan") in
        match OpenFile h "/proc/self/ns/net" with
        | Some _ =>
            deferred (emit (Logged "Failed to open path for network namespace for setting host mode") w1)
        | None =>
            match LinkByName h "testvxlan" with
            | Some _ => deferred (emit (Logged "Failed to get link testvxlan") w1)
            | None =>
                match LinkSetNsFd h "testvxlan" with
                | Some _ => deferred (set_hostMode true w1)
                | None => deferred w1
                end
            end
        end
  end.

(** [hostModeOnce.Do(setHostMode)] *)
Definition hostModeOnce_Do (w : world) : world :=
  if hostModeOnce w then w else setHostMode (set_hostModeOnce true w).

(** [n.incEndpointCount()] *)
Definition incEndpointCount (n : network) : network :=
  set_joinCnt (wrap_int (joinCnt n + 1)) n.

(** [n.initSandbox()] *)
Definition initSandbox (w : world) (n : network) : outcome (world * network * option error) :=
  let n1 := set_initEpoch (wrap_int (initEpoch n + 1)) n in
  let w1 := hostModeOnce_Do w in
  chain <- (if hostMode w1 then
              key <- slice_to 12 (net_id n1) ;;;
              Done (emit (AddNetworkChain key) w1, addNetworkChain h key)
            else Done (w1, None)) ;;;
  match snd chain with
  | Some err => Done (fst chain, n1, Some err)
  | None =>
      let w2 := fst chain in
      let key := GenerateKey h (pretty (initEpoch n1) +:+ "-" +:+ net_id n1) in
      let w3 := emit (SandboxNew key (negb (hostMode w2))) w2 in
      match NewSandbox h key (negb (hostMode w2)) with
      | Some err =>
          Done (w3, n1, Some (Errorf ("could not create network sandbox: " +:+ Error err)))
      | None =>
          let sb := {| sb_key := key; sb_osCreate := negb (hostMode w2); sb_ifaces := [] |} in
          let n2 := set_sbox (Some sb) n1 in
          let w4 := emit (PeerDbUpdateSandbox (net_id n2)) w3 in
          let w5 := emit SubscribeNeigh w4 in
          Done (emit (GoWatchMiss (net_id n2)) w5, n2, None)
      end
  end.

(** [n.joinSandbox()]: the network's [sync.Once] runs [initSandbox] the
    first time and every caller returns the saved [n.initErr]. *)
Definition joinSandbox (w : world) (n : network) : outcome (world * network * option error) :=
  if once n then Done (w, n, initErr n)
  else
    r <- initSandbox w n ;;;
    let '(w', n', err) := r in
    let n'' := set_once true (set_initErr err n') in
    Done (w', n'', initErr n'').

(** The loop of [destroySandbox] over the subnets. *)
Fixpoint destroy_subnets (nid : string) (ss : list subnet) (w : world) : outcome world :=
  match ss with
  | [] => Done w
  | s :: rest =>
      w1 <- (if hostMode w then
               key <- slice_to 12 nid ;;;
               let w' := emit (RemoveFilters key (brName s)) w in
               match removeFilters h key (brName s) with
               | Some _ => Done (emit (Logged "Could not remove overlay filters") w')
               | None => Done w'
               end
             else Done w) ;;;
      let w2 :=
        if negb (String.eqb (vxlanName s) "") then
          let w' := emit (DeleteVxlan (vxlanName s)) w1 in
          match deleteVxlan h (vxlanName s) with
          | Some _ => emit (Logged "could not cleanup sandbox properly") w'
          | None => w'
          end
        else w1 in
      destroy_subnets nid rest w2
  end.

(** [n.destroySandbox()] *)
Definition destroySandbox (w : world) (n : network) : outcome (world * network) :=
  match sbox n with
  | None => Done (w, n)
  | Some sb =>
      let w1 := fold_left (fun w' iface => emit (IfaceRemove iface) w') (sb_ifaces sb) w in
      ss <- n_subnets n ;;;
      w2 <- destroy_subnets (net_id n) ss w1 ;;;
      w3 <- (if hostMode w2 then
               key <- slice_to 12 (net_id n) ;;;
               let w' := emit (RemoveNetworkChain key) w2 in
               match removeNetworkChain h key with
               | Some _ => Done (emit (Logged "could not remove network chain") w')
               | None => Done w'
               end
             else Done w2) ;;;
      Done (emit (SandboxDestroy (sb_key sb)) w3, set_sbox None n)
  end.

(** [n.leaveSandbox()] *)
Definition leaveSandbox (w : world) (n : network) : outcome (world * network) :=
  let n1 := set_joinCnt (wrap_int (joinCnt n - 1)) n in
  if negb (joinCnt n1 =? 0) then Done (w, n1)
  else
    let n2 := set_once false n1 in
    match config n2 with
    | None => Panic
    | Some c =>
        let n3 := set_config (Some (set_subnets (map (set_s_once false) (subnets c)) c)) n2 in
        destroySandbox w n3
    end.

(** The body of the inner loop of [watchMiss], for one message. *)
Definition watchMiss_msg (nid : string) (w : world) (msg : NetlinkMessage) : world :=
  if negb (Header_Type msg =? RTM_GETNEIGH) && negb (Header_Type msg =? RTM_NEWNEIGH) then w
  else
    match NeighDeserialize h (Data msg) with
    | None => emit (Logged "Failed to deserialize netlink ndmsg") w
    | Some neigh =>
        match To16 (neigh_IP neigh) with
        | Some _ => w
        | None =>
            if Z.land (neigh_State neigh) (Z.lor NUD_STALE NUD_INCOMPLETE) =? 0 then w
            else
              match resolvePeer h nid (neigh_IP neigh) with
              | inr _ => emit (Logged "could not resolve peer") w
              | inl (mac, IPmask, vtep) =>
                  let w1 := emit (PeerAdd nid "dummy" (neigh_IP neigh) IPmask mac vtep true) w in
                  match peerAdd h nid "dummy" (neigh_IP neigh) IPmask mac vtep true with
                  | Some _ => emit (Logged "could not add neighbor entry for missed peer") w1
                  | None => w1
                  end
              end
        end
    end.

(** [n.watchMiss(nlSock)] over the results of the successive
    [nlSock.Receive()] calls: a failed receive is logged and the loop goes
    on. *)
Fixpoint watchMiss (nid : string) (recvs : list (list NetlinkMessage + error)) (w : world) : world :=
  match recvs with
  | [] => w
  | inr _ :: rest => watchMiss nid rest (emit (Logged "Failed to receive from netlink") w)
  | inl msgs :: rest => watchMiss nid rest (fold_left (watchMiss_msg nid) msgs w)
  end.

End Lifecycle.

(** ** A text codec for IPv4 networks

    An instance of the two functions the driver takes from outside, for
    IPv4 networks in CIDR notation: [String_] prints as [IPNet.String] does,
    [Parse] keeps the address as written, in 16-byte form, with a 4-byte
    mask.  It is what the examples run on. *)
Module IPv4Text.

Definition itoa (z : Z) : string := pretty z.

Definition dotted (ip : list Z) : string :=
  match ip with
  | [a; b; c; d] => itoa a +:+ "." +:+ itoa b +:+ "." +:+ itoa c +:+ "." +:+ itoa d
  | _ => "?"
  end.

Definition hexdigit (z : Z) : string :=
  String (ascii_of_nat (Z.to_nat (if z <? 10 then 48 + z else 87 + z))) EmptyString.

Fixpoint hex (m : list Z) : string :=
  match m with
  | [] => ""
  | b :: rest => hexdigit (Z.shiftr b 4) +:+ hexdigit (Z.land b 15) +:+ hex rest
  end.

Definition String_ (n : IPNet) : string :=
  match networkNumberAndMask n with
  | None => "<nil>"
  | Some (nn, m) =>
      let l := simpleMaskLength m in
      if l =? -1 then dotted nn +:+ "/" +:+ hex m
      else dotted nn +:+ "/" +:+ itoa l
  end.

Definition digit_of (c : ascii) : option Z :=
  let n := nat_of_ascii c in
  if (Nat.leb 48 n && Nat.leb n 57)%bool then Some (Z.of_nat n - 48) else None.

Fixpoint dtoi_from (acc : Z) (s : string) : option Z :=
  match s with
  | EmptyString => Some acc
  | String c r =>
      match digit_of c with
      | None => None
      | Some d => dtoi_from (acc * 10 + d) r
      end
  end.

Definition dtoi (s : string) : option Z :=
  match s with
  | EmptyString => None
  | _ => dtoi_from 0 s
  end.

Fixpoint split (sep : ascii) (s : string) : list string :=
  match s with
  | EmptyString => [EmptyString]
  | String c r =>
      if Ascii.eqb c sep then EmptyString :: split sep r
      else
        match split sep r with
        | w :: ws => String c w :: ws
        | [] => [String c EmptyString]
        end
  end.

Fixpoint CIDRMask (len : nat) (ones : Z) : IPMask :=
  match len with
  | O => []
  | S len' =>
      if 8 <=? ones then 255 :: CIDRMask len' (ones - 8)
      else (255 - Z.shiftr 255 ones) :: CIDRMask len' 0
  end.

Definition byte_of (s : string) : option Z :=
  match dtoi s with
  | Some z => if z <=? 255 then Some z else None
  | None => None
  end.

Definition Parse (s : string) : option IPNet :=
  match split "/" s with
  | [addr; mask] =>
      match split "." addr, dtoi mask with
      | [a; b; c; d], Some n =>
          match byte_of a, byte_of b, byte_of c, byte_of d with
          | Some a', Some b', Some c', Some d' =>
              if n <=? 32
              then Some {| ipnet_IP := IPv4 a' b' c' d'; ipnet_Mask := CIDRMask 4 n |}
              else None
          | _, _, _, _ => None
          end
      | _, _ => None
      end
  | _ => None
  end.

(** [10.0.1.0/24] with gateway [10.0.1.1/24], as the decoder builds them. *)
Definition pool1 : IPNet := {| ipnet_IP := IPv4 10 0 1 0; ipnet_Mask := [255; 255; 255; 0] |}.
Definition gw1 : IPNet := {| ipnet_IP := IPv4 10 0 1 1; ipnet_Mask := [255; 255; 255; 0] |}.
Definition pool2 : IPNet := {| ipnet_IP := IPv4 192 168 0 0; ipnet_Mask := [255; 255; 0; 0] |}.
Definition gw2 : IPNet := {| ipnet_IP := IPv4 192 168 0 1; ipnet_Mask := [255; 255; 0; 0] |}.

End IPv4Text.

(** ** Concrete hosts, networks and drivers for the examples *)
Module Examples.
Import IPv4Text.

(** A host whose probe steps answer [create], [open], [link] and [move],
    with the environment variable set to [env]; neighbour messages carry
    the address as their payload, in state [NUD_STALE], and every peer is
    known. *)
Definition mk_host (env : string) (create open link move : option error) : Host :=
  {| Getenv := fun _ => env;
     createVxlan := fun _ _ => create;
     deleteVxlan := fun _ => None;
     OpenFile := fun _ => open;
     LinkByName := fun _ => link;
     LinkSetNsFd := fun _ => move;
     addNetworkChain := fun _ => None;
     removeNetworkChain := fun _ => None;
     removeFilters := fun _ _ => None;
     GenerateKey := fun s => "/var/run/docker/netns/" +:+ s;
     NewSandbox := fun _ _ => None;
     NeighDeserialize := fun data => Some {| neigh_IP := data; neigh_State := NUD_STALE |};
     resolvePeer := fun _ _ => inl ([2; 66; 10; 0; 0; 2], [255; 255; 255; 0], [192; 168; 1; 7]);
     peerAdd := fun _ _ _ _ _ _ _ => None |}.

Definition good_host : Host := mk_host "" None None None None.
Definition no_vxlan_host : Host := mk_host "" (Some (Errorf "operation not supported")) None None None.
Definition no_ns_host : Host := mk_host "" None (Some (Errorf "permission denied")) None None.

Definition w0 : world := {| hostMode := false; hostModeOnce := false; effects := [] |}.

(** A network as [CreateNetwork] builds it, with the given subnets. *)
Definition mk_network (id : string) (ss : list subnet) : network :=
  {| net_id := id; dbIndex := 0; dbExists := false; sbox := None;
     joinCnt := 0; once := false; initEpoch := 0; initErr := None;
     config := Some {| subnets := ss; disableDefaultGW := false |} |}.

(** A network as [getNetworkFromStore] allocates it before decoding. *)
Definition blank_network (id : string) : network :=
  {| net_id := id; dbIndex := 0; dbExists := false; sbox := None;
     joinCnt := 0; once := false; initEpoch := 0; initErr := None;
     config := None |}.

Definition net1 : network := mk_network "n1" [new_subnet (Some pool1) (Some gw1) 0].
Definition net1_300 : network := mk_network "n1" [new_subnet (Some pool1) (Some gw1) 300].

(** An RTM_GETNEIGH message for the IPv4 address 10.0.0.2. *)
Definition miss_msg : NetlinkMessage := {| Header_Type := RTM_GETNEIGH; Data := [10; 0; 0; 2] |}.

(** A driver with the allocator range of the upstream driver and the given
    store and live identifiers. *)
Definition mk_driver (st : option (list reply)) (live : gset Z) : driver :=
  {| networks := ∅; store := st; store_log := [];
     vxlanIdm := {| idm_start := 256; idm_end := 1000; idm_live := live |} |}.

(** The stored value of [net1] before and after another host assigned the
    identifier 300 to its subnet. *)
Definition stored1 : jvalue :=
  JObj [("disableDefaultGW", JBool false);
        ("subnets", JArr [JObj [("gwIP", JStr "10.0.1.1/24");
                                ("subnetIP", JStr "10.0.1.0/24");
                                ("vni", JNum 0)]])].

Definition stored1_300 : jvalue :=
  JObj [("disableDefaultGW", JBool false);
        ("subnets", JArr [JObj [("gwIP", JStr "10.0.1.1/24");
                                ("subnetIP", JStr "10.0.1.0/24");
                                ("vni", JNum 300)]])].

(** A store that answers the first put with [KeyModified] and accepts the
    second. *)
Definition retry_driver : driver :=
  mk_driver (Some [ReplyOk stored1 1; ReplyErr ErrKeyModified;
                   ReplyOk stored1 2; ReplyOk JNull 3]) ∅.

(** A store on which another host wins the race with identifier 300. *)
Definition lost_race_driver : driver :=
  mk_driver (Some [ReplyOk stored1 1; ReplyErr ErrKeyModified;
                   ReplyOk stored1_300 2]) ∅.

(** A host on which the sandbox facade refuses to make a sandbox. *)
Definition no_sandbox_host : Host :=
  {| Getenv := fun _ => "";
     createVxlan := fun _ _ => None;
     deleteVxlan := fun _ => None;
     OpenFile := fun _ => None;
     LinkByName := fun _ => None;
     LinkSetNsFd := fun _ => None;
     addNetworkChain := fun _ => None;
     removeNetworkChain := fun _ => None;
     removeFilters := fun _ _ => None;
     GenerateKey := fun s => "/var/run/docker/netns/" +:+ s;
     NewSandbox := fun _ _ => Some (Errorf "too many open files");
     NeighDeserialize := fun _ => None;
     resolvePeer := fun _ _ => inr (Errorf "no such peer");
     peerAdd := fun _ _ _ _ _ _ _ => None |}.

(** A configuration as the address manager hands the pools over: the
    addresses in 4-byte form, the second subnet already decoded once. *)
Definition cfg_ipam : networkConfiguration :=
  {| subnets :=
       [new_subnet (Some {| ipnet_IP := [10; 0; 1; 0]; ipnet_Mask := [255; 255; 255; 0] |})
                   (Some {| ipnet_IP := [10; 0; 1; 1]; ipnet_Mask := [255; 255; 255; 0] |}) 42;
        new_subnet (Some pool2) (Some gw2) 0];
     disableDefaultGW := true |}.

End Examples.

(** ** Vocabulary of the statements *)

Definition is_JBool (v : jvalue) : bool := match v with JBool _ => true | _ => false end.
Definition is_JNum (v : jvalue) : bool := match v with JNum _ => true | _ => false end.
Definition is_JStr (v : jvalue) : bool := match v with JStr _ => true | _ => false end.

(** A subnet object with a type assertion that fails: ["vni"] is missing or
    not a number; or ["gwIP"] is not a string; or ["gwIP"] is a CIDR and
    ["subnetIP"] is not a string. *)
Definition bad_subnet_object (ParseCIDR : string -> option IPNet)
    (o : list (string * jvalue)) : bool :=
  negb (is_JNum (jget "vni" o))
  || negb (is_JStr (jget "gwIP" o))
  || (match jget "gwIP" o with
      | JStr g => bool_decide (is_Some (ParseCIDR g))
      | _ => false
      end && negb (is_JStr (jget "subnetIP" o))).

(** A JSON object without a boolean ["disableDefaultGW"], or whose
    ["subnets"] array starts with a bad subnet object. *)
Definition bad_value (ParseCIDR : string -> option IPNet) (value : jvalue) : bool :=
  match value with
  | JObj m =>
      negb (is_JBool (jget "disableDefaultGW" m))
      || (match jget "subnets" m with
          | JArr (JObj o :: _) => bad_subnet_object ParseCIDR o
          | _ => false
          end)
  | _ => false
  end.

(** Modelled from the spec: the encoder of the previous persisted format,
    which the sources no longer have.  It is the bare array of [subnetJSON]
    records, as [json.Marshal] writes a [[]subnetJSON] with the networks in
    text form. *)
Definition legacy_record (IPNet_String : IPNet -> string) (s : subnet) : outcome jvalue :=
  match subnetIP s with
  | None => Panic
  | Some ip =>
      match gwIP s with
      | None => Panic
      | Some gw =>
          Done (JObj [("SubnetIP", JStr (IPNet_String ip));
                      ("GwIP", JStr (IPNet_String gw));
                      ("Vni", JNum (vni s))])
      end
  end.

(** Modelled from the spec: the records of [legacyEncoding], in order. *)
Fixpoint legacy_records (IPNet_String : IPNet -> string) (ss : list subnet)
  : outcome (list jvalue) :=
  match ss with
  | [] => Done []
  | s :: rest =>
      j <- legacy_record IPNet_String s ;;;
      js <- legacy_records IPNet_String rest ;;;
      Done (j :: js)
  end.

(** Modelled from the spec: the legacy encoding of a configuration. *)
Definition legacyEncoding (IPNet_String : IPNet -> string) (nc : networkConfiguration)
  : outcome jvalue :=
  js <- legacy_records IPNet_String (subnets nc) ;;; Done (JArr js).

(** Two networks are the same when their addresses are equal as
    [IP.Equal] has it (an IPv4 address in 4-byte and in 16-byte form are
    equal) and their masks are the same bytes. *)
Definition same_net (a b : IPNet) : bool :=
  IP_Equal (ipnet_IP a) (ipnet_IP b) && bytesEqual (ipnet_Mask a) (ipnet_Mask b).

Definition same_opt_net (a b : option IPNet) : bool :=
  match a, b with
  | Some x, Some y => same_net x y
  | None, None => true
  | _, _ => false
  end.

(** Two subnets agree on what is persisted of them. *)
Definition same_subnet (s s' : subnet) : bool :=
  same_opt_net (subnetIP s) (subnetIP s')
  && same_opt_net (gwIP s) (gwIP s')
  && (vni s =? vni s').

(** A network whose text form parses, to the same network. *)
Definition parseable (IPNet_String : IPNet -> string) (ParseCIDR : string -> option IPNet)
    (c : option IPNet) : bool :=
  match c with
  | Some x =>
      match ParseCIDR (IPNet_String x) with
      | Some y => same_net x y
      | None => false
      end
  | None => false
  end.

(** A well-formed subnet: both networks are parseable and the [vni] is a
    [uint32]. *)
Definition well_formed (IPNet_String : IPNet -> string) (ParseCIDR : string -> option IPNet)
    (s : subnet) : bool :=
  parseable IPNet_String ParseCIDR (subnetIP s)
  && parseable IPNet_String ParseCIDR (gwIP s)
  && (0 <=? vni s) && (vni s <? 2 ^ 32).

(** The subnet [SetValue] builds from a decoded one. *)
Definition rebuilt (s : subnet) : subnet := new_subnet (subnetIP s) (gwIP s) (vni s).

(** Two lists of subnets agree, one by one and in order. *)
Definition same_subnets (ss ss' : list subnet) : Prop :=
  Forall2 (fun s s' => same_subnet s s' = true) ss ss'.

(** A network that has no subnets yet: new, or just allocated for a read
    from the store. *)
Definition no_subnets_yet (n : network) : bool :=
  match config n with
  | None => true
  | Some c => Nat.eqb (length (subnets c)) 0
  end.

(** The allocator after the identifiers of the subnets [ss] were released. *)
Definition released (ss : list subnet) (i : Idm) : Idm :=
  {| idm_start := idm_start i; idm_end := idm_end i;
     idm_live := idm_live i ∖ list_to_set (map (fun s => uint64 (vni s)) ss) |}.

(** The network with every [vni] set to 0. *)
Definition zeroed (n : network) : network :=
  match config n with
  | None => n
  | Some c => set_config (Some (set_subnets (map (set_vni 0) (subnets c)) c)) n
  end.

(** The driver after the request [q] took one answer, leaving [rest]. *)
Definition asked (d : driver) (q : request) (rest : list reply) : driver :=
  {| networks := networks d; store := Some rest;
     store_log := store_log d ++ [q]; vxlanIdm := vxlanIdm d |}.

(** The subnet [CreateNetwork] makes of an IPv4 pool. *)
Definition pool_subnet (ipd : IPAMData) : subnet :=
  new_subnet (Pool ipd) (Gateway ipd) 0.

(** The allocator's range lies in the 24-bit identifier space, 0 left out. *)
Definition idm_in_range (i : Idm) : bool :=
  (1 <=? idm_start i) && (idm_end i <? 2 ^ 24).

(** What a finished [obtainVxlanID] on subnet [i] guarantees, from driver
    [d] to driver [d'] and network [n'].  On success the subnet has a
    non-zero [vni] and either the allocator is as before (the identifier was
    already there or came from the store) or exactly that identifier was
    added to the live ones and the last request was the put of a network
    carrying it.  On an error the subnet has no [vni] and the allocator is
    as before. *)
Definition obtain_post (i : nat) (d d' : driver) (n' : network) (err : option error) : Prop :=
  match err with
  | None =>
      exists v,
        vxlanID n' i = Done v /\ v <> 0 /\
        (vxlanIdm d' = vxlanIdm d \/
         ((v ∉ idm_live (vxlanIdm d)) /\
          idm_live (vxlanIdm d') = idm_live (vxlanIdm d) ∪ {[v]} /\
          exists n_put, last (store_log d') = Some (ReqPut n_put) /\ vxlanID n_put i = Done v))
  | Some _ => vxlanID n' i = Done 0 /\ vxlanIdm d' = vxlanIdm d
  end.

(** The three operations on a network's sandbox, and runs of them. *)
Inductive op : Type := IncEndpointCount | JoinSandbox | LeaveSandbox.

Definition step (h : Host) (st : world * network) (o : op) : outcome (world * network) :=
  match o with
  | IncEndpointCount => Done (fst st, incEndpointCount (snd st))
  | JoinSandbox => r <- joinSandbox h (fst st) (snd st) ;;; Done (fst (fst r), snd (fst r))
  | LeaveSandbox => leaveSandbox h (fst st) (snd st)
  end.

Fixpoint run (h : Host) (st : world * network) (ops : list op) : outcome (world * network) :=
  match ops with
  | [] => Done st
  | o :: rest => st' <- step h st o ;;; run h st' rest
  end.

(** The invariant of the specification. *)
Definition count_matches_sandbox (n : network) : Prop :=
  0 <= joinCnt n /\ (sbox n <> None <-> 0 < joinCnt n).

(** The same with what the code needs to keep it: a network nobody has
    joined has a fresh [sync.Once]. *)
Definition lifecycle_inv (n : network) : Prop :=
  count_matches_sandbox n /\ (joinCnt n = 0 -> once n = false).

(** What the endpoint hooks of the driver do with a network. *)
Inductive endpoint_op : Type := Join | Leave.

(** A run of endpoint operations in which every join finds the sandbox
    initialised without error and every leave is the leave of an endpoint
    that has joined. *)
Inductive disciplined (h : Host) : world * network -> list endpoint_op -> world * network -> Prop :=
| disciplined_nil st : disciplined h st [] st
| disciplined_join w n st' eops st'' :
    run h (w, n) [IncEndpointCount; JoinSandbox] = Done st' ->
    initErr (snd st') = None ->
    disciplined h st' eops st'' ->
    disciplined h (w, n) (Join :: eops) st''
| disciplined_leave w n st' eops st'' :
    0 < joinCnt n ->
    run h (w, n) [LeaveSandbox] = Done st' ->
    disciplined h st' eops st'' ->
    disciplined h (w, n) (Leave :: eops) st''.

(** ** The registry: lookup with hydration from the store, and removal *)

Section Registry.

Variable ParseCIDR : string -> option IPNet.

(** [&network{id: nid}]: every other field has its zero value. *)
Definition zero_network (nid : string) : network :=
  {| net_id := nid; dbIndex := 0; dbExists := false; sbox := None;
     joinCnt := 0; once := false; initEpoch := 0; initErr := None;
     config := None |}.

(** [d.getNetworkFromStore(nid)]: [None] is the nil result. *)
Definition getNetworkFromStore (d : driver) (nid : string) : outcome (driver * option network) :=
  match store d with
  | None => Done (d, None)
  | Some _ =>
      g <- GetObject ParseCIDR d (zero_network nid) ;;;
      match snd g with
      | Some _ => Done (fst (fst g), None)
      | None => Done (fst (fst g), Some (snd (fst g)))
      end
  end.

(** [d.network(nid)]: a network read from the store gets a fresh
    [sync.Once] and is put into the registry. *)
Definition driver_network (d : driver) (nid : string) : outcome (driver * option network) :=
  match networks d !! nid with
  | Some n => Done (d, Some n)
  | None =>
      r <- getNetworkFromStore d nid ;;;
      match snd r with
      | None => Done (fst r, None)
      | Some n =>
          let n' := set_once false n in
          Done (set_networks (<[nid := n']> (networks (fst r))) (fst r), Some n')
      end
  end.

(** [d.DeleteNetwork(nid)] *)
Definition DeleteNetwork (d : driver) (nid : string) : outcome (driver * option error) :=
  if String.eqb nid "" then Done (d, Some (Errorf "invalid network id"))
  else
    r <- driver_network d nid ;;;
    match snd r with
    | None => Done (fst r, Some (Errorf ("could not find network with id " +:+ nid)))
    | Some n =>
        let d1 := deleteNetwork (fst r) nid in
        rel <- releaseVxlanID d1 n ;;;
        Done (fst (fst rel), snd rel)
    end.

End Registry.

(** ** Vocabulary of the further statements *)

(** Two networks differ at most in their configuration. *)
Definition same_shell (n n' : network) : Prop :=
  net_id n' = net_id n /\ dbIndex n' = dbIndex n /\ dbExists n' = dbExists n /\
  sbox n' = sbox n /\ joinCnt n' = joinCnt n /\ once n' = once n /\
  initEpoch n' = initEpoch n /\ initErr n' = initErr n.

(** An effect the neighbour watcher may have: a log line, or a [peerAdd]
    for its network, marked as coming from a miss, whose address has no
    16-byte form. *)
Definition miss_effect (nid : string) (e : effect) : Prop :=
  match e with
  | Logged _ => True
  | PeerAdd nid' eid ip _ _ _ miss =>
      nid' = nid /\ eid = "dummy" /\ miss = true /\ To16 ip = None
  | _ => False
  end.

(** The test of [getSubnetforIP]: the subnet has the mask length of the
    address and its network contains the address. *)
Definition covers (ipn : IPNet) (s : subnet) : bool :=
  match subnetIP s with
  | Some sn =>
      (fst (Size (ipnet_Mask sn)) =? fst (Size (ipnet_Mask ipn)))
      && Contains sn (ipnet_IP ipn)
  | None => false
  end.

(** The test of [getMatchingSubnet]: the subnet has the mask length of the
    network given and the same address. *)
Definition matches (ipn : IPNet) (s : subnet) : bool :=
  match subnetIP s with
  | Some sn =>
      (fst (Size (ipnet_Mask sn)) =? fst (Size (ipnet_Mask ipn)))
      && IP_Equal (ipnet_IP sn) (ipnet_IP ipn)
  | None => false
  end.

(** [r] is the index of the first element of [ss] that passes [test], or
    nil when none does. *)
Definition first_passing (test : subnet -> bool) (ss : list subnet) (r : option nat) : Prop :=
  match r with
  | Some k =>
      (exists s, ss !! k = Some s /\ test s = true) /\
      (forall j s', (j < k)%nat -> ss !! j = Some s' -> test s' = false)
  | None => forall s, In s ss -> test s = false
  end.

(** Every subnet has its [subnetIP]. *)
Definition addressed (ss : list subnet) : Prop :=
  Forall (fun s => subnetIP s <> None) ss.

(** ** Bringing a subnet up: device names and [initSubnetSandbox] *)

(** A lower-case hexadecimal digit. *)
Definition hex_char (d : Z) : ascii :=
  ascii_of_nat (Z.to_nat (if d <? 10 then 48 + d else 87 + d)).

(** The hexadecimal digits of [v], most significant first, without leading
    zeros; [fuel] digits are enough for [v < 16 ^ fuel]. *)
Fixpoint hex_digits (fuel : nat) (v : Z) : string :=
  match fuel with
  | O => EmptyString
  | S f =>
      if v <? 16 then String (hex_char v) EmptyString
      else hex_digits f (v / 16) +:+ String (hex_char (v mod 16)) EmptyString
  end.

Fixpoint zeros (k : nat) : string :=
  match k with
  | O => EmptyString
  | S k' => String "0"%char (zeros k')
  end.

(** [fmt.Sprintf("%06x", v)] for a [uint32]: at least six digits, padded
    with zeros on the left. *)
Definition Sprintf_06x (v : Z) : string :=
  let s := hex_digits 8 v in
  zeros (6 - String.length s) +:+ s.

(** [n.generateVxlanName(s)] and [n.generateBridgeName(s)] for the subnet
    at index [i]. *)
Definition generateVxlanName (n : network) (i : nat) : outcome string :=
  v <- vxlanID n i ;;;
  p <- slice_to 5 (net_id n) ;;;
  Done ("vx-" +:+ Sprintf_06x v +:+ "-" +:+ p).

Definition generateBridgeName (n : network) (i : nat) : outcome string :=
  v <- vxlanID n i ;;;
  p <- slice_to 5 (net_id n) ;;;
  Done ("ov-" +:+ Sprintf_06x v +:+ "-" +:+ p).

(** The further services [initSubnetSandbox] calls: the host's resolver
    configuration and routes (packages [resolvconf] and [netutils]), the
    sandbox's [AddInterface] and the filter installation. *)
Record SubnetHost := {
  nameservers : option (list string);    (* nil when resolv.conf cannot be read *)
  CheckNameserverOverlaps : list string -> option IPNet -> option error;
  CheckRouteOverlaps : option IPNet -> option error;
  AddInterface : string -> string -> string -> option error;
  addFilters : string -> string -> option error;
}.

(** The calls [initSubnetSandbox] makes that change something outside the
    driver, in order: kernel calls, interfaces added to the sandbox with
    their options, filters installed. *)
Inductive call : Type :=
| Kernel (e : effect)
| SandboxAddInterface (key name kind : string) (address : option IPNet)
    (bridge : bool) (master : string)
| AddFilters (key br : string).

Definition set_names (vx br : string) (s : subnet) : subnet :=
  {| s_once := s_once s; vxlanName := vx; brName := br; vni := vni s;
     s_initErr := s_initErr s; subnetIP := subnetIP s; gwIP := gwIP s |}.

Definition set_s_initErr (e : option error) (s : subnet) : subnet :=
  {| s_once := s_once s; vxlanName := vxlanName s; brName := brName s; vni := vni s;
     s_initErr := e; subnetIP := subnetIP s; gwIP := gwIP s |}.

(** Modelled from the spec: [Sandbox.AddInterface], as far as the driver
    sees it again: the sandbox reports the interface among its
    interfaces. *)
Definition with_iface (name : string) (sb : Sandbox) : Sandbox :=
  {| sb_key := sb_key sb; sb_osCreate := sb_osCreate sb; sb_ifaces := sb_ifaces sb ++ [name] |}.

(** Updating the subnet at index [i] in place. *)
Definition update_subnet (f : subnet -> subnet) (i : nat) (n : network) : outcome network :=
  match config n with
  | None => Panic
  | Some c =>
      match subnets c !! i with
      | None => Panic
      | Some s => Done (set_config (Some (set_subnets (<[i := f s]> (subnets c)) c)) n)
      end
  end.

Section SubnetBringUp.

Variable h : Host.
Variable x : SubnetHost.
Variable IPNet_String : IPNet -> string.

(** [isOverlap(nw)] *)
Definition isOverlap (nw : option IPNet) : bool :=
  let ns := default [] (nameservers x) in
  match CheckNameserverOverlaps x ns nw with
  | Some _ => true
  | None =>
      match CheckRouteOverlaps x nw with
      | Some _ => true
      | None => false
      end
  end.

(** [s.subnetIP.String()] in an error message. *)
Definition subnet_text (s : subnet) : outcome string :=
  match subnetIP s with
  | None => Panic
  | Some ip => Done (IPNet_String ip)
  end.

(** [n.initSubnetSandbox(s)] for the subnet at index [i]: the calls made,
    the network and the error.  The package variable [hostMode] is read
    from the world. *)
Definition initSubnetSandbox (w : world) (n : network) (i : nat)
  : outcome (list call * network * option error) :=
  ss <- n_subnets n ;;;
  match ss !! i with
  | None => Panic
  | Some s =>
      if hostMode w && isOverlap (subnetIP s) then
        t <- subnet_text s ;;;
        Done ([], n,
              Some (Errorf ("overlay subnet " +:+ t
                            +:+ " has conflicts in the host while running in host mode")))
      else
        brName_ <- generateBridgeName n i ;;;
        match sbox n with
        | None => Panic
        | Some sb =>
            let c1 := SandboxAddInterface (sb_key sb) brName_ "br" (gwIP s) true "" in
            match AddInterface x (sb_key sb) brName_ "br" with
            | Some err =>
                t <- subnet_text s ;;;
                Done ([c1], n,
                      Some (Errorf ("bridge creation in sandbox failed for subnet "
                                    +:+ quoted t +:+ ": " +:+ Error err)))
            | None =>
                let n1 := set_sbox (Some (with_iface brName_ sb)) n in
                vxlanName_ <- generateVxlanName n1 i ;;;
                let c2 := Kernel (DeleteVxlan vxlanName_) in
                v <- vxlanID n1 i ;;;
                let c3 := Kernel (CreateVxlan vxlanName_ v) in
                match createVxlan h vxlanName_ v with
                | Some err => Done ([c1; c2; c3], n1, Some err)
                | None =>
                    let c4 := SandboxAddInterface (sb_key sb) vxlanName_ "vxlan" None
                                false brName_ in
                    match AddInterface x (sb_key sb) vxlanName_ "vxlan" with
                    | Some err =>
                        t <- subnet_text s ;;;
                        Done ([c1; c2; c3; c4], n1,
                              Some (Errorf ("vxlan interface creation failed for subnet "
                                            +:+ quoted t +:+ ": " +:+ Error err)))
                    | None =>
                        let n2 :=
                          set_sbox (Some (with_iface vxlanName_ (with_iface brName_ sb))) n1 in
                        filt <- (if hostMode w then
                                   key <- slice_to 12 (net_id n2) ;;;
                                   Done ([AddFilters key brName_], addFilters x key brName_)
                                 else Done ([], None)) ;;;
                        match snd filt with
                        | Some err => Done ([c1; c2; c3; c4] ++ fst filt, n2, Some err)
                        | None =>
                            n3 <- update_subnet (set_names vxlanName_ brName_) i n2 ;;;
                            Done ([c1; c2; c3; c4] ++ fst filt, n3, None)
                        end
                    end
                end
            end
        end
  end.

(** [n.joinSubnetSandbox(s)]: the subnet's [sync.Once] runs
    [initSubnetSandbox] the first time and every caller returns the saved
    [s.initErr]. *)
Definition joinSubnetSandbox (w : world) (n : network) (i : nat)
  : outcome (list call * network * option error) :=
  ss <- n_subnets n ;;;
  match ss !! i with
  | None => Panic
  | Some s =>
      if s_once s then Done ([], n, s_initErr s)
      else
        r <- initSubnetSandbox w n i ;;;
        let '(calls, n1, err) := r in
        n2 <- update_subnet (fun s' => set_s_once true (set_s_initErr err s')) i n1 ;;;
        Done (calls, n2, err)
  end.

End SubnetBringUp.

(** Reading a hexadecimal number back. *)
Definition hex_value (c : ascii) : Z :=
  let k := Z.of_nat (nat_of_ascii c) in
  if k <? 58 then k - 48 else k - 87.

Fixpoint unhex_from (acc : Z) (s : string) : Z :=
  match s with
  | EmptyString => acc
  | String c r => unhex_from (acc * 16 + hex_value c) r
  end.

Definition unhex (s : string) : Z := unhex_from 0 s.

(** The network [CreateNetwork] builds before it writes it to the store;
    [b] tells whether the options disable the default gateway. *)
Definition created_network (id : string) (ipV4Data : list IPAMData) (b : bool) : network :=
  {| net_id := id; dbIndex := 0; dbExists := false; sbox := None;
     joinCnt := 0; once := false; initEpoch := 0; initErr := None;
     config := Some (fold_left append_pool ipV4Data
                       {| subnets := []; disableDefaultGW := b |}) |}.

(** The generic options are a string map that has the key
    [DisableDefaultGW], whatever its value. *)
Definition disables_gateway (GenericData DisableDefaultGW : string)
    (opts : gmap string option_value) : Prop :=
  exists m, opts !! GenericData = Some (OptStringMap m) /\ is_Some (m !! DisableDefaultGW).

(** * The bridge driver: setting up the bridge device *)

Module Bridge.

(** [byte(x)] of an [int]. *)
Definition byte (z : Z) : Z := z mod 256.

(** [generateRandomMAC()]; [Intn n k] is what the [k]-th call of the
    function, [rand.Intn(n)], returns. *)
Definition generateRandomMAC (Intn : Z -> nat -> Z) : list Z :=
  let hw := replicate 6 0 in
  let hw := fold_left (fun hw i => <[i := byte (Intn 255 i)]> hw) (seq 0 6) hw in
  let hw := <[0%nat := Z.ldiff (hw !!! 0%nat) 1]> hw in  (* clear multicast bit *)
  <[0%nat := Z.lor (hw !!! 0%nat) 2]> hw.                (* set local assignment bit *)

(** [netlink.Bridge], the attributes this file sets; a nil
    [HardwareAddr] is [None]. *)
Record Link_ := { Name : string; HardwareAddr : option (list Z) }.

(** [bridgeInterface]: of the configuration only [BridgeName] is read
    here; a nil [Config] is [None], and so is a nil [Link]. *)
Record bridgeInterface := { Config_BridgeName : option string; Link : option Link_ }.

Definition set_Link (l : option Link_) (i : bridgeInterface) : bridgeInterface :=
  {| Config_BridgeName := Config_BridgeName i; Link := l |}.

(** [kernel.VersionInfo] *)
Record VersionInfo := { kv_Kernel : Z; kv_Major : Z; kv_Minor : Z }.

(** The calls made to package [netlink], in order. *)
Inductive nl_call : Type :=
| LinkAdd (l : Link_)
| LinkSetUp (l : option Link_)
| LinkByName (name : string).

(** What the host answers: the kernel version and the results of the
    netlink calls. *)
Record Netlink := {
  GetKernelVersion : VersionInfo + error;
  LinkAdd_result : Link_ -> option error;
  LinkSetUp_result : option Link_ -> option error;
  LinkByName_result : string -> Link_ + error;
}.

Section SetupDevice.

(** The constant [DefaultBridgeName] is declared in another file of the
    package. *)
Variable DefaultBridgeName : string.
Variable nl : Netlink.
Variable Intn : Z -> nat -> Z.

(** [setupDevice(i)] *)
Definition setupDevice (i : bridgeInterface)
  : outcome (bridgeInterface * list nl_call * option error) :=
  match Config_BridgeName i with
  | None => Panic
  | Some name =>
      if negb (String.eqb name DefaultBridgeName) then
        Done (i, [],
              Some (Errorf ("bridge device with non default name " +:+ quoted name
                            +:+ " must be created manually")))
      else
        let link := {| Name := name; HardwareAddr := None |} in
        let link :=
          match GetKernelVersion nl with
          | inl kv =>
              if (3 <=? kv_Kernel kv) && (3 <=? kv_Major kv)
              then {| Name := Name link; HardwareAddr := Some (generateRandomMAC Intn) |}
              else link
          | inr _ => link
          end in
        Done (set_Link (Some link) i, [LinkAdd link], LinkAdd_result nl link)
  end.

(** [setupDeviceUp(i)] *)
Definition setupDeviceUp (i : bridgeInterface)
  : outcome (bridgeInterface * list nl_call * option error) :=
  match LinkSetUp_result nl (Link i) with
  | Some err => Done (i, [LinkSetUp (Link i)], Some err)
  | None =>
      match Config_BridgeName i with
      | None => Panic
      | Some name =>
          match LinkByName_result nl name with
          | inl lnk => Done (set_Link (Some lnk) i, [LinkSetUp (Link i); LinkByName name], None)
          | inr _ => Done (i, [LinkSetUp (Link i); LinkByName name], None)
          end
      end
  end.

End SetupDevice.

(** A hardware address as [generateRandomMAC] promises it: six bytes, the
    first one with the multicast bit clear and the local bit set. *)
Definition local_unicast (hw : list Z) : Prop :=
  length hw = 6%nat /\
  Forall (fun b => 0 <= b < 256) hw /\
  exists b0 rest, hw = b0 :: rest /\ Z.testbit b0 0 = false /\ Z.testbit b0 1 = true.

End Bridge.

(** * The controller: the configuration handed to a driver *)

Module Drivers.

Section DriverConfig.

(** Values of other packages that are only passed on: the store's
    configuration ([*store.Config]) and whatever else a configuration map
    holds as [interface{}]. *)
Variable StoreConfig : Type.
Variable Any : Type.

(** [datastore.ScopeClientCfg] and [datastore.ScopeCfg] *)
Record ScopeClientCfg := { Provider : string; Address : string; Config : StoreConfig }.
Record ScopeCfg := { Client : ScopeClientCfg }.

(** [discoverapi.DatastoreConfigData] *)
Record DatastoreConfigData := {
  dc_Scope : string;
  dc_Provider : string;
  dc_Address : string;
  dc_Config : StoreConfig;
}.

(** The values of a driver's configuration map. *)
Inductive value : Type :=
| VString (s : string)
| VDatastore (dc : DatastoreConfigData)
| VOther (a : Any).

(** An entry of [Daemon.DriverCfg]: a [map[string]interface{}] or a value
    of another type. *)
Inductive driver_cfg : Type :=
| CfgMap (m : gmap string value)
| CfgNotMap.

(** The controller's configuration, the fields read here; a nil
    [*ScopeCfg] is [None]. *)
Record Config_ := {
  Labels : list string;
  DriverCfg : gmap string driver_cfg;
  Scopes : gmap string (option ScopeCfg);
}.

(** Package [netlabel], the scope's validity check and the order in which
    [range] visits a map are not part of these sources. *)
Variable netlabel_Key : string -> string.
Variable netlabel_Value : string -> string.
Variable DriverPrefix : string.
Variable MakeKVClient : string -> string.
Variable IsValid : option ScopeCfg -> bool.
Variable range_ : forall V : Type, gmap string V -> list (string * V).

(** The loop of [insertDatastoreConfig] over the scopes, in the order of
    the [range]. *)
Fixpoint insert_scopes (l : list (string * option ScopeCfg)) (config : gmap string value)
  : outcome (gmap string value) :=
  match l with
  | [] => Done config
  | (k, v) :: rest =>
      if negb (IsValid v) then insert_scopes rest config
      else
        match v with
        | None => Panic
        | Some sc =>
            insert_scopes rest
              (<[MakeKVClient k :=
                   VDatastore {| dc_Scope := k;
                                 dc_Provider := Provider (Client sc);
                                 dc_Address := Address (Client sc);
                                 dc_Config := Config (Client sc) |}]> config)
        end
  end.

(** [insertDatastoreConfig(scopes, config)] *)
Definition insertDatastoreConfig (scopes : gmap string (option ScopeCfg))
    (config : gmap string value) : outcome (gmap string value) :=
  insert_scopes (range_ _ scopes) config.

(** The loop of [makeDriverConfig] over the daemon's labels. *)
Definition insert_label (ntype : string) (config : gmap string value) (label : string)
  : gmap string value :=
  if negb (String.prefix (DriverPrefix +:+ "." +:+ ntype) (netlabel_Key label)) then config
  else <[netlabel_Key label := VString (netlabel_Value label)]> config.

(** [makeDriverConfig(c, ntype)] for the controller's [c.cfg]; the nil map
    is [None]. *)
Definition makeDriverConfig (cfg : option Config_) (ntype : string)
  : outcome (option (gmap string value)) :=
  match cfg with
  | None => Done None
  | Some cfg =>
      let config := fold_left (insert_label ntype) (Labels cfg) ∅ in
      config <- match DriverCfg cfg !! ntype with
                | Some (CfgMap drvCfg) =>
                    Done (fold_left (fun config kv => <[fst kv := snd kv]> config)
                            (range_ _ drvCfg) config)
                | Some CfgNotMap => Panic
                | None => Done config
                end ;;;
      (* We don't send datastore configs to external plugins *)
      if String.eqb ntype "remote" then Done (Some config)
      else
        config <- insertDatastoreConfig (Scopes cfg) config ;;;
        Done (Some config)
  end.

(** [initIpams(ic)], the map handed to the IPAM drivers and the calls of
    their initializers, in order, up to the first that fails. *)
Fixpoint init_each {A : Type} (fns : list (A -> option error)) (config : A)
  : nat * option error :=
  match fns with
  | [] => (0%nat, None)
  | fn :: rest =>
      match fn config with
      | Some err => (1%nat, Some err)
      | None => let '(k, e) := init_each rest config in (S k, e)
      end
  end.

Definition initIpams (cfg : option Config_)
    (builtinIpam_Init remoteIpam_Init : gmap string value -> option error)
  : outcome (nat * option error) :=
  match cfg with
  | None => Panic
  | Some cfg =>
      config <- insertDatastoreConfig (Scopes cfg) ∅ ;;;
      Done (init_each [builtinIpam_Init; remoteIpam_Init] config)
  end.

End DriverConfig.

Arguments VString {StoreConfig Any} s.
Arguments VDatastore {StoreConfig Any} dc.
Arguments VOther {StoreConfig Any} a.
Arguments CfgMap {StoreConfig Any} m.
Arguments CfgNotMap {StoreConfig Any}.

End Drivers.

(** ** Scenarios for the further statements *)

Module Scenarios.
Import IPv4Text.

(** A driver that has [net1_300] registered, holds its identifier and has
    a store with one answer left. *)
Definition registered_driver : driver :=
  {| networks := {[ "n1" := Examples.net1_300 ]};
     store := Some [ReplyOk JNull 7];
     store_log := [];
     vxlanIdm := {| idm_start := 256; idm_end := 1000; idm_live := {[ 300 ]} |} |}.

(** A driver that knows no network and whose store has [net1_300]. *)
Definition stored_driver : driver :=
  Examples.mk_driver (Some [ReplyOk Examples.stored1_300 5]) ∅.

(** A host without conflicting name servers or routes, on which the
    sandbox takes every interface and the filters can be set. *)
Definition sub_host : SubnetHost :=
  {| nameservers := Some ["10.0.0.53/32"];
     CheckNameserverOverlaps := fun _ _ => None;
     CheckRouteOverlaps := fun _ => None;
     AddInterface := fun _ _ _ => None;
     addFilters := fun _ _ => None |}.

(** A network with one endpoint, its sandbox made and one subnet with the
    identifier 300, not brought up yet. *)
Definition joined_net : network :=
  {| net_id := "abcdefghijkl"; dbIndex := 3; dbExists := true;
     sbox := Some {| sb_key := "/var/run/docker/netns/1-abcdefghijkl";
                     sb_osCreate := true; sb_ifaces := [] |};
     joinCnt := 1; once := true; initEpoch := 1; initErr := None;
     config := Some {| subnets := [new_subnet (Some pool1) (Some gw1) 300];
                       disableDefaultGW := false |} |}.

(** The address 10.0.1.5 in its /24 network. *)
Definition addr5 : IPNet := {| ipnet_IP := IPv4 10 0 1 5; ipnet_Mask := [255; 255; 255; 0] |}.

(** A kernel 4.0 host on which netlink accepts every call. *)
Definition kernel_4_0 : Bridge.Netlink :=
  {| Bridge.GetKernelVersion := inl {| Bridge.kv_Kernel := 4; Bridge.kv_Major := 0;
                                       Bridge.kv_Minor := 0 |};
     Bridge.LinkAdd_result := fun _ => None;
     Bridge.LinkSetUp_result := fun _ => None;
     Bridge.LinkByName_result := fun name => inl {| Bridge.Name := name;
                                                    Bridge.HardwareAddr := None |} |}.

Definition docker0 : Bridge.bridgeInterface :=
  {| Bridge.Config_BridgeName := Some "docker0"; Bridge.Link := None |}.

(** Labels as "key=value": the text before and after the first "=". *)
Definition label_key (label : string) : string := nth 0 (split "=" label) "".
Definition label_value (label : string) : string := nth 1 (split "=" label) "".

(** A daemon with one label for the overlay driver, one for another driver,
    a driver configuration for the overlay type and one valid scope. *)
Definition daemon_cfg : Drivers.Config_ unit unit :=
  {| Drivers.Labels := ["drv.overlay.mtu=1400"; "drv.bridge.mtu=1500"];
     Drivers.DriverCfg := {[ "overlay" := Drivers.CfgMap {[ "peer" := Drivers.VString "10.0.0.9" ]} ]};
     Drivers.Scopes := {[ "global" := Some {| Drivers.Client :=
                                               {| Drivers.Provider := "consul";
                                                  Drivers.Address := "10.0.0.2:8500";
                                                  Drivers.Config := tt |} |} ]} |}.

(** [makeDriverConfig] with the driver prefix "drv", the client key "kv."
    followed by the scope, every non-nil scope valid, and maps visited in
    the order of their list of entries. *)
Definition make_config : option (Drivers.Config_ unit unit) -> string ->
                         outcome (option (gmap string (Drivers.value unit unit))) :=
  Drivers.makeDriverConfig unit unit label_key label_value "drv"
    (fun scope => "kv." +:+ scope)
    (fun v => match v with Some _ => true | None => false end)
    (fun V => map_to_list).

(** The map [make_config] gives the overlay driver of [daemon_cfg]. *)
Definition overlay_config : gmap string (Drivers.value unit unit) :=
  <["kv.global" :=
      Drivers.VDatastore {| Drivers.dc_Scope := "global"; Drivers.dc_Provider := "consul";
                            Drivers.dc_Address := "10.0.0.2:8500"; Drivers.dc_Config := tt |}]>
  (<["peer" := Drivers.VString "10.0.0.9"]>
   (<["drv.overlay.mtu" := Drivers.VString "1400"]> ∅)).

End Scenarios.

(** A subnet that lacks its gateway or its own address. *)
Definition lacks_address (s : subnet) : Prop := gwIP s = None \/ subnetIP s = None.

(** Subnets that can be encoded: each has its gateway and its own address. *)
Definition encodable (ss : list subnet) : Prop := Forall (fun s => ~ lacks_address s) ss.

(** What a network's text form parses to. *)
Definition reparsed (IPNet_String : IPNet -> string) (ParseCIDR : string -> option IPNet)
    (c : option IPNet) : option IPNet :=
  match c with
  | Some x => ParseCIDR (IPNet_String x)
  | None => None
  end.

(** The subnet the decoder builds from the encoding of [s]. *)
Definition decoded (IPNet_String : IPNet -> string) (ParseCIDR : string -> option IPNet)
    (s : subnet) : subnet :=
  new_subnet (reparsed IPNet_String ParseCIDR (subnetIP s))
             (reparsed IPNet_String ParseCIDR (gwIP s)) (vni s).

(** The subnets can be told apart by their stored addresses: the address
    of each one, printed and parsed, matches it and no subnet before it. *)
Definition told_apart (IPNet_String : IPNet -> string) (ParseCIDR : string -> option IPNet)
    (ss : list subnet) : Prop :=
  forall j s y,
    ss !! j = Some s ->
    reparsed IPNet_String ParseCIDR (subnetIP s) = Some y ->
    first_passing (matches y) ss (Some j).

(** * Properties *)

Section SubnetLookup.

(** [getMatchingSubnet] checks its argument before the loop. *)
Lemma getMatchingSubnet_nil (n : network) : getMatchingSubnet n None = Done None.
Proof. reflexivity. Qed.

(** [getSubnetforIP] reads [ip.Mask] inside the loop: with no subnet the
    loop body never runs. *)
Lemma getSubnetforIP_nil_empty (n : network) (c : networkConfiguration) :
  config n = Some c -> subnets c = [] -> getSubnetforIP n None = Done None.
Proof.
  intros Hc Hs. unfold getSubnetforIP, n_subnets. rewrite Hc, Hs. reflexivity.
Qed.

(** With a subnet to look at, the first turn of the loop dereferences nil. *)
Lemma getSubnetforIP_nil_nonempty (n : network) (c : networkConfiguration) :
  config n = Some c -> subnets c <> [] -> getSubnetforIP n None = Panic.
Proof.
  intros Hc Hs. unfold getSubnetforIP, n_subnets. rewrite Hc. simpl.
  destruct (subnets c) as [|s rest]; [congruence|].
  simpl. destruct (subnetIP s); reflexivity.
Qed.

(** C7: on the one-subnet network [net1], [getMatchingSubnet(nil)] returns
    "not found" but [getSubnetforIP(nil)] panics instead of returning "not
    found": it has no nil check and reads [ip.Mask] in the first turn of
    its loop.  Only on a network without subnets does it return nil. *)
Theorem getSubnetforIP_nil_panics :
  getMatchingSubnet Examples.net1 None = Done None /\
  getSubnetforIP Examples.net1 None = Panic /\
  getSubnetforIP (Examples.mk_network "n1" []) None = Done None.
Proof. repeat split; reflexivity. Qed.

End SubnetLookup.

Section Teardown.

Variable h : Host.

(** C10: when the network's sandbox field is nil, [destroySandbox] returns
    with the world (the effects on interfaces, vxlan devices, filters and
    chains, and the host-mode flags) and the network, subnets included,
    exactly as they were. *)
Theorem destroySandbox_nil_noop (w : world) (n : network) :
  sbox n = None -> destroySandbox h w n = Done (w, n).
Proof. intros Hs. unfold destroySandbox. rewrite Hs. reflexivity. Qed.

End Teardown.

Lemma destroySandbox_nil_noop_witness :
  sbox Examples.net1_300 = None /\
  destroySandbox Examples.good_host Examples.w0 Examples.net1_300
  = Done (Examples.w0, Examples.net1_300).
Proof.
  split; [reflexivity|].
  apply (destroySandbox_nil_noop Examples.good_host Examples.w0 Examples.net1_300).
  reflexivity.
Defined.

Section HostMode.

Variable h : Host.

Lemma hostMode_emit (e : effect) (w : world) : hostMode (emit e w) = hostMode w.
Proof. reflexivity. Qed.

(** C6, as the code has it: after [setHostMode], [hostMode] is true exactly
    when it was true before, or the environment variable is non-empty, or
    the probe device was created, the namespace file opened and the link
    found but the move into the namespace failed.  A failure to create the
    device, to open the file or to find the link leaves the flag as it
    was. *)
Theorem setHostMode_true_iff (w : world) :
  hostMode (setHostMode h w) = true <->
  hostMode w = true \/
  Getenv h "_OVERLAY_HOST_MODE" <> "" \/
  (createVxlan h "testvxlan" 1 = None /\ OpenFile h "/proc/self/ns/net" = None /\
   LinkByName h "testvxlan" = None /\ LinkSetNsFd h "testvxlan" <> None).
Proof.
  unfold setHostMode.
  destruct (String.eqb_spec (Getenv h "_OVERLAY_HOST_MODE") "") as [He|He]; simpl.
  - destruct (createVxlan h "testvxlan" 1) as [e1|];
      [rewrite !hostMode_emit; intuition congruence|].
    destruct (OpenFile h "/proc/self/ns/net") as [e2|];
      [rewrite !hostMode_emit; intuition congruence|].
    destruct (LinkByName h "testvxlan") as [e3|];
      [rewrite !hostMode_emit; intuition congruence|].
    destruct (LinkSetNsFd h "testvxlan") as [e4|]; rewrite !hostMode_emit; simpl.
    + split; [intros _|reflexivity]. right. right. repeat split; congruence.
    + intuition congruence.
  - split; [intros _; right; left; exact He|reflexivity].
Qed.

End HostMode.

(** C6, counterexample: on a host where creating the probe device fails
    (and the environment variable is empty), [hostMode] is still false
    after the probe; the same when opening the namespace file fails. *)
Lemma setHostMode_failure_keeps_false :
  createVxlan Examples.no_vxlan_host "testvxlan" 1 <> None /\
  hostMode (setHostMode Examples.no_vxlan_host Examples.w0) = false /\
  OpenFile Examples.no_ns_host "/proc/self/ns/net" <> None /\
  hostMode (setHostMode Examples.no_ns_host Examples.w0) = false.
Proof. repeat split; (reflexivity || discriminate). Qed.

Section Watcher.

Variable h : Host.

(** [To16] is nil only for a slice that is neither 4 nor 16 bytes long. *)
Lemma To16_4 (ip : IP) : length ip = 4%nat -> To16 ip <> None.
Proof.
  intros Hl. unfold To16.
  destruct ip as [|a [|b [|c [|d [|e r]]]]]; simpl in Hl; discriminate.
Qed.

Lemma To16_16 (ip : IP) : length ip = 16%nat -> To16 ip <> None.
Proof. intros Hl. unfold To16. rewrite Hl. simpl. discriminate. Qed.

(** Every message that carries an address of either family is dropped by
    the address test, before the state is looked at. *)
Lemma watchMiss_msg_drops_addresses (nid : string) (w : world) (msg : NetlinkMessage)
    (neigh : Neigh) :
  NeighDeserialize h (Data msg) = Some neigh ->
  length (neigh_IP neigh) = 4%nat \/ length (neigh_IP neigh) = 16%nat ->
  watchMiss_msg h nid w msg = w.
Proof.
  intros Hd Hl. unfold watchMiss_msg. rewrite Hd.
  destruct (negb (Header_Type msg =? RTM_GETNEIGH) && negb (Header_Type msg =? RTM_NEWNEIGH));
    [reflexivity|].
  destruct (To16 (neigh_IP neigh)) eqn:H16; [reflexivity|].
  exfalso. destruct Hl as [Hl|Hl]; [apply To16_4 in Hl | apply To16_16 in Hl]; congruence.
Qed.

End Watcher.

(** C5: the RTM_GETNEIGH message [miss_msg] carries the IPv4 address
    10.0.0.2 in state STALE and the peer database of [good_host] resolves
    it, yet the watcher skips the message: no [peerAdd] is made, the world
    is unchanged.  The address test [neigh.IP.To16() != nil] holds for IPv4
    addresses as well as for IPv6 ones. *)
Theorem watchMiss_skips_ipv4 :
  To4 (Data Examples.miss_msg) = Some [10; 0; 0; 2] /\
  Z.land NUD_STALE (Z.lor NUD_STALE NUD_INCOMPLETE) <> 0 /\
  (exists p, resolvePeer Examples.good_host "n1" (Data Examples.miss_msg) = inl p) /\
  watchMiss_msg Examples.good_host "n1" Examples.w0 Examples.miss_msg = Examples.w0 /\
  watchMiss Examples.good_host "n1" [inl [Examples.miss_msg]] Examples.w0 = Examples.w0.
Proof.
  split; [reflexivity|]. split; [discriminate|]. split; [eexists; reflexivity|].
  split; reflexivity.
Qed.

Section Decoding.

Variable ParseCIDR : string -> option IPNet.

Lemma subnet_UnmarshalJSON_bad (s : subnet) (o : list (string * jvalue)) :
  bad_subnet_object ParseCIDR o = true ->
  subnet_UnmarshalJSON ParseCIDR s (JObj o) = Panic.
Proof.
  unfold bad_subnet_object, subnet_UnmarshalJSON. intros Hb.
  destruct (jget "vni" o); simpl in Hb; try reflexivity.
  destruct (jget "gwIP" o); simpl in Hb; try reflexivity; try discriminate.
  destruct (ParseCIDR s0) as [gw|] eqn:Hg.
  - destruct (jget "subnetIP" o); simpl in Hb; try reflexivity. discriminate.
  - rewrite bool_decide_eq_false_2 in Hb; [discriminate|].
    intros [x Hx]. discriminate.
Qed.

(** C9: [SetValue] panics, rather than returning an error, on a JSON
    object that lacks a boolean ["disableDefaultGW"] member (the object
    [{}] for one), and on one whose first subnet object has a missing or
    non-numeric ["vni"], or a ["gwIP"] or ["subnetIP"] that is not a string:
    the type assertions of the two [UnmarshalJSON] methods are unchecked. *)
Theorem SetValue_panics (n : network) (value : jvalue) :
  bad_value ParseCIDR value = true -> SetValue ParseCIDR n value = Panic.
Proof.
  intros Hb. destruct value as [| | | | |m]; try discriminate.
  unfold SetValue. simpl. simpl in Hb.
  destruct (jget "disableDefaultGW" m) as [|d| | | |] eqn:Hd; try reflexivity.
  simpl in Hb.
  destruct (jget "subnets" m) as [| | | |l|]; try discriminate.
  destruct l as [|[| | | | |o] rest]; try discriminate.
  cbn [unmarshal_subnets obind]. rewrite (subnet_UnmarshalJSON_bad _ _ Hb). reflexivity.
Qed.

End Decoding.

Lemma SetValue_panics_witness :
  SetValue IPv4Text.Parse (Examples.blank_network "n1") (JObj []) = Panic /\
  SetValue IPv4Text.Parse Examples.net1
    (JObj [("disableDefaultGW", JBool false);
           ("subnets", JArr [JObj [("gwIP", JStr "10.0.1.1/24");
                                   ("subnetIP", JStr "10.0.1.0/24")]])]) = Panic.
Proof.
  split; apply SetValue_panics; reflexivity.
Defined.

Section RoundTrip.

Variable IPNet_String : IPNet -> string.
Variable ParseCIDR : string -> option IPNet.

Local Abbreviation wf := (well_formed IPNet_String ParseCIDR).

Lemma parseable_Some (c : option IPNet) :
  parseable IPNet_String ParseCIDR c = true ->
  exists x y,
    c = Some x /\ ParseCIDR (IPNet_String x) = Some y /\
    same_opt_net (Some x) (Some y) = true.
Proof.
  destruct c as [x|]; simpl; [|discriminate].
  destruct (ParseCIDR (IPNet_String x)) as [y|] eqn:Hq; [|discriminate].
  intros Hp. exists x, y. split; [reflexivity|]. split; [exact Hq|exact Hp].
Qed.

Lemma uint32_small (z : Z) : 0 <= z < 2 ^ 32 -> uint32 z = z.
Proof. intros Hz. unfold uint32. apply Z.mod_small. exact Hz. Qed.

Lemma well_formed_inv (s : subnet) :
  wf s = true ->
  exists ip gw ip' gw',
    subnetIP s = Some ip /\ gwIP s = Some gw /\
    ParseCIDR (IPNet_String ip) = Some ip' /\ ParseCIDR (IPNet_String gw) = Some gw' /\
    same_subnet s (new_subnet (Some ip') (Some gw') (vni s)) = true /\
    0 <= vni s < 2 ^ 32.
Proof.
  unfold well_formed. intros Hw.
  apply andb_prop in Hw as [Hw Hhi]. apply andb_prop in Hw as [Hw Hlo].
  apply andb_prop in Hw as [Hip Hgw].
  apply parseable_Some in Hip as (ip & ip' & Hip & Hrip & Hsip).
  apply parseable_Some in Hgw as (gw & gw' & Hgw & Hrgw & Hsgw).
  exists ip, gw, ip', gw'. repeat split; try assumption; try lia.
  unfold same_subnet. cbn [subnetIP gwIP vni new_subnet].
  rewrite Hip, Hgw, Hsip, Hsgw, Z.eqb_refl. reflexivity.
Qed.

Lemma same_subnet_rebuilt (s s' : subnet) :
  same_subnet s s' = true -> same_subnet s (rebuilt s') = true.
Proof. intros H. exact H. Qed.

(** One subnet through [MarshalJSON] and back through [UnmarshalJSON]. *)
Lemma subnet_roundtrip (s : subnet) :
  wf s = true ->
  exists j s',
    subnet_MarshalJSON IPNet_String s = Done j /\
    j <> JNull /\
    subnet_UnmarshalJSON ParseCIDR (new_subnet None None 0) j = Done (s', None) /\
    same_subnet s s' = true.
Proof.
  intros Hw.
  apply well_formed_inv in Hw as (ip & gw & ip' & gw' & Hip & Hgw & Hrip & Hrgw & Hsame & Hv).
  unfold subnet_MarshalJSON. rewrite Hip, Hgw.
  eexists. eexists. split; [reflexivity|]. split; [discriminate|].
  unfold subnet_UnmarshalJSON. cbn [jget jlookup String.eqb Ascii.eqb Bool.eqb from_option id].
  rewrite Hrgw, Hrip, (uint32_small _ Hv). split; [reflexivity|]. exact Hsame.
Qed.

Lemma subnets_roundtrip (ss : list subnet) :
  forallb wf ss = true ->
  exists js ds,
    marshal_subnets IPNet_String ss = Done js /\
    unmarshal_subnets ParseCIDR js = Done (map Some ds) /\
    same_subnets ss ds.
Proof.
  induction ss as [|s ss IH]; intros Hw.
  - exists [], []. repeat split; constructor.
  - simpl in Hw. apply andb_prop in Hw as [Hs Hss].
    destruct (IH Hss) as (js & ds & Hm & Hu & Hsame).
    destruct (subnet_roundtrip s Hs) as (j & s' & Hj & Hnn & Hr & Hs').
    exists (j :: js), (s' :: ds). split; [|split].
    + cbn [marshal_subnets]. rewrite Hj, Hm. reflexivity.
    + destruct j; try congruence;
        cbn [unmarshal_subnets]; rewrite Hr; cbn [obind snd fst]; rewrite Hu; reflexivity.
    + constructor; assumption.
Qed.

(** The same through the previous format. *)
Lemma legacy_roundtrip (ss : list subnet) :
  forallb wf ss = true ->
  exists js es ds,
    legacy_records IPNet_String ss = Done js /\
    unmarshal_elems js None = (es, None) /\
    legacy_subnets ParseCIDR es = Done (map Some ds) /\
    same_subnets ss ds.
Proof.
  induction ss as [|s ss IH]; intros Hw.
  - exists [], [], []. repeat split; constructor.
  - simpl in Hw. apply andb_prop in Hw as [Hs Hss].
    destruct (IH Hss) as (js & es & ds & Hm & Hu & Hl & Hsame).
    apply well_formed_inv in Hs
      as (ip & gw & ip' & gw' & Hip & Hgw & Hrip & Hrgw & Hs' & Hv).
    assert (Hrange : (0 <=? vni s) && (vni s <? 2 ^ 32) = true).
    { apply andb_true_intro. split; [apply Z.leb_le|apply Z.ltb_lt]; lia. }
    eexists. eexists. exists (new_subnet (Some ip') (Some gw') (vni s) :: ds).
    split; [|split; [|split]].
    + cbn [legacy_records]. unfold legacy_record. rewrite Hip, Hgw.
      cbn [obind]. rewrite Hm. reflexivity.
    + cbn [unmarshal_elems fold_left].
      unfold store_member at 3. cbn [fst snd lower ascii_lower].
      cbv [nat_of_ascii ascii_of_nat]. simpl.
      rewrite Hrange. rewrite Hu. reflexivity.
    + cbn [legacy_subnets SubnetIP GwIP Vni map]. rewrite Hrip, Hrgw, Hl. reflexivity.
    + constructor; assumption.
Qed.

(** The second loop of [SetValue] on a network without subnets appends a
    fresh subnet for each decoded one, in order. *)
Lemma SetValue_loop_new (ds : list subnet) :
  forall (n : network) (c : networkConfiguration),
    config n = Some c ->
    SetValue_loop true (map Some ds) n
    = Done (set_config (Some (set_subnets (subnets c ++ map rebuilt ds) c)) n).
Proof.
  induction ds as [|s ds IH]; intros n c Hc.
  - simpl. rewrite app_nil_r. destruct n, c. simpl in *. subst. reflexivity.
  - cbn [map SetValue_loop]. rewrite Hc.
    erewrite IH; [|reflexivity].
    cbn [subnets set_subnets disableDefaultGW]. rewrite <- app_assoc. reflexivity.
Qed.

Lemma same_subnets_rebuilt (ss ds : list subnet) :
  same_subnets ss ds -> same_subnets ss (map rebuilt ds).
Proof.
  intros H. induction H as [|s s' ss ds Hs Hss IH]; [constructor|].
  cbn [map]. constructor; [exact (same_subnet_rebuilt _ _ Hs)|exact IH].
Qed.

(** C4: for a configuration all of whose subnets are well formed (both
    networks print to a text that parses to the same network), decoding its
    canonical encoding into a network that has no subnets yet succeeds and
    gives back the flag [disableDefaultGW] and the subnets, in order, with
    the same [subnetIP], [gwIP] and [vni]; decoding the previous bare-array
    encoding of the same subnets gives the same subnets with
    [disableDefaultGW = false]. *)
Theorem decode_encode_roundtrip (nc : networkConfiguration) (n : network) :
  forallb (well_formed IPNet_String ParseCIDR) (subnets nc) = true ->
  no_subnets_yet n = true ->
  (exists v n' c,
      networkConfiguration_MarshalJSON IPNet_String nc = Done v /\
      SetValue ParseCIDR n v = Done (n', None) /\
      config n' = Some c /\
      disableDefaultGW c = disableDefaultGW nc /\
      same_subnets (subnets nc) (subnets c)) /\
  (exists v n' c,
      legacyEncoding IPNet_String nc = Done v /\
      SetValue ParseCIDR n v = Done (n', None) /\
      config n' = Some c /\
      disableDefaultGW c = false /\
      same_subnets (subnets nc) (subnets c)).
Proof.
  intros Hw Hnew. unfold no_subnets_yet in Hnew. split.
  - destruct (subnets_roundtrip _ Hw) as (js & ds & Hm & Hu & Hsame).
    eexists. eexists. eexists. split; [|split; [|split; [|split]]].
    + unfold networkConfiguration_MarshalJSON. rewrite Hm. reflexivity.
    + unfold SetValue. rewrite Hnew.
      unfold networkConfiguration_UnmarshalJSON.
      cbn [jget jlookup String.eqb Ascii.eqb Bool.eqb from_option id obind].
      rewrite Hu. cbn [obind config set_config].
      erewrite SetValue_loop_new; [|reflexivity]. reflexivity.
    + reflexivity.
    + reflexivity.
    + cbn [subnets set_subnets set_disableDefaultGW app].
      apply same_subnets_rebuilt. exact Hsame.
  - destruct (legacy_roundtrip _ Hw) as (js & es & ds & Hm & Hu & Hl & Hsame).
    eexists. eexists. eexists. split; [|split; [|split; [|split]]].
    + unfold legacyEncoding. rewrite Hm. reflexivity.
    + unfold SetValue. rewrite Hnew.
      cbn [networkConfiguration_UnmarshalJSON obind unmarshal_netJSON].
      rewrite Hu. rewrite Hl. cbn [obind config set_config].
      erewrite SetValue_loop_new; [|reflexivity]. reflexivity.
    + reflexivity.
    + reflexivity.
    + cbn [subnets set_subnets set_disableDefaultGW app].
      apply same_subnets_rebuilt. exact Hsame.
Qed.

End RoundTrip.

Lemma decode_encode_roundtrip_witness :
  (exists v n' c,
      networkConfiguration_MarshalJSON IPv4Text.String_ Examples.cfg_ipam = Done v /\
      SetValue IPv4Text.Parse (Examples.blank_network "n1") v = Done (n', None) /\
      config n' = Some c /\
      disableDefaultGW c = disableDefaultGW Examples.cfg_ipam /\
      same_subnets (subnets Examples.cfg_ipam) (subnets c)) /\
  (exists v n' c,
      legacyEncoding IPv4Text.String_ Examples.cfg_ipam = Done v /\
      SetValue IPv4Text.Parse (Examples.blank_network "n1") v = Done (n', None) /\
      config n' = Some c /\
      disableDefaultGW c = false /\
      same_subnets (subnets Examples.cfg_ipam) (subnets c)).
Proof.
  apply (decode_encode_roundtrip IPv4Text.String_ IPv4Text.Parse
           Examples.cfg_ipam (Examples.blank_network "n1")).
  - vm_compute. reflexivity.
  - reflexivity.
Defined.

Section ReleaseVxlanID.

Lemma set_vxlanIdm_id (d : driver) : set_vxlanIdm (vxlanIdm d) d = d.
Proof. destruct d. reflexivity. Qed.

Lemma released_nil (i : Idm) : released [] i = i.
Proof.
  destruct i as [a b live]. unfold released. simpl. f_equal.
  apply difference_empty_L.
Qed.

Lemma released_cons (s : subnet) (ss : list subnet) (i : Idm) :
  released ss (Release (uint64 (vni s)) i) = released (s :: ss) i.
Proof.
  destruct i as [a b live]. unfold released, Release. simpl. f_equal.
  apply difference_difference_l_L.
Qed.

(** The release loop, started at the index after the prefix [pre], zeroes
    and releases the rest and leaves the prefix alone. *)
Lemma release_loop_rest (rest : list subnet) :
  forall (pre : list subnet) (d : driver) (n : network) (c : networkConfiguration),
    config n = Some c ->
    subnets c = pre ++ rest ->
    release_loop (seq (length pre) (length rest)) d n
    = Done (set_vxlanIdm (released rest (vxlanIdm d)) d,
            set_config (Some (set_subnets (pre ++ map (set_vni 0) rest) c)) n).
Proof.
  induction rest as [|s rest IH]; intros pre d n c Hc Hs.
  - simpl. rewrite released_nil, set_vxlanIdm_id, app_nil_r.
    rewrite app_nil_r in Hs. destruct n, c. simpl in *. subst. reflexivity.
  - cbn [length seq release_loop].
    assert (Hlk : subnets c !! length pre = Some s).
    { rewrite Hs. apply list_lookup_middle. reflexivity. }
    unfold vxlanID, n_subnets, setVxlanID. rewrite Hc. cbn [obind]. rewrite Hlk.
    cbn [obind].
    replace (S (length pre)) with (length (pre ++ [set_vni 0 s]))
      by (rewrite length_app; simpl; lia).
    rewrite (IH (pre ++ [set_vni 0 s]) _ _
               (set_subnets (<[length pre := set_vni 0 s]> (subnets c)) c)).
    + f_equal. f_equal.
      * destruct d. unfold set_vxlanIdm. cbn [vxlanIdm networks store store_log].
        rewrite released_cons. reflexivity.
      * cbn [map]. rewrite <- app_assoc. reflexivity.
    + reflexivity.
    + cbn [subnets set_subnets]. rewrite Hs.
      rewrite insert_app_r_alt by lia. rewrite Nat.sub_diag. cbn [insert list_insert].
      rewrite <- app_assoc. reflexivity.
Qed.

Lemma release_loop_all (d : driver) (n : network) (c : networkConfiguration) :
  config n = Some c ->
  release_loop (seq 0 (length (subnets c))) d n
  = Done (set_vxlanIdm (released (subnets c) (vxlanIdm d)) d, zeroed n).
Proof.
  intros Hc. pose proof (release_loop_rest (subnets c) [] d n c Hc eq_refl) as Hr.
  cbn [length app] in Hr. rewrite Hr.
  unfold zeroed. rewrite Hc. reflexivity.
Qed.

(** C2, as the code has it.  Without a datastore [releaseVxlanID] returns
    an error and changes nothing.  With one: a network without subnets is
    left alone and the call succeeds without a request; otherwise the
    network entry is deleted atomically, and when the store answers
    [KeyModified] or [KeyNotFound] the call succeeds with the network and
    the allocator untouched (no [vni] is released or zeroed), on another
    error it fails, again touching neither, and when the delete succeeds
    every subnet's [vni] has been released to the allocator and set to 0. *)
Theorem releaseVxlanID_outcomes (d : driver) (n : network) (c : networkConfiguration) :
  config n = Some c ->
  (store d = None ->
   releaseVxlanID d n
   = Done (d, n, Some (Errorf "no datastore configured. cannot release vxlan id"))) /\
  (forall script, store d = Some script -> subnets c = [] ->
   releaseVxlanID d n = Done (d, n, None)) /\
  (forall r rest, store d = Some (r :: rest) -> subnets c <> [] ->
   let d1 := asked d (ReqDelete n) rest in
   match r with
   | ReplyErr ErrKeyModified | ReplyErr ErrKeyNotFound =>
       releaseVxlanID d n = Done (d1, n, None)
   | ReplyErr (Errorf m) =>
       releaseVxlanID d n
       = Done (d1, n, Some (Errorf ("failed to delete network to vxlan id map: " +:+ m)))
   | ReplyOk _ _ =>
       releaseVxlanID d n
       = Done (set_vxlanIdm (released (subnets c) (vxlanIdm d)) d1, zeroed n, None)
   end).
Proof.
  intros Hc. split; [|split].
  - intros Hs. unfold releaseVxlanID. rewrite Hs. reflexivity.
  - intros script Hs He. unfold releaseVxlanID, n_subnets. rewrite Hs, Hc, He. reflexivity.
  - intros r rest Hs Hne d1. unfold releaseVxlanID, n_subnets. rewrite Hs, Hc.
    cbn [obind].
    destruct (subnets c) as [|s0 ss0] eqn:Hss; [congruence|].
    cbn [length Nat.eqb]. unfold DeleteObjectAtomic, ask. rewrite Hs. cbn [obind snd fst].
    destruct r as [[| |m]|v idx]; try reflexivity.
    fold (asked d (ReqDelete n) rest). fold d1.
    change (S (length ss0)) with (length (s0 :: ss0)). rewrite <- Hss.
    cbn [obind snd fst]. rewrite (release_loop_all d1 n c Hc). reflexivity.
Qed.

End ReleaseVxlanID.

Lemma releaseVxlanID_outcomes_witness :
  releaseVxlanID (Examples.mk_driver (Some [ReplyOk JNull 7]) {[300]}) Examples.net1_300
  = Done (set_vxlanIdm
            (released [new_subnet (Some IPv4Text.pool1) (Some IPv4Text.gw1) 300]
               (vxlanIdm (Examples.mk_driver (Some [ReplyOk JNull 7]) {[300]})))
            (asked (Examples.mk_driver (Some [ReplyOk JNull 7]) {[300]})
               (ReqDelete Examples.net1_300) []),
          zeroed Examples.net1_300, None).
Proof.
  refine (proj2 (proj2 (releaseVxlanID_outcomes
            (Examples.mk_driver (Some [ReplyOk JNull 7]) {[300]}) Examples.net1_300
            {| subnets := [new_subnet (Some IPv4Text.pool1) (Some IPv4Text.gw1) 300];
               disableDefaultGW := false |} eq_refl))
            (ReplyOk JNull 7) [] eq_refl _).
  simpl. discriminate.
Defined.

(** C2, counterexample: without a datastore the call fails, it does not
    return success; and when the delete answers [KeyModified] the call
    succeeds although the subnet keeps its [vni] 300 and the allocator
    still holds 300. *)
Lemma releaseVxlanID_not_released :
  releaseVxlanID (Examples.mk_driver None {[300]}) Examples.net1_300
  = Done (Examples.mk_driver None {[300]}, Examples.net1_300,
          Some (Errorf "no datastore configured. cannot release vxlan id")) /\
  exists d',
    releaseVxlanID (Examples.mk_driver (Some [ReplyErr ErrKeyModified]) {[300]}) Examples.net1_300
    = Done (d', Examples.net1_300, None) /\
    vxlanID Examples.net1_300 0 = Done 300 /\
    300 ∈ idm_live (vxlanIdm d').
Proof.
  split; [reflexivity|].
  eexists. split; [reflexivity|]. split; [reflexivity|].
  cbn [vxlanIdm idm_live Examples.mk_driver fst]. apply elem_of_singleton. reflexivity.
Qed.

Section EncodingOutcome.

Variable IPNet_String : IPNet -> string.

Lemma marshal_subnets_outcome (ss : list subnet) :
  match marshal_subnets IPNet_String ss with
  | Done js => length js = length ss /\ Forall (fun s => ~ lacks_address s) ss
  | Panic => Exists lacks_address ss
  | Blocked => False
  end.
Proof.
  induction ss as [|s ss IH]; cbn [marshal_subnets].
  - split; [reflexivity|constructor].
  - unfold subnet_MarshalJSON.
    destruct (gwIP s) as [gw|] eqn:Hgw; [|left; left; exact Hgw].
    destruct (subnetIP s) as [ip|] eqn:Hip; [|left; right; exact Hip].
    cbn [obind]. destruct (marshal_subnets IPNet_String ss) as [js| |]; cbn [obind].
    + destruct IH as [Hlen Hall]. split; [cbn [length]; congruence|].
      constructor; [|exact Hall]. intros [H|H]; congruence.
    + right. exact IH.
    + exact IH.
Qed.

(** A network whose subnets all have their addresses has a [Value]. *)
Lemma Value_encodable (n : network) (c : networkConfiguration) :
  config n = Some c -> encodable (subnets c) ->
  exists j, Value IPNet_String n = Done j.
Proof.
  intros Hc He. unfold Value, networkConfiguration_MarshalJSON. rewrite Hc.
  pose proof (marshal_subnets_outcome (subnets c)) as H.
  destruct (marshal_subnets IPNet_String (subnets c)) as [js| |]; cbn [obind].
  - eexists. reflexivity.
  - exfalso. apply Exists_exists in H as (s & Hin & Hs).
    unfold encodable in He. rewrite Forall_forall in He. exact (He s Hin Hs).
  - contradiction.
Qed.

(** A network one of whose subnets lacks an address has none: the
    encoder dereferences the nil pointer. *)
Lemma Value_lacking (n : network) (c : networkConfiguration) :
  config n = Some c -> Exists lacks_address (subnets c) ->
  Value IPNet_String n = Panic.
Proof.
  intros Hc Hex. unfold Value, networkConfiguration_MarshalJSON. rewrite Hc.
  pose proof (marshal_subnets_outcome (subnets c)) as H.
  destruct (marshal_subnets IPNet_String (subnets c)) as [js| |]; cbn [obind].
  - exfalso. destruct H as [_ Hall].
    apply Exists_exists in Hex as (s & Hin & Hs).
    rewrite Forall_forall in Hall. exact (Hall s Hin Hs).
  - reflexivity.
  - contradiction.
Qed.

End EncodingOutcome.

Section CreateNetworkProperties.

Variable IPNet_String : IPNet -> string.
Variable GenericData : string.
Variable DisableDefaultGW : string.
Variable configure : driver -> outcome (driver * option error).

(** The lazy configuration sets the driver up; it does not register or
    remove networks. *)
Hypothesis configure_keeps_registry :
  forall d d' e, configure d = Done (d', e) -> networks d' = networks d.

Local Abbreviation CreateNetwork' :=
  (CreateNetwork IPNet_String GenericData DisableDefaultGW configure).

Lemma fold_append_pool (l : list IPAMData) :
  forall c : networkConfiguration,
    subnets (fold_left append_pool l c) = subnets c ++ map pool_subnet l /\
    disableDefaultGW (fold_left append_pool l c) = disableDefaultGW c.
Proof.
  induction l as [|ipd l IH]; intros c; simpl.
  - rewrite app_nil_r. split; reflexivity.
  - destruct (IH (append_pool c ipd)) as [Hs Hd]. rewrite Hs, Hd.
    unfold append_pool. simpl. rewrite <- app_assoc. split; reflexivity.
Qed.

Lemma parseNetworkOptions_new (n : network) (c : networkConfiguration)
    (opts : gmap string option_value) :
  config n = Some c ->
  exists c',
    parseNetworkOptions GenericData DisableDefaultGW n opts
    = Done (set_config (Some c') n) /\
    subnets c' = subnets c.
Proof.
  intros Hc. unfold parseNetworkOptions.
  assert (Hid : Done n = Done (set_config (Some c) n)).
  { destruct n. simpl in *. subst. reflexivity. }
  destruct (opts !! GenericData) as [[|m|]|]; try (exists c; split; [exact Hid|reflexivity]).
  destruct (m !! DisableDefaultGW); [|exists c; split; [exact Hid|reflexivity]].
  rewrite Hc. eexists. split; reflexivity.
Qed.

(** The network a successful [CreateNetwork id] registers. *)
Lemma CreateNetwork_run (d : driver) (id : string) (opts : gmap string option_value)
    (ipV4Data ipV6Data : list IPAMData) :
  id <> "" ->
  match configure d with
  | Done (d1, None) =>
      exists n c,
        net_id n = id /\ config n = Some c /\ subnets c = map pool_subnet ipV4Data /\
        CreateNetwork' d id opts ipV4Data ipV6Data
        = (w <- writeToStore IPNet_String d1 n ;;;
           match w with
           | (d2, n3, Some err) =>
               Done (d2, Some (Errorf ("failed to update data store for network " +:+ net_id n3
                                       +:+ ": " +:+ Error err)))
           | (d2, n3, None) => Done (addNetwork d2 n3, None)
           end)
  | Done (d1, Some err) => CreateNetwork' d id opts ipV4Data ipV6Data = Done (d1, Some err)
  | Panic => CreateNetwork' d id opts ipV4Data ipV6Data = Panic
  | Blocked => CreateNetwork' d id opts ipV4Data ipV6Data = Blocked
  end.
Proof.
  intros Hid. unfold CreateNetwork.
  destruct (String.eqb_spec id "") as [He|_]; [congruence|].
  destruct (configure d) as [[d1 [err|]]| |]; try reflexivity.
  cbn [obind snd fst].
  set (n := {| net_id := id; dbIndex := 0; dbExists := false; sbox := None;
               joinCnt := 0; once := false; initEpoch := 0; initErr := None;
               config := Some {| subnets := []; disableDefaultGW := false |} |}).
  destruct (parseNetworkOptions_new n _ opts eq_refl) as (c' & Hp & Hs).
  rewrite Hp. cbn [obind config set_config].
  destruct (fold_append_pool ipV4Data c') as [Hf _].
  exists (set_config (Some (fold_left append_pool ipV4Data c')) (set_config (Some c') n)),
    (fold_left append_pool ipV4Data c').
  split; [reflexivity|]. split; [reflexivity|]. split.
  - rewrite Hf, Hs. reflexivity.
  - destruct (writeToStore IPNet_String d1 _) as [[[d2 n3] [e|]]| |]; reflexivity.
Qed.

(** C8: [CreateNetwork] with an empty id fails at once, leaving the driver
    as it is.  With a non-empty id, whenever it returns an error the
    registry is unchanged, and whenever it returns success the registry has
    gained, under [id], a network with exactly one subnet per IPv4 pool, in
    order, each with [subnetIP = pool], [gwIP = gateway] and [vni = 0].
    When every pool has its address and its gateway, so that the network
    can be encoded for the store, an error answer of the store to the
    atomic put makes it return an error, and a positive answer makes it
    succeed.  When a pool lacks its address or its gateway the call does
    not return: encoding the network for the put panics, before the store
    is asked and before anything is registered. *)
Theorem CreateNetwork_all_or_nothing (d : driver) (id : string)
    (opts : gmap string option_value) (ipV4Data ipV6Data : list IPAMData) :
  (id = "" ->
   CreateNetwork' d id opts ipV4Data ipV6Data = Done (d, Some (Errorf "invalid network id"))) /\
  (id <> "" ->
   forall d' err,
     CreateNetwork' d id opts ipV4Data ipV6Data = Done (d', err) ->
     match err with
     | Some _ => networks d' = networks d
     | None =>
         exists n c,
           networks d' = <[id := n]> (networks d) /\
           net_id n = id /\ config n = Some c /\
           subnets c = map pool_subnet ipV4Data
     end) /\
  (id <> "" ->
   encodable (map pool_subnet ipV4Data) ->
   forall d1 r rest,
     configure d = Done (d1, None) ->
     store d1 = Some (r :: rest) ->
     exists d' err,
       CreateNetwork' d id opts ipV4Data ipV6Data = Done (d', err) /\
       match r with
       | ReplyErr _ => err <> None /\ networks d' = networks d
       | ReplyOk _ _ => err = None /\ is_Some (networks d' !! id)
       end) /\
  (id <> "" ->
   Exists lacks_address (map pool_subnet ipV4Data) ->
   forall d1,
     configure d = Done (d1, None) ->
     CreateNetwork' d id opts ipV4Data ipV6Data = Panic).
Proof.
  split; [|split; [|split]].
  - intros ->. reflexivity.
  - intros Hid d' err Hrun.
    pose proof (CreateNetwork_run d id opts ipV4Data ipV6Data Hid) as Hc.
    destruct (configure d) as [[d1 [e|]]| |] eqn:Hcfg; try congruence.
    + rewrite Hc in Hrun. inversion Hrun; subst. eapply configure_keeps_registry; eauto.
    + destruct Hc as (n & c & Hn & Hcn & Hsub & Hc). rewrite Hc in Hrun.
      apply configure_keeps_registry in Hcfg.
      unfold writeToStore, PutObjectAtomic in Hrun.
      destruct (Value IPNet_String n) as [j| |]; try discriminate.
      cbn [obind] in Hrun. unfold ask in Hrun.
      destruct (store d1) as [[|[e|v idx] rest]|]; try discriminate;
        cbn [obind snd fst] in Hrun; inversion Hrun; subst; clear Hrun.
      * simpl. exact Hcfg.
      * exists (SetIndex idx n), c. unfold addNetwork. simpl. rewrite Hcfg.
        repeat split; assumption.
  - intros Hid Henc d1 r rest Hcfg Hst.
    pose proof (CreateNetwork_run d id opts ipV4Data ipV6Data Hid) as Hc.
    rewrite Hcfg in Hc. destruct Hc as (n & c & Hn & Hcn & Hsub & Hc).
    rewrite Hc. unfold writeToStore, PutObjectAtomic.
    rewrite <- Hsub in Henc.
    destruct (Value_encodable IPNet_String n c Hcn Henc) as [j Hj]. rewrite Hj.
    cbn [obind]. unfold ask. rewrite Hst.
    cbn [obind snd fst]. apply configure_keeps_registry in Hcfg.
    destruct r as [e|v idx]; eexists; eexists; (split; [reflexivity|]).
    + split; [discriminate|]. simpl. exact Hcfg.
    + split; [reflexivity|]. unfold addNetwork. simpl. rewrite Hn.
      rewrite lookup_insert_eq. eauto.
  - intros Hid Hlack d1 Hcfg.
    pose proof (CreateNetwork_run d id opts ipV4Data ipV6Data Hid) as Hc.
    rewrite Hcfg in Hc. destruct Hc as (n & c & Hn & Hcn & Hsub & Hc).
    rewrite Hc. unfold writeToStore, PutObjectAtomic.
    rewrite <- Hsub in Hlack.
    rewrite (Value_lacking IPNet_String n c Hcn Hlack). reflexivity.
Qed.

End CreateNetworkProperties.

Lemma CreateNetwork_all_or_nothing_witness :
  (exists d' err,
     CreateNetwork IPv4Text.String_
       "com.docker.network.generic" "com.docker.network.disable_default_gw"
       (fun d => Done (d, None))
       (Examples.mk_driver (Some [ReplyOk JNull 1]) ∅) "n1" ∅
       [{| Pool := Some IPv4Text.pool1; Gateway := Some IPv4Text.gw1 |}] []
     = Done (d', err) /\
     err = None /\ is_Some (networks d' !! "n1")) /\
  CreateNetwork IPv4Text.String_
    "com.docker.network.generic" "com.docker.network.disable_default_gw"
    (fun d => Done (d, None))
    (Examples.mk_driver (Some [ReplyOk JNull 1]) ∅) "n1" ∅
    [{| Pool := Some IPv4Text.pool1; Gateway := None |}] []
  = Panic.
Proof.
  split.
  - refine (proj1 (proj2 (proj2 (CreateNetwork_all_or_nothing IPv4Text.String_
              "com.docker.network.generic" "com.docker.network.disable_default_gw"
              (fun d => Done (d, None)) _
              (Examples.mk_driver (Some [ReplyOk JNull 1]) ∅) "n1" ∅
              [{| Pool := Some IPv4Text.pool1; Gateway := Some IPv4Text.gw1 |}] [])))
            _ _ _ (ReplyOk JNull 1) [] eq_refl eq_refl).
    + intros d d' e H. inversion H. reflexivity.
    + discriminate.
    + repeat constructor. intros [H|H]; discriminate.
  - refine (proj2 (proj2 (proj2 (CreateNetwork_all_or_nothing IPv4Text.String_
              "com.docker.network.generic" "com.docker.network.disable_default_gw"
              (fun d => Done (d, None)) _
              (Examples.mk_driver (Some [ReplyOk JNull 1]) ∅) "n1" ∅
              [{| Pool := Some IPv4Text.pool1; Gateway := None |}] [])))
            _ _ _ eq_refl).
    + intros d d' e H. inversion H. reflexivity.
    + discriminate.
    + left. left. reflexivity.
Defined.

Section Allocator.

Lemma first_free_spec (fuel : nat) :
  forall (x : Z) (live : gset Z) (y : Z),
    first_free fuel x live = Some y ->
    (x <= y < x + Z.of_nat fuel) /\ (y ∉ live).
Proof.
  induction fuel as [|fuel IH]; intros x live y Hf; simpl in Hf; [discriminate|].
  destruct (decide (x ∈ live)) as [Hin|Hnin].
  - apply IH in Hf. split; [lia|tauto].
  - inversion Hf; subst. split; [lia|assumption].
Qed.

Lemma GetID_ok (i : Idm) (x : Z) (i' : Idm) :
  GetID i = (x, None, i') ->
  (idm_start i <= x <= idm_end i) /\ (x ∉ idm_live i) /\
  i' = {| idm_start := idm_start i; idm_end := idm_end i; idm_live := idm_live i ∪ {[x]} |}.
Proof.
  unfold GetID. intros Hg.
  destruct (first_free _ _ _) as [y|] eqn:Hf; [|discriminate].
  inversion Hg; subst. apply first_free_spec in Hf as [Hr Hn].
  split; [lia|]. split; [assumption|reflexivity].
Qed.

Lemma GetID_err (i : Idm) (x : Z) (e : error) (i' : Idm) :
  GetID i = (x, Some e, i') -> i' = i.
Proof.
  unfold GetID. intros Hg.
  destruct (first_free _ _ _) as [y|]; inversion Hg; reflexivity.
Qed.

Lemma Release_fresh (i : Idm) (x : Z) :
  x ∉ idm_live i ->
  Release x {| idm_start := idm_start i; idm_end := idm_end i;
               idm_live := idm_live i ∪ {[x]} |} = i.
Proof.
  intros Hn. destruct i as [a b live]. unfold Release. simpl in *. f_equal.
  apply set_eq. intros y. rewrite elem_of_difference, elem_of_union, elem_of_singleton.
  split; [tauto|]. intros Hy. split; [tauto|]. intros ->. contradiction.
Qed.

Lemma in_range_conv (i : Idm) (x : Z) :
  idm_in_range i = true -> idm_start i <= x <= idm_end i ->
  x <> 0 /\ uint32 x = x /\ uint64 x = x.
Proof.
  unfold idm_in_range. intros Hr Hx. apply andb_prop in Hr as [Hlo Hhi].
  apply Z.leb_le in Hlo. apply Z.ltb_lt in Hhi.
  split; [lia|]. split; [apply Z.mod_small|apply Z.mod_small]; lia.
Qed.

End Allocator.

Section SubnetIds.

Lemma vxlanID_inv (n : network) (i : nat) (v : Z) :
  vxlanID n i = Done v ->
  exists c s, config n = Some c /\ subnets c !! i = Some s /\ vni s = v.
Proof.
  unfold vxlanID, n_subnets. destruct (config n) as [c|]; [|discriminate].
  cbn [obind]. destruct (subnets c !! i) as [s|] eqn:Hs; [|discriminate].
  intros H. inversion H. eauto.
Qed.

Lemma setVxlanID_ok (n : network) (i : nat) (c : networkConfiguration) (s : subnet) (x : Z) :
  config n = Some c -> subnets c !! i = Some s ->
  setVxlanID n i x
  = Done (set_config (Some (set_subnets (<[i := set_vni x s]> (subnets c)) c)) n).
Proof. intros Hc Hs. unfold setVxlanID. rewrite Hc, Hs. reflexivity. Qed.

Lemma vxlanID_after_set (n : network) (i : nat) (c : networkConfiguration) (s : subnet) (x : Z) :
  subnets c !! i = Some s ->
  vxlanID (set_config (Some (set_subnets (<[i := set_vni x s]> (subnets c)) c)) n) i = Done x.
Proof.
  intros Hs. unfold vxlanID, n_subnets. cbn [config set_config obind subnets set_subnets].
  rewrite list_lookup_insert_eq; [reflexivity|]. eapply lookup_lt_Some; eauto.
Qed.

(** Assigning an identifier to a subnet without one and taking it back
    gives the network as it was. *)
Lemma set_then_reset (n : network) (i : nat) (c : networkConfiguration) (s : subnet) (x : Z) :
  config n = Some c -> subnets c !! i = Some s -> vni s = 0 ->
  setVxlanID (set_config (Some (set_subnets (<[i := set_vni x s]> (subnets c)) c)) n) i 0
  = Done n.
Proof.
  intros Hc Hs Hv.
  erewrite setVxlanID_ok; [|reflexivity|].
  2: { cbn [subnets set_subnets]. apply list_lookup_insert_eq. eapply lookup_lt_Some; eauto. }
  cbn [subnets set_subnets]. rewrite list_insert_insert_eq.
  replace (set_vni 0 (set_vni x s)) with s by (destruct s; simpl in *; subst; reflexivity).
  rewrite list_insert_id by assumption.
  destruct n, c. simpl in *. subst. reflexivity.
Qed.

End SubnetIds.

Section StoreReads.

Variable ParseCIDR : string -> option IPNet.

Local Abbreviation GetObject' := (GetObject ParseCIDR).

(** [SetValue] returns its error before it changes the network. *)
Lemma SetValue_err (n : network) (value : jvalue) (n' : network) (e : error) :
  SetValue ParseCIDR n value = Done (n', Some e) -> n' = n.
Proof.
  unfold SetValue. intros H.
  repeat (case_match; simplify_eq/=); try reflexivity;
    unfold obind in *; repeat (case_match; simplify_eq/=); reflexivity.
Qed.

Lemma ask_inv (d : driver) (q : request) (d' : driver) (r : reply) :
  ask d q = Done (d', r) -> exists rest, store d = Some (r :: rest) /\ d' = asked d q rest.
Proof.
  unfold ask. destruct (store d) as [[|r0 rest]|]; try discriminate.
  intros H. inversion H; subst. eauto.
Qed.

Lemma GetObject_inv (d : driver) (n : network) (d1 : driver) (n1 : network) (e : option error) :
  GetObject' d n = Done (d1, n1, e) ->
  exists r rest,
    store d = Some (r :: rest) /\ d1 = asked d (ReqGet (Key n)) rest /\
    (e <> None -> n1 = n).
Proof.
  unfold GetObject. intros H.
  destruct (ask d (ReqGet (Key n))) as [[d0 r]| |] eqn:Ha; try discriminate.
  apply ask_inv in Ha as (rest & Hs & ->). cbn [obind snd fst] in H.
  exists r, rest. split; [assumption|].
  destruct r as [e0|v idx].
  - inversion H; subst. split; [reflexivity|]. reflexivity.
  - destruct (SetValue ParseCIDR n v) as [[n0 [e0|]]| |] eqn:Hv; try discriminate;
      cbn [obind snd fst] in H; inversion H; subst.
    + split; [reflexivity|]. intros _. eapply SetValue_err; eauto.
    + split; [reflexivity|]. congruence.
Qed.

End StoreReads.

Section Lifecycle_properties.

Variable h : Host.

Lemma wrap_int_small (z : Z) : - 2 ^ 63 <= z < 2 ^ 63 -> wrap_int z = z.
Proof. intros Hz. unfold wrap_int. rewrite Z.mod_small; lia. Qed.

(** A successful [initSandbox] installs a sandbox and keeps the count. *)
Lemma initSandbox_ok (w : world) (n : network) (w' : world) (n' : network) :
  initSandbox h w n = Done (w', n', None) ->
  sbox n' <> None /\ joinCnt n' = joinCnt n.
Proof.
  unfold initSandbox. intros H.
  destruct (hostMode (hostModeOnce_Do h w)).
  - destruct (slice_to 12 _) as [key| |]; try discriminate. cbn [obind snd fst] in H.
    destruct (addNetworkChain h key); [discriminate|].
    destruct (NewSandbox h _ _); [discriminate|].
    inversion H; subst. split; [discriminate|reflexivity].
  - cbn [obind snd fst] in H.
    destruct (NewSandbox h _ _); [discriminate|].
    inversion H; subst. split; [discriminate|reflexivity].
Qed.

(** An [initSandbox] that fails leaves the sandbox field alone. *)
Lemma initSandbox_err (w : world) (n : network) (w' : world) (n' : network) (e : error) :
  initSandbox h w n = Done (w', n', Some e) ->
  sbox n' = sbox n /\ joinCnt n' = joinCnt n.
Proof.
  unfold initSandbox. intros H.
  destruct (hostMode (hostModeOnce_Do h w)).
  - destruct (slice_to 12 _) as [key| |]; try discriminate. cbn [obind snd fst] in H.
    destruct (addNetworkChain h key).
    + inversion H; subst. split; reflexivity.
    + destruct (NewSandbox h _ _); inversion H; subst. split; reflexivity.
  - cbn [obind snd fst] in H.
    destruct (NewSandbox h _ _); inversion H; subst. split; reflexivity.
Qed.

(** [destroySandbox] clears the sandbox field and nothing else of what the
    invariant reads. *)
Lemma destroySandbox_clears (w : world) (n : network) (w' : world) (n' : network) :
  destroySandbox h w n = Done (w', n') ->
  sbox n' = None /\ joinCnt n' = joinCnt n /\ once n' = once n.
Proof.
  unfold destroySandbox. intros H.
  destruct (sbox n) as [sb|] eqn:Hsb.
  - destruct (n_subnets n) as [ss| |]; try discriminate. cbn [obind] in H.
    destruct (destroy_subnets h _ _ _) as [w2| |]; try discriminate. cbn [obind] in H.
    match type of H with
    | obind ?m _ = _ => destruct m as [w3| |]; try discriminate
    end.
    cbn [obind] in H. inversion H; subst. repeat split; reflexivity.
  - inversion H; subst. repeat split; try reflexivity. exact Hsb.
Qed.

Lemma join_preserves (w : world) (n : network) (st' : world * network) :
  lifecycle_inv n ->
  joinCnt n + 1 < 2 ^ 63 ->
  run h (w, n) [IncEndpointCount; JoinSandbox] = Done st' ->
  initErr (snd st') = None ->
  lifecycle_inv (snd st') /\ joinCnt (snd st') = joinCnt n + 1.
Proof.
  intros [[Hge Hiff] Honce] Hlt Hrun Herr.
  cbn [run step obind fst snd] in Hrun.
  assert (Hcnt : joinCnt (incEndpointCount n) = joinCnt n + 1).
  { unfold incEndpointCount. cbn [joinCnt set_joinCnt]. apply wrap_int_small. lia. }
  unfold joinSandbox in Hrun.
  change (once (incEndpointCount n)) with (once n) in Hrun.
  destruct (once n) eqn:Ho.
  - cbn [obind fst snd] in Hrun. inversion Hrun; subst st'. cbn [snd] in *.
    split; [|exact Hcnt]. split; [split|].
    + lia.
    + change (sbox (incEndpointCount n)) with (sbox n). rewrite Hcnt.
      split; [intros _; lia|]. intros _. apply Hiff.
      destruct (Z.eq_dec (joinCnt n) 0) as [H0|H0]; [|lia].
      apply Honce in H0. congruence.
    + rewrite Hcnt. lia.
  - destruct (initSandbox h w (incEndpointCount n)) as [[[w1 n1] err]| |] eqn:Hi;
      try discriminate.
    cbn [obind fst snd] in Hrun. inversion Hrun; subst st'. cbn [snd] in *.
    cbn [initErr set_once set_initErr] in Herr. subst err.
    apply initSandbox_ok in Hi as [Hsb Hc].
    unfold lifecycle_inv, count_matches_sandbox.
    cbn [joinCnt sbox once set_once set_initErr]. rewrite Hc, Hcnt.
    split; [|reflexivity]. split; [split|].
    + lia.
    + split; [intros _; lia|intros _; exact Hsb].
    + lia.
Qed.

Lemma leave_preserves (w : world) (n : network) (st' : world * network) :
  lifecycle_inv n ->
  0 < joinCnt n < 2 ^ 63 ->
  run h (w, n) [LeaveSandbox] = Done st' ->
  lifecycle_inv (snd st') /\ joinCnt (snd st') = joinCnt n - 1.
Proof.
  intros [[Hge Hiff] Honce] Hpos Hrun.
  cbn [run step obind fst snd] in Hrun.
  destruct (leaveSandbox h w n) as [st1| |] eqn:Hl; try discriminate.
  cbn [obind] in Hrun. inversion Hrun; subst st1. clear Hrun.
  unfold leaveSandbox in Hl. cbn [joinCnt set_joinCnt] in Hl.
  rewrite (wrap_int_small (joinCnt n - 1)) in Hl by lia.
  destruct (Z.eqb_spec (joinCnt n - 1) 0) as [H0|H0]; cbn [negb] in Hl.
  - cbn [config set_once set_joinCnt] in Hl.
    destruct (config n) as [c|]; [|discriminate].
    destruct st' as [w' n']. apply destroySandbox_clears in Hl as (Hsb & Hc & Ho).
    cbn [snd]. cbn [joinCnt once set_config set_once set_joinCnt] in Hc, Ho.
    unfold lifecycle_inv, count_matches_sandbox.
    split; [|exact Hc]. split; [split|].
    + lia.
    + rewrite Hsb, Hc. split; [congruence|lia].
    + intros _. exact Ho.
  - inversion Hl; subst st'. unfold lifecycle_inv, count_matches_sandbox.
    cbn [snd joinCnt sbox once set_joinCnt].
    split; [|reflexivity]. split; [split|].
    + lia.
    + split; [intros _; lia|]. intros _. apply Hiff. lia.
    + intros Hz. lia.
Qed.

(** C3, as the code has it.  The invariant that is kept is
    [lifecycle_inv]: [joinCnt >= 0], the sandbox is non-nil exactly when
    [joinCnt > 0], and the network's guard is fresh whenever [joinCnt = 0]
    (a new network satisfies it).  On a network that satisfies it, a run
    of joins, each [incEndpointCount] followed by a [joinSandbox] that
    finds the sandbox initialised without error, and of leaves, each the
    [leaveSandbox] of an endpoint that has joined, with fewer than 2^63
    endpoints, ends in a network that satisfies it again. *)
Theorem disciplined_run_keeps_invariant (eops : list endpoint_op) :
  forall (st st' : world * network),
    lifecycle_inv (snd st) ->
    joinCnt (snd st) + Z.of_nat (length eops) < 2 ^ 63 ->
    disciplined h st eops st' ->
    lifecycle_inv (snd st').
Proof.
  intros st st' Hinv Hlen Hd.
  induction Hd as [st|w n st1 eops st2 Hrun Herr Hd IH|w n st1 eops st2 Hpos Hrun Hd IH].
  - exact Hinv.
  - cbn [snd length] in *.
    destruct (join_preserves w n st1 Hinv ltac:(lia) Hrun Herr) as [Hinv1 Hc].
    apply IH; [exact Hinv1|lia].
  - cbn [snd length] in *.
    destruct (leave_preserves w n st1 Hinv ltac:(lia) Hrun) as [Hinv1 Hc].
    apply IH; [exact Hinv1|lia].
Qed.

End Lifecycle_properties.

Lemma disciplined_run_keeps_invariant_witness :
  exists st',
    disciplined Examples.good_host (Examples.w0, Examples.net1) [Join; Join; Leave; Leave] st' /\
    lifecycle_inv (snd st').
Proof.
  assert (Hd : exists st',
    disciplined Examples.good_host (Examples.w0, Examples.net1) [Join; Join; Leave; Leave] st').
  { eexists.
    eapply disciplined_join; [vm_compute; reflexivity|reflexivity|].
    eapply disciplined_join; [vm_compute; reflexivity|reflexivity|].
    eapply disciplined_leave; [reflexivity|vm_compute; reflexivity|].
    eapply disciplined_leave; [reflexivity|vm_compute; reflexivity|].
    apply disciplined_nil. }
  destruct Hd as [st' Hd]. exists st'. split; [exact Hd|].
  apply (disciplined_run_keeps_invariant Examples.good_host [Join; Join; Leave; Leave]
           (Examples.w0, Examples.net1) st').
  - repeat split; simpl; try lia; try congruence.
  - simpl. lia.
  - exact Hd.
Defined.

(** C3, counterexample: a [leaveSandbox] on a new network makes [joinCnt]
    negative; on a host that refuses the sandbox, after [incEndpointCount]
    and [joinSandbox] have returned, [joinCnt] is 1 and there is no
    sandbox; and on a network that has [joinCnt = 0] and no sandbox but a
    guard that has fired, a join whose [joinSandbox] returns no error
    leaves [joinCnt] at 1 without a sandbox, so that the count and the
    sandbox alone are not kept even by paired joins and leaves. *)
Lemma lifecycle_invariant_broken :
  (exists w' n',
      run Examples.good_host (Examples.w0, Examples.net1) [LeaveSandbox] = Done (w', n') /\
      joinCnt n' = -1) /\
  (exists w' n',
      run Examples.no_sandbox_host (Examples.w0, Examples.net1) [IncEndpointCount; JoinSandbox]
      = Done (w', n') /\
      joinCnt n' = 1 /\ sbox n' = None /\ initErr n' <> None) /\
  (count_matches_sandbox (set_once true Examples.net1) /\
   exists st',
     disciplined Examples.good_host (Examples.w0, set_once true Examples.net1) [Join] st' /\
     joinCnt (snd st') = 1 /\ sbox (snd st') = None).
Proof.
  split; [|split].
  - eexists. eexists. split; [vm_compute; reflexivity|reflexivity].
  - eexists. eexists. split; [vm_compute; reflexivity|]. repeat split. discriminate.
  - split.
    + split; [cbn; lia|]. cbn. split; [congruence|lia].
    + eexists. split.
      * eapply disciplined_join; [vm_compute; reflexivity|reflexivity|].
        apply disciplined_nil.
      * split; reflexivity.
Qed.

(** * Further properties of the driver *)

Section RegistryProperties.

Variable ParseCIDR : string -> option IPNet.

Lemma release_loop_networks (ks : list nat) :
  forall (d : driver) (n : network) (d' : driver) (n' : network),
    release_loop ks d n = Done (d', n') ->
    networks d' = networks d /\ store d' = store d /\ store_log d' = store_log d.
Proof.
  induction ks as [|k ks IH]; intros d n d' n' H; cbn [release_loop] in H.
  - inversion H; subst. repeat split.
  - destruct (vxlanID n k) as [v| |]; try discriminate. cbn [obind] in H.
    destruct (setVxlanID n k 0) as [n1| |]; try discriminate. cbn [obind] in H.
    apply IH in H as (Hn & Hs & Hl). cbn [networks store store_log set_vxlanIdm] in *.
    repeat split; assumption.
Qed.

(** [releaseVxlanID] does not touch the registry. *)
Lemma releaseVxlanID_networks (d : driver) (n : network) (d' : driver) (n' : network)
    (e : option error) :
  releaseVxlanID d n = Done (d', n', e) -> networks d' = networks d.
Proof.
  unfold releaseVxlanID. intros H.
  destruct (store d) as [script|] eqn:Hst; [|inversion H; reflexivity].
  destruct (n_subnets n) as [ss| |]; try discriminate. cbn [obind] in H.
  destruct (Nat.eqb (length ss) 0); [inversion H; reflexivity|].
  unfold DeleteObjectAtomic in H.
  destruct (ask d (ReqDelete n)) as [[d1 r]| |] eqn:Ha; try discriminate.
  apply ask_inv in Ha as (rest & _ & ->). cbn [obind snd fst] in H.
  destruct r as [err|v idx]; cbn [obind snd fst] in H.
  - destruct (bool_decide (err = ErrKeyModified) || bool_decide (err = ErrKeyNotFound));
      inversion H; reflexivity.
  - destruct (release_loop _ _ _) as [[d2 n2]| |] eqn:Hr; try discriminate.
    cbn [obind snd fst] in H. inversion H; subst.
    apply release_loop_networks in Hr as (Hn & _). exact Hn.
Qed.

(** Reading a network from the store changes the registry only by the
    entry it installs. *)
Lemma driver_network_registry (d : driver) (nid : string) (d' : driver) (r : option network) :
  driver_network ParseCIDR d nid = Done (d', r) ->
  match r with
  | Some n => networks d' = <[nid := n]> (networks d)
  | None => networks d' = networks d /\ networks d !! nid = None
  end.
Proof.
  unfold driver_network. intros H.
  destruct (networks d !! nid) as [n|] eqn:Hl.
  - inversion H; subst. symmetry. apply insert_id. exact Hl.
  - unfold getNetworkFromStore in H.
    destruct (store d) as [script|] eqn:Hst.
    + destruct (GetObject ParseCIDR d (zero_network nid)) as [[[d1 n1] e]| |] eqn:Hg;
        try discriminate.
      destruct (GetObject_inv _ _ _ _ _ _ Hg) as (r0 & rest & _ & -> & _).
      cbn [obind snd fst] in H. destruct e; cbn [obind snd fst] in H;
        inversion H; subst; cbn [networks set_networks asked]; [split|]; auto.
    + cbn [obind snd fst] in H. inversion H; subst. split; auto.
Qed.

(** X1: whenever [DeleteNetwork nid] returns, with success or with an
    error, the registry has no network under [nid] and every other entry is
    as before: the network is taken out before its identifiers are
    released, so a failure to release does not put it back. *)
Theorem DeleteNetwork_unregisters (d : driver) (nid : string) (d' : driver)
    (err : option error) :
  nid <> "" ->
  DeleteNetwork ParseCIDR d nid = Done (d', err) ->
  networks d' = delete nid (networks d).
Proof.
  intros Hne H. unfold DeleteNetwork in H.
  destruct (String.eqb_spec nid "") as [|_]; [contradiction|].
  destruct (driver_network ParseCIDR d nid) as [[d1 r]| |] eqn:Hl; try discriminate.
  apply driver_network_registry in Hl. cbn [obind snd fst] in H.
  destruct r as [n|].
  - destruct (releaseVxlanID (deleteNetwork d1 nid) n) as [[[d2 n2] e]| |] eqn:Hr;
      try discriminate.
    cbn [obind snd fst] in H. inversion H; subst.
    apply releaseVxlanID_networks in Hr. rewrite Hr.
    cbn [networks deleteNetwork set_networks]. rewrite Hl. apply delete_insert_eq.
  - inversion H; subst. destruct Hl as [Hn Hnone]. rewrite Hn.
    symmetry. apply delete_id. exact Hnone.
Qed.

End RegistryProperties.

Section DecodingFrame.

Variable ParseCIDR : string -> option IPNet.

Lemma same_shell_refl (n : network) : same_shell n n.
Proof. repeat split. Qed.

Lemma same_shell_set_config (n n' : network) (c : option networkConfiguration) :
  same_shell n n' -> same_shell n (set_config c n').
Proof. intros H. exact H. Qed.

Lemma setVxlanID_shell (n : network) (k : nat) (v : Z) (n' : network) :
  setVxlanID n k v = Done n' -> same_shell n n'.
Proof.
  unfold setVxlanID. destruct (config n) as [c|]; [|discriminate].
  destruct (subnets c !! k); [|discriminate].
  intros H. inversion H; subst. apply same_shell_set_config, same_shell_refl.
Qed.

Lemma same_shell_trans (a b c : network) :
  same_shell a b -> same_shell b c -> same_shell a c.
Proof.
  unfold same_shell. intros (H1 & H2 & H3 & H4 & H5 & H6 & H7 & H8)
    (G1 & G2 & G3 & G4 & G5 & G6 & G7 & G8).
  repeat split; congruence.
Qed.

Lemma SetValue_loop_shell (newNet : bool) (ds : list (option subnet)) :
  forall n n', SetValue_loop newNet ds n = Done n' -> same_shell n n'.
Proof.
  induction ds as [|[s|] ds IH]; intros n n' H; cbn [SetValue_loop] in H.
  - inversion H; subst. apply same_shell_refl.
  - destruct newNet.
    + destruct (config n) as [c|]; [|discriminate].
      apply IH in H. eapply same_shell_trans; [|exact H].
      apply same_shell_set_config, same_shell_refl.
    + destruct (getMatchingSubnet n (subnetIP s)) as [[k|]| |]; try discriminate;
        cbn [obind] in H.
      * destruct (setVxlanID n k (vni s)) as [n1| |] eqn:Hs; try discriminate.
        cbn [obind] in H. apply IH in H. apply setVxlanID_shell in Hs.
        eapply same_shell_trans; eauto.
      * apply IH in H. exact H.
  - discriminate.
Qed.

(** [SetValue] reads and writes the configuration only. *)
Lemma SetValue_shell (n : network) (value : jvalue) (n' : network) (e : option error) :
  SetValue ParseCIDR n value = Done (n', e) -> same_shell n n'.
Proof.
  unfold SetValue. intros H.
  match type of H with
  | obind ?m _ = _ => destruct m as [first| |]; try discriminate
  end.
  cbn [obind] in H.
  match type of H with
  | obind ?m _ = _ => destruct m as [[nc|e0]| |]; try discriminate
  end; cbn [obind] in H.
  - destruct nc as [[ds d]|]; [|discriminate].
    match type of H with
    | match config ?n1 with _ => _ end = _ =>
        assert (Hsh : same_shell n n1)
          by (destruct (match config n with
                        | Some c => Nat.eqb (length (subnets c)) 0
                        | None => true
                        end); [apply same_shell_set_config|]; apply same_shell_refl);
        destruct (config n1) as [c|]; [|discriminate]
    end.
    match type of H with
    | obind ?m _ = _ => destruct m as [n3| |] eqn:Hl; try discriminate
    end.
    cbn [obind] in H. inversion H; subst.
    apply SetValue_loop_shell in Hl.
    eapply same_shell_trans; [exact Hsh|].
    eapply same_shell_trans; [|exact Hl]. apply same_shell_set_config, same_shell_refl.
  - inversion H; subst. apply same_shell_refl.
Qed.

(** A successful [SetValue] leaves a configuration in place. *)
Lemma SetValue_config (n : network) (value : jvalue) (n' : network) :
  SetValue ParseCIDR n value = Done (n', None) -> config n' <> None.
Proof.
  assert (Hloop : forall newNet ds n n',
             config n <> None -> SetValue_loop newNet ds n = Done n' -> config n' <> None).
  { intros newNet ds. induction ds as [|[s|] ds IH]; intros m m' Hc H;
      cbn [SetValue_loop] in H; try discriminate.
    - inversion H; subst. exact Hc.
    - destruct newNet.
      + destruct (config m) as [c|]; [|discriminate].
        apply IH in H; [exact H|discriminate].
      + destruct (getMatchingSubnet m (subnetIP s)) as [[k|]| |]; try discriminate;
          cbn [obind] in H.
        * destruct (setVxlanID m k (vni s)) as [m1| |] eqn:Hs; try discriminate.
          cbn [obind] in H. apply IH in H; [exact H|].
          unfold setVxlanID in Hs. destruct (config m) as [c|]; [|discriminate].
          destruct (subnets c !! k); [|discriminate]. inversion Hs. discriminate.
        * apply IH in H; assumption. }
  unfold SetValue. intros H.
  match type of H with
  | obind ?m _ = _ => destruct m as [first| |]; try discriminate
  end.
  cbn [obind] in H.
  match type of H with
  | obind ?m _ = _ => destruct m as [[nc|e0]| |]; try discriminate
  end; cbn [obind] in H.
  destruct nc as [[ds d]|]; [|discriminate].
  match type of H with
  | match config ?n1 with _ => _ end = _ => destruct (config n1) as [c|]; [|discriminate]
  end.
  match type of H with
  | obind ?m _ = _ => destruct m as [n3| |] eqn:Hl; try discriminate
  end.
  cbn [obind] in H. inversion H; subst.
  eapply Hloop; [|exact Hl]. discriminate.
Qed.

End DecodingFrame.

Section LookupProperties.

Variable ParseCIDR : string -> option IPNet.

(** X2: a registry lookup that finds a network leaves the registry such
    that the next lookup of the same id returns the same network without a
    request to the store.  When the network was not registered and came
    from the store, it carries the id asked for, a join count of 0, no
    sandbox, a fresh guard, the index the store gave, and a configuration
    (never the nil pointer). *)
Theorem driver_network_found (d : driver) (nid : string) (d' : driver) (n : network) :
  driver_network ParseCIDR d nid = Done (d', Some n) ->
  driver_network ParseCIDR d' nid = Done (d', Some n) /\
  (networks d !! nid = None ->
   net_id n = nid /\ joinCnt n = 0 /\ sbox n = None /\ once n = false /\
   dbExists n = true /\ config n <> None /\
   exists r rest, store d = Some (r :: rest) /\ store d' = Some rest).
Proof.
  intros H. pose proof (driver_network_registry _ _ _ _ _ H) as Hreg. cbn in Hreg.
  split.
  - unfold driver_network. rewrite Hreg, lookup_insert_eq. reflexivity.
  - intros Hnone. unfold driver_network in H. rewrite Hnone in H.
    unfold getNetworkFromStore in H.
    destruct (store d) as [script|] eqn:Hst; [|discriminate].
    destruct (GetObject ParseCIDR d (zero_network nid)) as [[[d1 n1] e]| |] eqn:Hg;
      try discriminate.
    cbn [obind snd fst] in H. destruct e; [discriminate|].
    cbn [obind snd fst] in H. inversion H; subst d' n. clear H.
    destruct (GetObject_inv _ _ _ _ _ _ Hg) as (r0 & rest & Hs0 & Hd1 & _).
    unfold GetObject in Hg. unfold ask in Hg. rewrite Hs0 in Hg. cbn [obind snd fst] in Hg.
    destruct r0 as [e|v idx]; [discriminate|].
    destruct (SetValue ParseCIDR (zero_network nid) v) as [[n0 [e|]]| |] eqn:Hv;
      try discriminate.
    cbn [obind snd fst] in Hg. inversion Hg; subst d1 n1. clear Hg.
    pose proof (SetValue_shell _ _ _ _ _ Hv) as (H1 & _ & _ & H4 & H5 & _).
    pose proof (SetValue_config _ _ _ _ Hv) as Hcfg.
    cbn [net_id joinCnt sbox once dbExists config set_once SetIndex].
    repeat split; try assumption.
    exists (ReplyOk v idx), rest. split; [congruence|reflexivity].
Qed.

(** X3: [DeleteNetwork] of a network that is neither registered nor in the
    store fails with "could not find network" and changes nothing but the
    store's log: without a datastore the driver is untouched, and when the
    store answers the read with an error only that request was made. *)
Theorem DeleteNetwork_unknown (d : driver) (nid : string) :
  nid <> "" ->
  networks d !! nid = None ->
  (store d = None ->
   DeleteNetwork ParseCIDR d nid
   = Done (d, Some (Errorf ("could not find network with id " +:+ nid)))) /\
  (forall e rest, store d = Some (ReplyErr e :: rest) ->
   DeleteNetwork ParseCIDR d nid
   = Done (asked d (ReqGet ["overlay"; "network"; nid]) rest,
           Some (Errorf ("could not find network with id " +:+ nid)))).
Proof.
  intros Hne Hnone. split.
  - intros Hst. unfold DeleteNetwork.
    destruct (String.eqb_spec nid "") as [|_]; [contradiction|].
    unfold driver_network, getNetworkFromStore. rewrite Hnone, Hst. reflexivity.
  - intros e rest Hst. unfold DeleteNetwork.
    destruct (String.eqb_spec nid "") as [|_]; [contradiction|].
    unfold driver_network, getNetworkFromStore, GetObject, ask. rewrite Hnone, Hst.
    reflexivity.
Qed.

(** X4: [DeleteNetwork] of a registered network with subnets.  When the
    store confirms the atomic delete the call succeeds, the network is out
    of the registry and the identifier of every subnet has been released to
    the allocator; when the store answers [KeyModified] or [KeyNotFound]
    the call succeeds as well, the network is out of the registry and the
    allocator is as it was. *)
Theorem DeleteNetwork_registered (d : driver) (nid : string) (n : network)
    (c : networkConfiguration) (r : reply) (rest : list reply) :
  nid <> "" ->
  networks d !! nid = Some n ->
  config n = Some c ->
  subnets c <> [] ->
  store d = Some (r :: rest) ->
  let d1 := asked (deleteNetwork d nid) (ReqDelete n) rest in
  match r with
  | ReplyOk _ _ =>
      DeleteNetwork ParseCIDR d nid
      = Done (set_vxlanIdm (released (subnets c) (vxlanIdm d)) d1, None)
  | ReplyErr ErrKeyModified | ReplyErr ErrKeyNotFound =>
      DeleteNetwork ParseCIDR d nid = Done (d1, None)
  | ReplyErr (Errorf m) =>
      DeleteNetwork ParseCIDR d nid
      = Done (d1, Some (Errorf ("failed to delete network to vxlan id map: " +:+ m)))
  end.
Proof.
  intros Hne Hreg Hc Hss Hst d1. unfold DeleteNetwork.
  destruct (String.eqb_spec nid "") as [|_]; [contradiction|].
  unfold driver_network. rewrite Hreg. cbn [obind snd fst].
  unfold releaseVxlanID, n_subnets. cbn [store deleteNetwork set_networks].
  rewrite Hst, Hc. cbn [obind].
  destruct (subnets c) as [|s0 ss0] eqn:Hsub; [congruence|].
  cbn [length Nat.eqb]. unfold DeleteObjectAtomic, ask.
  cbn [store deleteNetwork set_networks]. rewrite Hst. cbn [obind snd fst].
  destruct r as [[| |m]|v idx]; try reflexivity.
  cbn [obind snd fst].
  change (S (length ss0)) with (length (s0 :: ss0)). rewrite <- Hsub.
  match goal with
  | |- context [release_loop _ ?dd n] =>
      rewrite (release_loop_all dd n c Hc)
  end.
  reflexivity.
Qed.

End LookupProperties.

Section GuardProperties.

Variable h : Host.

(** X5: the network's one-shot guard.  Once [joinSandbox] has returned,
    any further [joinSandbox] returns the same error (or the same success)
    and changes neither the network nor the world: [initSandbox] is not run
    again, whether it had succeeded or failed. *)
Theorem joinSandbox_once (w : world) (n : network) (w1 : world) (n1 : network)
    (e : option error) :
  joinSandbox h w n = Done (w1, n1, e) ->
  joinSandbox h w1 n1 = Done (w1, n1, e).
Proof.
  unfold joinSandbox. intros H.
  destruct (once n) eqn:Ho.
  - inversion H; subst. rewrite Ho. reflexivity.
  - destruct (initSandbox h w n) as [[[w' n'] err]| |]; try discriminate.
    cbn [obind] in H. inversion H; subst. reflexivity.
Qed.

Lemma destroySandbox_config (w : world) (n : network) (w' : world) (n' : network) :
  destroySandbox h w n = Done (w', n') ->
  config n' = config n /\ initEpoch n' = initEpoch n /\ net_id n' = net_id n.
Proof.
  unfold destroySandbox. intros H.
  destruct (sbox n) as [sb|].
  - destruct (n_subnets n) as [ss| |]; try discriminate. cbn [obind] in H.
    destruct (destroy_subnets h _ _ _) as [w2| |]; try discriminate. cbn [obind] in H.
    match type of H with
    | obind ?m _ = _ => destruct m as [w3| |]; try discriminate
    end.
    cbn [obind] in H. inversion H; subst. repeat split.
  - inversion H; subst. repeat split.
Qed.

(** X6: [leaveSandbox] and the guards.  A leave that does not bring the
    count to zero changes the count and nothing else, in the network or in
    the world.  The leave that brings it from 1 to 0 returns with the count
    at 0, the sandbox field nil, the network's guard fresh and every
    subnet's guard fresh, while each subnet keeps its addresses, its [vni]
    and its device names. *)
Theorem leaveSandbox_guards (w : world) (n : network) :
  - 2 ^ 63 < joinCnt n < 2 ^ 63 ->
  (joinCnt n <> 1 ->
   leaveSandbox h w n = Done (w, set_joinCnt (joinCnt n - 1) n)) /\
  (joinCnt n = 1 ->
   forall w' n',
     leaveSandbox h w n = Done (w', n') ->
     joinCnt n' = 0 /\ sbox n' = None /\ once n' = false /\
     exists c c',
       config n = Some c /\ config n' = Some c' /\
       subnets c' = map (set_s_once false) (subnets c) /\
       disableDefaultGW c' = disableDefaultGW c).
Proof.
  intros Hrange. unfold leaveSandbox. cbn [joinCnt set_joinCnt].
  assert (Hw : wrap_int (joinCnt n - 1) = joinCnt n - 1).
  { unfold wrap_int. rewrite Z.mod_small; lia. }
  rewrite Hw. split.
  - intros Hne. destruct (Z.eqb_spec (joinCnt n - 1) 0); [lia|]. reflexivity.
  - intros H1 w' n' H. destruct (Z.eqb_spec (joinCnt n - 1) 0); [|lia].
    cbn [negb config set_once set_joinCnt] in H.
    destruct (config n) as [c|] eqn:Hc; [|discriminate].
    pose proof (destroySandbox_clears _ _ _ _ _ H) as (Hsb & Hcnt & Honce).
    pose proof (destroySandbox_config _ _ _ _ H) as (Hcfg & _).
    cbn [joinCnt once config set_config set_once set_joinCnt] in Hcnt, Honce, Hcfg.
    repeat split; try assumption; try lia.
    eexists. eexists. split; [reflexivity|]. split; [exact Hcfg|]. split; reflexivity.
Qed.

Lemma effects_emit (e : effect) (w : world) : effects (emit e w) = effects w ++ [e].
Proof. reflexivity. Qed.

Lemma hostModeOnce_emit (e : effect) (w : world) : hostModeOnce (emit e w) = hostModeOnce w.
Proof. reflexivity. Qed.

Lemma effects_set_hostMode (b : bool) (w : world) : effects (set_hostMode b w) = effects w.
Proof. reflexivity. Qed.

(** X7: the host-mode probe cleans up after itself.  [setHostMode] only
    appends to the effects; the probe device "testvxlan" is deleted exactly
    when the environment variable is empty and the device was created, and
    then the deletion is the last thing the probe does, whichever later
    step failed. *)
Theorem setHostMode_deletes_probe (w : world) :
  exists tail,
    effects (setHostMode h w) = effects w ++ tail /\
    (In (DeleteVxlan "testvxlan") tail <->
     Getenv h "_OVERLAY_HOST_MODE" = "" /\ createVxlan h "testvxlan" 1 = None) /\
    (In (DeleteVxlan "testvxlan") tail -> last tail = Some (DeleteVxlan "testvxlan")).
Proof.
  unfold setHostMode.
  destruct (String.eqb_spec (Getenv h "_OVERLAY_HOST_MODE") "") as [He|He]; cbn [negb].
  - destruct (createVxlan h "testvxlan" 1) as [e1|].
    + eexists. rewrite !effects_emit, <- !app_assoc. split; [reflexivity|].
      cbn [app In]. split; [|intros [H|[H|[]]]; discriminate].
      split; [intros [H|[H|[]]]; discriminate|intros [_ H]; discriminate].
    + destruct (OpenFile h "/proc/self/ns/net") as [e2|];
        [|destruct (LinkByName h "testvxlan") as [e3|];
          [|destruct (LinkSetNsFd h "testvxlan") as [e4|]]];
        eexists; repeat (rewrite effects_emit || rewrite effects_set_hostMode);
        rewrite <- ?app_assoc;
        (split; [reflexivity|]); cbn [app In]; (split; [|intros _; reflexivity]);
        (split; [intros _; split; [exact He|reflexivity]|intros _; tauto]).
  - exists []. rewrite app_nil_r. split; [reflexivity|].
    cbn [In]. split; [|intros []]. split; [intros []|intros [H _]; contradiction].
Qed.

Lemma setHostMode_hostModeOnce (w : world) : hostModeOnce (setHostMode h w) = hostModeOnce w.
Proof.
  unfold setHostMode.
  destruct (negb _); [reflexivity|].
  destruct (createVxlan h "testvxlan" 1); [reflexivity|].
  destruct (OpenFile h "/proc/self/ns/net"); [reflexivity|].
  destruct (LinkByName h "testvxlan"); [reflexivity|].
  destruct (LinkSetNsFd h "testvxlan"); reflexivity.
Qed.

(** X8: the probe runs once per process.  After [hostModeOnce.Do] has
    returned, a second [hostModeOnce.Do] changes nothing: no probe device is
    created again and [hostMode] keeps the value the first run gave it. *)
Theorem hostModeOnce_Do_once (w : world) :
  hostModeOnce (hostModeOnce_Do h w) = true /\
  hostModeOnce_Do h (hostModeOnce_Do h w) = hostModeOnce_Do h w.
Proof.
  assert (H1 : hostModeOnce (hostModeOnce_Do h w) = true).
  { unfold hostModeOnce_Do. destruct (hostModeOnce w) eqn:Ho; [exact Ho|].
    rewrite setHostMode_hostModeOnce. reflexivity. }
  split; [exact H1|]. unfold hostModeOnce_Do at 1. rewrite H1. reflexivity.
Qed.

Lemma watchMiss_msg_effects (nid : string) (w : world) (msg : NetlinkMessage) :
  exists tail,
    effects (watchMiss_msg h nid w msg) = effects w ++ tail /\
    Forall (miss_effect nid) tail /\
    hostMode (watchMiss_msg h nid w msg) = hostMode w /\
    hostModeOnce (watchMiss_msg h nid w msg) = hostModeOnce w.
Proof.
  unfold watchMiss_msg.
  assert (Hnil : exists tail, effects w = effects w ++ tail /\ Forall (miss_effect nid) tail /\
                              hostMode w = hostMode w /\ hostModeOnce w = hostModeOnce w).
  { exists []. rewrite app_nil_r. repeat split. constructor. }
  destruct (negb _ && negb _); [exact Hnil|].
  destruct (NeighDeserialize h (Data msg)) as [neigh|].
  - destruct (To16 (neigh_IP neigh)) eqn:H16; [exact Hnil|].
    destruct (Z.land _ _ =? 0); [exact Hnil|].
    destruct (resolvePeer h nid (neigh_IP neigh)) as [[[mac mask] vtep]|e].
    + destruct (peerAdd h nid "dummy" (neigh_IP neigh) mask mac vtep true).
      * eexists. rewrite !effects_emit, <- app_assoc. split; [reflexivity|].
        repeat split. repeat constructor; try exact I. cbn. repeat split. exact H16.
      * eexists. rewrite effects_emit. split; [reflexivity|].
        repeat split. repeat constructor. cbn. repeat split. exact H16.
    + eexists. rewrite effects_emit. split; [reflexivity|].
      repeat split. repeat constructor.
  - eexists. rewrite effects_emit. split; [reflexivity|].
    repeat split. repeat constructor.
Qed.

Lemma watchMiss_batch_effects (nid : string) (msgs : list NetlinkMessage) :
  forall w,
  exists tail,
    effects (fold_left (watchMiss_msg h nid) msgs w) = effects w ++ tail /\
    Forall (miss_effect nid) tail /\
    hostMode (fold_left (watchMiss_msg h nid) msgs w) = hostMode w /\
    hostModeOnce (fold_left (watchMiss_msg h nid) msgs w) = hostModeOnce w.
Proof.
  induction msgs as [|msg msgs IH]; intros w; cbn [fold_left].
  - exists []. rewrite app_nil_r. repeat split. constructor.
  - destruct (watchMiss_msg_effects nid w msg) as (t1 & He1 & Hf1 & Hm1 & Ho1).
    destruct (IH (watchMiss_msg h nid w msg)) as (t2 & He2 & Hf2 & Hm2 & Ho2).
    exists (t1 ++ t2). rewrite He2, He1, <- app_assoc. split; [reflexivity|].
    split; [apply Forall_app; split; assumption|]. split; congruence.
Qed.

(** X9: what the neighbour watcher never does.  Over any sequence of
    received batches and failed receives, [watchMiss] only appends to the
    effects, leaves the host-mode flags alone, and everything it appends is
    a log line or a [peerAdd] for its own network, with endpoint "dummy",
    marked as coming from a miss, for an address that is neither 4 nor 16
    bytes long. *)
Theorem watchMiss_effects (nid : string) (recvs : list (list NetlinkMessage + error)) :
  forall w,
  exists tail,
    effects (watchMiss h nid recvs w) = effects w ++ tail /\
    Forall (miss_effect nid) tail /\
    hostMode (watchMiss h nid recvs w) = hostMode w /\
    hostModeOnce (watchMiss h nid recvs w) = hostModeOnce w.
Proof.
  induction recvs as [|[msgs|e] recvs IH]; intros w; cbn [watchMiss].
  - exists []. rewrite app_nil_r. repeat split. constructor.
  - destruct (watchMiss_batch_effects nid msgs w) as (t1 & He1 & Hf1 & Hm1 & Ho1).
    destruct (IH (fold_left (watchMiss_msg h nid) msgs w)) as (t2 & He2 & Hf2 & Hm2 & Ho2).
    exists (t1 ++ t2). rewrite He2, He1, <- app_assoc. split; [reflexivity|].
    split; [apply Forall_app; split; assumption|]. split; congruence.
  - destruct (IH (emit (Logged "Failed to receive from netlink") w))
      as (t2 & He2 & Hf2 & Hm2 & Ho2).
    exists (Logged "Failed to receive from netlink" :: t2).
    rewrite He2, effects_emit, <- app_assoc. split; [reflexivity|].
    split; [constructor; [exact I|assumption]|]. split; assumption.
Qed.

End GuardProperties.

Section SubnetSearch.

Lemma first_passing_shift (test : subnet -> bool) (s : subnet) (ss : list subnet)
    (r : option nat) :
  test s = false ->
  first_passing test ss r ->
  first_passing test (s :: ss) (S <$> r).
Proof.
  intros Hs. destruct r as [k|]; cbn.
  - intros [(s1 & Hl & Ht) Hbefore]. split; [exists s1; split; assumption|].
    intros [|j] s' Hj Hl'; cbn in Hl'.
    + inversion Hl'; subst. exact Hs.
    + apply (Hbefore j); [lia|exact Hl'].
  - intros Hall s' [<-|Hin]; [exact Hs|apply Hall; exact Hin].
Qed.

Lemma getSubnetforIP_loop_spec (ipn : IPNet) (ss : list subnet) :
  forall k0,
    addressed ss ->
    exists r,
      getSubnetforIP_loop (Some ipn) ss k0 = Done ((fun i => (k0 + i)%nat) <$> r) /\
      first_passing (covers ipn) ss r.
Proof.
  induction ss as [|s ss IH]; intros k0 Hadd.
  - exists None. split; [reflexivity|]. intros s [].
  - inversion Hadd as [|s0 ss0 Hs Hss]; subst.
    cbn [getSubnetforIP_loop]. unfold covers at 1.
    destruct (subnetIP s) as [sn|] eqn:Hsn; [|congruence].
    destruct (Z.eqb_spec (fst (Size (ipnet_Mask sn))) (fst (Size (ipnet_Mask ipn))))
      as [Heq|Hne]; cbn [negb].
    + destruct (Contains sn (ipnet_IP ipn)) eqn:Hc.
      * exists (Some 0%nat). cbn. rewrite Nat.add_0_r. split; [reflexivity|].
        split; [|intros j s' Hj; lia].
        exists s. split; [reflexivity|]. unfold covers. rewrite Hsn, Hc.
        rewrite (proj2 (Z.eqb_eq _ _) Heq). reflexivity.
      * destruct (IH (S k0) Hss) as (r & Hr & Hf).
        exists (S <$> r). split.
        -- rewrite Hr. destruct r; cbn; [f_equal; f_equal; lia|reflexivity].
        -- apply first_passing_shift; [|exact Hf].
           unfold covers. rewrite Hsn, Hc. apply andb_false_r.
    + destruct (IH (S k0) Hss) as (r & Hr & Hf).
      exists (S <$> r). split.
      * rewrite Hr. destruct r; cbn; [f_equal; f_equal; lia|reflexivity].
      * apply first_passing_shift; [|exact Hf].
        unfold covers. rewrite Hsn.
        rewrite (proj2 (Z.eqb_neq _ _) Hne). reflexivity.
Qed.

(** X10: on a network all of whose subnets have a [subnetIP],
    [getSubnetforIP] of a non-nil address never fails, and it returns the
    first subnet, in the order of the network's list, whose mask has the
    length of the address's mask and whose network contains the address; it
    returns nil exactly when no subnet is such. *)
Theorem getSubnetforIP_first (n : network) (c : networkConfiguration) (ipn : IPNet) :
  config n = Some c ->
  addressed (subnets c) ->
  exists r,
    getSubnetforIP n (Some ipn) = Done r /\
    first_passing (covers ipn) (subnets c) r.
Proof.
  intros Hc Hadd. unfold getSubnetforIP, n_subnets. rewrite Hc. cbn [obind].
  destruct (getSubnetforIP_loop_spec ipn (subnets c) 0 Hadd) as (r & Hr & Hf).
  exists r. split; [|exact Hf]. rewrite Hr. destruct r; reflexivity.
Qed.

Lemma getMatchingSubnet_loop_spec (ipn : IPNet) (ss : list subnet) :
  forall k0,
    addressed ss ->
    exists r,
      getMatchingSubnet_loop ipn ss k0 = Done ((fun i => (k0 + i)%nat) <$> r) /\
      first_passing (matches ipn) ss r.
Proof.
  induction ss as [|s ss IH]; intros k0 Hadd.
  - exists None. split; [reflexivity|]. intros s [].
  - inversion Hadd as [|s0 ss0 Hs Hss]; subst.
    cbn [getMatchingSubnet_loop]. unfold matches at 1.
    destruct (subnetIP s) as [sn|] eqn:Hsn; [|congruence].
    destruct (Z.eqb_spec (fst (Size (ipnet_Mask sn))) (fst (Size (ipnet_Mask ipn))))
      as [Heq|Hne]; cbn [negb].
    + destruct (IP_Equal (ipnet_IP sn) (ipnet_IP ipn)) eqn:Hc.
      * exists (Some 0%nat). cbn. rewrite Nat.add_0_r. split; [reflexivity|].
        split; [|intros j s' Hj; lia].
        exists s. split; [reflexivity|]. unfold matches. rewrite Hsn, Hc.
        rewrite (proj2 (Z.eqb_eq _ _) Heq). reflexivity.
      * destruct (IH (S k0) Hss) as (r & Hr & Hf).
        exists (S <$> r). split.
        -- rewrite Hr. destruct r; cbn; [f_equal; f_equal; lia|reflexivity].
        -- apply first_passing_shift; [|exact Hf].
           unfold matches. rewrite Hsn, Hc. apply andb_false_r.
    + destruct (IH (S k0) Hss) as (r & Hr & Hf).
      exists (S <$> r). split.
      * rewrite Hr. destruct r; cbn; [f_equal; f_equal; lia|reflexivity].
      * apply first_passing_shift; [|exact Hf].
        unfold matches. rewrite Hsn.
        rewrite (proj2 (Z.eqb_neq _ _) Hne). reflexivity.
Qed.

(** X11: on a network all of whose subnets have a [subnetIP],
    [getMatchingSubnet] of a non-nil network never fails, and it returns
    the first subnet whose mask has the length of the given mask and whose
    address equals the given address as [IP.Equal] has it (the network of
    the subnet need not contain more than that: the mask bytes themselves
    are not compared); it returns nil exactly when no subnet is such. *)
Theorem getMatchingSubnet_first (n : network) (c : networkConfiguration) (ipn : IPNet) :
  config n = Some c ->
  addressed (subnets c) ->
  exists r,
    getMatchingSubnet n (Some ipn) = Done r /\
    first_passing (matches ipn) (subnets c) r.
Proof.
  intros Hc Hadd. unfold getMatchingSubnet, n_subnets. rewrite Hc. cbn [obind].
  destruct (getMatchingSubnet_loop_spec ipn (subnets c) 0 Hadd) as (r & Hr & Hf).
  exists r. split; [|exact Hf]. rewrite Hr. destruct r; reflexivity.
Qed.

End SubnetSearch.

Section MergeProperties.

Variable ParseCIDR : string -> option IPNet.

Lemma set_vni_set_vni (v v' : Z) (s : subnet) : set_vni v (set_vni v' s) = set_vni v s.
Proof. reflexivity. Qed.

Lemma setVxlanID_keeps_rest (n : network) (k : nat) (v : Z) (n' : network)
    (c : networkConfiguration) :
  config n = Some c ->
  setVxlanID n k v = Done n' ->
  exists c',
    config n' = Some c' /\
    map (set_vni 0) (subnets c') = map (set_vni 0) (subnets c) /\
    disableDefaultGW c' = disableDefaultGW c.
Proof.
  intros Hc H. unfold setVxlanID in H. rewrite Hc in H.
  destruct (subnets c !! k) as [s|] eqn:Hs; [|discriminate].
  inversion H; subst. eexists. split; [reflexivity|]. split; [|reflexivity].
  cbn [subnets set_subnets]. rewrite list_fmap_insert, set_vni_set_vni.
  apply list_insert_id. rewrite list_lookup_fmap, Hs. reflexivity.
Qed.

Lemma SetValue_loop_keeps_rest (ds : list (option subnet)) :
  forall (n n' : network) (c : networkConfiguration),
    config n = Some c ->
    SetValue_loop false ds n = Done n' ->
    exists c',
      config n' = Some c' /\
      map (set_vni 0) (subnets c') = map (set_vni 0) (subnets c) /\
      disableDefaultGW c' = disableDefaultGW c.
Proof.
  induction ds as [|[s|] ds IH]; intros n n' c Hc H; cbn [SetValue_loop] in H;
    try discriminate.
  - inversion H; subst. exists c. repeat split. exact Hc.
  - destruct (getMatchingSubnet n (subnetIP s)) as [[k|]| |]; try discriminate;
      cbn [obind] in H.
    + destruct (setVxlanID n k (vni s)) as [n1| |] eqn:Hs; try discriminate.
      cbn [obind] in H.
      destruct (setVxlanID_keeps_rest _ _ _ _ _ Hc Hs) as (c1 & Hc1 & Hm1 & Hd1).
      destruct (IH _ _ _ Hc1 H) as (c' & Hc' & Hm' & Hd').
      exists c'. split; [exact Hc'|]. split; congruence.
    + eapply IH; eauto.
Qed.

(** X12: [SetValue] on a network that already has subnets merges, it
    does not replace.  When it succeeds, the network has the same subnets
    in the same order, each with its addresses, device names and guard
    untouched: only [vni] values (and the flag [disableDefaultGW]) can have
    changed, and nothing outside the configuration has.  When it returns an
    error, the network is exactly as it was. *)
Theorem SetValue_merges (n : network) (value : jvalue) (n' : network) (e : option error) :
  no_subnets_yet n = false ->
  SetValue ParseCIDR n value = Done (n', e) ->
  match e with
  | Some _ => n' = n
  | None =>
      same_shell n n' /\
      exists c c',
        config n = Some c /\ config n' = Some c' /\
        map (set_vni 0) (subnets c') = map (set_vni 0) (subnets c)
  end.
Proof.
  intros Hold H. destruct e as [e|].
  - eapply SetValue_err; eauto.
  - split; [eapply SetValue_shell; eauto|].
    unfold no_subnets_yet in Hold.
    destruct (config n) as [c|] eqn:Hc; [|discriminate].
    unfold SetValue in H. rewrite Hc, Hold in H.
    match type of H with
    | obind ?m _ = _ => destruct m as [first| |]; try discriminate
    end.
    cbn [obind] in H.
    match type of H with
    | obind ?m _ = _ => destruct m as [[nc|e0]| |]; try discriminate
    end; cbn [obind] in H.
    destruct nc as [[ds d]|]; [|discriminate].
    rewrite Hc in H.
    match type of H with
    | obind ?m _ = _ => destruct m as [n3| |] eqn:Hl; try discriminate
    end.
    cbn [obind] in H. inversion H; subst.
    destruct (SetValue_loop_keeps_rest ds (set_config (Some (set_disableDefaultGW d c)) n)
                n' (set_disableDefaultGW d c) eq_refl Hl)
      as (c' & Hc' & Hm & _).
    exists c, c'. repeat split; assumption.
Qed.

End MergeProperties.

Section Adoption.

Variable IPNet_String : IPNet -> string.
Variable ParseCIDR : string -> option IPNet.

Local Abbreviation decoded' := (decoded IPNet_String ParseCIDR).
Local Abbreviation reparsed' := (reparsed IPNet_String ParseCIDR).

Lemma cons_eq_inv {A : Type} (a b : A) (l l' : list A) :
  a :: l = b :: l' -> a = b /\ l = l'.
Proof. intros H. inversion H. split; reflexivity. Qed.

(** [SetValue] on a network that has subnets keeps them, up to [vni]. *)
Lemma SetValue_keeps_subnets (n : network) (value : jvalue) (n' : network) :
  no_subnets_yet n = false ->
  SetValue ParseCIDR n value = Done (n', None) ->
  exists c c',
    config n = Some c /\ config n' = Some c' /\
    map (set_vni 0) (subnets c') = map (set_vni 0) (subnets c).
Proof.
  intros Hold H. unfold no_subnets_yet in Hold.
  destruct (config n) as [c|] eqn:Hc; [|discriminate].
  unfold SetValue in H. rewrite Hc, Hold in H.
  match type of H with
  | obind ?m _ = _ => destruct m as [first| |]; try discriminate
  end.
  cbn [obind] in H.
  match type of H with
  | obind ?m _ = _ => destruct m as [[nc|e0]| |]; try discriminate
  end; cbn [obind] in H.
  destruct nc as [[ds d]|]; [|discriminate].
  rewrite Hc in H.
  match type of H with
  | obind ?m _ = _ => destruct m as [n3| |] eqn:Hl; try discriminate
  end.
  cbn [obind] in H. inversion H; subst.
  destruct (SetValue_loop_keeps_rest ds (set_config (Some (set_disableDefaultGW d c)) n)
              n' (set_disableDefaultGW d c) eq_refl Hl)
    as (c' & Hc' & Hm & _).
  exists c, c'. repeat split; assumption.
Qed.

Lemma same_up_to_vni (s s' : subnet) :
  set_vni 0 s' = set_vni 0 s ->
  subnetIP s' = subnetIP s /\ gwIP s' = gwIP s /\ set_vni (vni s') s = s'.
Proof.
  destruct s, s'. unfold set_vni. cbn. intros H. injection H as -> -> -> -> -> ->.
  repeat split.
Qed.

Lemma lacks_address_up_to_vni (s s' : subnet) :
  set_vni 0 s' = set_vni 0 s -> (lacks_address s' <-> lacks_address s).
Proof.
  intros H. apply same_up_to_vni in H as (Hip & Hgw & _).
  unfold lacks_address. rewrite Hip, Hgw. reflexivity.
Qed.

(** Whether subnets can be encoded does not depend on their [vni]. *)
Lemma encodable_up_to_vni (ss : list subnet) :
  forall ss' : list subnet,
    map (set_vni 0) ss' = map (set_vni 0) ss -> encodable ss -> encodable ss'.
Proof.
  induction ss as [|s ss IH]; intros [|s' ss'] Hm He; try discriminate; [constructor|].
  cbn [map] in Hm. apply cons_eq_inv in Hm as [Hs Hm].
  inversion He as [|s0 l0 Hh Ht]; subst.
  constructor; [|apply IH; assumption].
  intros Hl. apply Hh. apply (lacks_address_up_to_vni _ _ Hs). exact Hl.
Qed.

Lemma exists_lacking_up_to_vni (ss : list subnet) :
  forall ss' : list subnet,
    map (set_vni 0) ss' = map (set_vni 0) ss ->
    Exists lacks_address ss -> Exists lacks_address ss'.
Proof.
  induction ss as [|s ss IH]; intros [|s' ss'] Hm He; try discriminate;
    [inversion He|].
  cbn [map] in Hm. apply cons_eq_inv in Hm as [Hs Hm].
  inversion He as [s0 l0 Hh|s0 l0 Ht]; subst.
  - left. apply (lacks_address_up_to_vni _ _ Hs). exact Hh.
  - right. apply IH; assumption.
Qed.

Lemma first_passing_unique (test : subnet -> bool) (ss : list subnet) (r r' : option nat) :
  first_passing test ss r -> first_passing test ss r' -> r = r'.
Proof.
  destruct r as [k|], r' as [k'|]; cbn.
  - intros [(s & Hs & Ht) Hb] [(s' & Hs' & Ht') Hb'].
    destruct (Nat.lt_trichotomy k k') as [Hlt|[->|Hlt]]; [|reflexivity|].
    + rewrite (Hb' k s Hlt Hs) in Ht. discriminate.
    + rewrite (Hb k' s' Hlt Hs') in Ht'. discriminate.
  - intros [(s & Hs & Ht) _] Hall.
    rewrite (Hall s) in Ht; [discriminate|].
    apply list_elem_of_In. eapply list_elem_of_lookup_2. exact Hs.
  - intros Hall [(s & Hs & Ht) _].
    rewrite (Hall s) in Ht; [discriminate|].
    apply list_elem_of_In. eapply list_elem_of_lookup_2. exact Hs.
  - reflexivity.
Qed.

(** The lookup reads nothing of a subnet but its address. *)
Lemma getMatchingSubnet_loop_ext (y : IPNet) (l : list subnet) :
  forall (l' : list subnet) (k : nat),
    map subnetIP l' = map subnetIP l ->
    getMatchingSubnet_loop y l' k = getMatchingSubnet_loop y l k.
Proof.
  induction l as [|s l IH]; intros [|s' l'] k Hm; try discriminate; [reflexivity|].
  cbn [map] in Hm. apply cons_eq_inv in Hm as [Hs Hm].
  cbn [getMatchingSubnet_loop]. rewrite Hs, (IH l' (S k) Hm). reflexivity.
Qed.

Lemma told_apart_found (ss : list subnet) (j : nat) (s : subnet) (y : IPNet) :
  addressed ss ->
  told_apart IPNet_String ParseCIDR ss ->
  ss !! j = Some s ->
  reparsed' (subnetIP s) = Some y ->
  getMatchingSubnet_loop y ss 0 = Done (Some j).
Proof.
  intros Hadd Hta Hs Hy.
  destruct (getMatchingSubnet_loop_spec y ss 0 Hadd) as (r & Hr & Hf).
  rewrite (first_passing_unique _ _ _ _ Hf (Hta j s y Hs Hy)) in Hr.
  exact Hr.
Qed.

(** The second loop of [SetValue] over the decoded form of the subnets
    [rest'], which are the last subnets [rest] of the network up to
    [vni]: each is found in its place and takes the stored [vni]. *)
Lemma SetValue_loop_adopts (rest : list subnet) :
  forall (rest' pre : list subnet) (n : network) (c : networkConfiguration),
    config n = Some c ->
    subnets c = pre ++ rest ->
    Forall2 (fun s' s => set_vni 0 s' = set_vni 0 s) rest' rest ->
    (forall j s, rest !! j = Some s ->
       exists y, reparsed' (subnetIP s) = Some y /\
                 getMatchingSubnet_loop y (pre ++ rest) 0 = Done (Some (length pre + j)%nat)) ->
    SetValue_loop false (map (fun s' => Some (decoded' s')) rest') n
    = Done (set_config (Some (set_subnets (pre ++ rest') c)) n).
Proof.
  induction rest as [|s rest IH]; intros rest' pre n c Hc Hss Hsame Hfound.
  - inversion Hsame; subst. cbn [map SetValue_loop].
    rewrite app_nil_r in *. destruct n, c. cbn in *. subst. reflexivity.
  - inversion Hsame as [|s' s0 tl' tl0 Hs Htl]; subst.
    destruct (same_up_to_vni _ _ Hs) as (Hip & _ & Hset).
    destruct (Hfound 0%nat s eq_refl) as (y & Hy & Hlook).
    assert (Hdip : subnetIP (decoded' s') = Some y) by (rewrite <- Hy, <- Hip; reflexivity).
    assert (Hdv : vni (decoded' s') = vni s') by reflexivity.
    cbn [map SetValue_loop]. unfold getMatchingSubnet, n_subnets.
    rewrite Hdip, Hdv, Hc. cbn [obind].
    rewrite Hss, Hlook. cbn [obind]. unfold setVxlanID. rewrite Hc, Hss.
    rewrite Nat.add_0_r, list_lookup_middle by reflexivity.
    rewrite Hset. cbn [obind].
    replace (<[length pre := s']> (pre ++ s :: rest)) with ((pre ++ [s']) ++ rest).
    2: { rewrite <- (Nat.add_0_r (length pre)) at 1.
         rewrite insert_app_r, <- app_assoc. reflexivity. }
    rewrite (IH tl' (pre ++ [s'])
               (set_config (Some (set_subnets ((pre ++ [s']) ++ rest) c)) n)
               (set_subnets ((pre ++ [s']) ++ rest) c) eq_refl eq_refl Htl).
    + cbn [set_config set_subnets subnets disableDefaultGW net_id dbIndex dbExists sbox
           joinCnt once initEpoch initErr config].
      rewrite <- app_assoc. reflexivity.
    + intros j s1 Hs1. destruct (Hfound (S j) s1 Hs1) as (y1 & Hy1 & Hl1).
      exists y1. split; [exact Hy1|].
      rewrite (getMatchingSubnet_loop_ext y1 (pre ++ s :: rest)).
      * rewrite Hl1, length_app. cbn [length]. f_equal. f_equal. lia.
      * rewrite <- app_assoc. cbn [app]. rewrite !map_app. cbn [map].
        rewrite Hip. reflexivity.
Qed.

(** The encoding of well-formed subnets and what the decoder makes of it. *)
Lemma subnets_decode (ss : list subnet) :
  forallb (well_formed IPNet_String ParseCIDR) ss = true ->
  exists js,
    marshal_subnets IPNet_String ss = Done js /\
    unmarshal_subnets ParseCIDR js = Done (map (fun s => Some (decoded' s)) ss).
Proof.
  induction ss as [|s ss IH]; intros Hw.
  - exists []. split; reflexivity.
  - cbn [forallb] in Hw. apply andb_prop in Hw as [Hs Hss].
    destruct (IH Hss) as (js & Hm & Hu).
    apply well_formed_inv in Hs
      as (ip & gw & ip' & gw' & Hip & Hgw & Hrip & Hrgw & _ & Hv).
    eexists. split.
    + cbn [marshal_subnets]. unfold subnet_MarshalJSON. rewrite Hip, Hgw.
      cbn [obind]. rewrite Hm. reflexivity.
    + cbn [unmarshal_subnets]. unfold subnet_UnmarshalJSON.
      cbn [jget jlookup String.eqb Ascii.eqb Bool.eqb from_option id].
      rewrite Hrgw, Hrip, (uint32_small _ Hv). cbn [obind snd fst]. rewrite Hu.
      cbn [obind map]. unfold decoded, reparsed. rewrite Hip, Hgw, Hrip, Hrgw.
      reflexivity.
Qed.

(** Reading back what another host stored for this network: the network
    takes the stored configuration. *)
Lemma SetValue_adopts (n : network) (c c' : networkConfiguration) :
  config n = Some c ->
  subnets c <> [] ->
  map (set_vni 0) (subnets c') = map (set_vni 0) (subnets c) ->
  forallb (well_formed IPNet_String ParseCIDR) (subnets c') = true ->
  told_apart IPNet_String ParseCIDR (subnets c) ->
  exists value,
    networkConfiguration_MarshalJSON IPNet_String c' = Done value /\
    SetValue ParseCIDR n value = Done (set_config (Some c') n, None).
Proof.
  intros Hc Hne Hm Hw Hta.
  destruct (subnets_decode _ Hw) as (js & Hj & Hu).
  eexists. split.
  { unfold networkConfiguration_MarshalJSON. rewrite Hj. reflexivity. }
  assert (Hnew : Nat.eqb (length (subnets c)) 0 = false).
  { destruct (subnets c); [congruence|reflexivity]. }
  assert (Hsame : Forall2 (fun s' s => set_vni 0 s' = set_vni 0 s) (subnets c') (subnets c)).
  { clear -Hm. revert Hm. generalize (subnets c). generalize (subnets c').
    induction l as [|s' l IH]; intros [|s l0] H; try discriminate; constructor.
    - cbn [map] in H. apply cons_eq_inv in H as [H _]. exact H.
    - apply IH. cbn [map] in H. apply cons_eq_inv in H as [_ H]. exact H. }
  assert (Hadd : addressed (subnets c)).
  { unfold addressed. apply Forall_forall. intros s Hin.
    apply list_elem_of_lookup in Hin as [j Hjs].
    destruct (Forall2_lookup_r _ _ _ _ _ Hsame Hjs) as (s' & Hjs' & Heq).
    apply same_up_to_vni in Heq as (Hip & _). rewrite <- Hip.
    rewrite forallb_forall in Hw.
    assert (Hws : well_formed IPNet_String ParseCIDR s' = true).
    { apply Hw. apply list_elem_of_In. eapply list_elem_of_lookup_2. exact Hjs'. }
    apply well_formed_inv in Hws as (ip & _ & _ & _ & Hs & _). rewrite Hs. discriminate. }
  unfold SetValue. rewrite Hc, Hnew.
  unfold networkConfiguration_UnmarshalJSON.
  cbn [jget jlookup String.eqb Ascii.eqb Bool.eqb from_option id obind].
  rewrite Hu. cbn [obind]. rewrite Hc.
  rewrite (SetValue_loop_adopts (subnets c) (subnets c') []
             (set_config (Some (set_disableDefaultGW (disableDefaultGW c') c)) n)
             (set_disableDefaultGW (disableDefaultGW c') c) eq_refl eq_refl Hsame).
  - cbn [obind app]. destruct c'. reflexivity.
  - intros j s Hjs.
    destruct (Forall2_lookup_r _ _ _ _ _ Hsame Hjs) as (s' & Hjs' & Heq).
    apply same_up_to_vni in Heq as (Hip & _).
    rewrite forallb_forall in Hw.
    assert (Hws : well_formed IPNet_String ParseCIDR s' = true).
    { apply Hw. apply list_elem_of_In. eapply list_elem_of_lookup_2. exact Hjs'. }
    apply well_formed_inv in Hws as (ip & _ & ip' & _ & Hs & _ & Hr & _).
    exists ip'. rewrite <- Hip, Hs. split; [exact Hr|].
    cbn [app length Nat.add].
    apply (told_apart_found _ _ s ip' Hadd Hta Hjs).
    rewrite <- Hip, Hs. exact Hr.
Qed.

End Adoption.

Section ObtainVxlanID.

Variable IPNet_String : IPNet -> string.
Variable ParseCIDR : string -> option IPNet.

Local Abbreviation GetObject' := (GetObject ParseCIDR).
Local Abbreviation loop := (obtainVxlanID_loop IPNet_String ParseCIDR).
Local Abbreviation obtain := (obtainVxlanID IPNet_String ParseCIDR).

(** A successful re-read of a network that has subnets keeps them, up to
    [vni]. *)
Lemma GetObject_keeps_subnets (d : driver) (n : network) (i : nat) (v : Z)
    (d1 : driver) (n1 : network) :
  vxlanID n i = Done v ->
  GetObject' d n = Done (d1, n1, None) ->
  exists c c1,
    config n = Some c /\ config n1 = Some c1 /\
    map (set_vni 0) (subnets c1) = map (set_vni 0) (subnets c).
Proof.
  intros Hv Hg. destruct (vxlanID_inv _ _ _ Hv) as (c & s & Hc & Hs & _).
  assert (Hold : no_subnets_yet n = false).
  { unfold no_subnets_yet. rewrite Hc. destruct (subnets c); [discriminate|reflexivity]. }
  unfold GetObject in Hg.
  destruct (ask d (ReqGet (Key n))) as [[d0 r]| |]; try discriminate.
  cbn [obind snd fst] in Hg. destruct r as [e|value idx]; [discriminate|].
  destruct (SetValue ParseCIDR n value) as [[n0 [e|]]| |] eqn:Hsv; try discriminate.
  cbn [obind snd fst] in Hg. injection Hg as _ <-.
  destruct (SetValue_keeps_subnets ParseCIDR _ _ _ Hold Hsv) as (c0 & c1 & Hc0 & Hc1 & Hm).
  exists c, c1. rewrite Hc in Hc0. injection Hc0 as <-.
  split; [exact Hc|]. split; [exact Hc1|exact Hm].
Qed.

(** The network that is put after an identifier was assigned has the
    subnets of the network the call started with, up to [vni]. *)
Lemma put_keeps_subnets (d : driver) (n : network) (i : nat) (c : networkConfiguration)
    (d1 : driver) (n1 n2 : network) (x : Z) :
  config n = Some c ->
  vxlanID n i = Done 0 ->
  GetObject' d n = Done (d1, n1, None) ->
  setVxlanID n1 i x = Done n2 ->
  exists c2,
    config n2 = Some c2 /\ map (set_vni 0) (subnets c2) = map (set_vni 0) (subnets c).
Proof.
  intros Hc Hv Hg Hset.
  destruct (GetObject_keeps_subnets _ _ _ _ _ _ Hv Hg) as (c0 & c1 & Hc0 & Hc1 & Hm1).
  rewrite Hc in Hc0. injection Hc0 as <-.
  destruct (setVxlanID_keeps_rest _ _ _ _ _ Hc1 Hset) as (c2 & Hc2 & Hm2 & _).
  exists c2. split; [exact Hc2|]. rewrite Hm2. exact Hm1.
Qed.

(** One turn of the loop in which an identifier is allocated: the network
    is encoded for the put, and then the store's answer decides. *)
Lemma loop_turn (f : nat) (d : driver) (n : network) (i : nat)
    (d1 : driver) (n1 : network) (x : Z) (idm1 : Idm) (r : reply) (rest : list reply) :
  idm_in_range (vxlanIdm d) = true ->
  GetObject' d n = Done (d1, n1, None) ->
  vxlanID n1 i = Done 0 ->
  GetID (vxlanIdm d1) = (x, None, idm1) ->
  store d1 = Some (r :: rest) ->
  exists n2,
    setVxlanID n1 i x = Done n2 /\ vxlanID n2 i = Done x /\
    x <> 0 /\ (x ∉ idm_live (vxlanIdm d)) /\
    idm_live idm1 = idm_live (vxlanIdm d) ∪ {[x]} /\
    vxlanIdm d1 = vxlanIdm d /\
    loop (S f) d n i
    = (value <- Value IPNet_String n2 ;;;
       match r with
       | ReplyOk _ idx =>
           Done (asked (set_vxlanIdm idm1 d1) (ReqPut n2) rest, SetIndex idx n2, None)
       | ReplyErr e =>
           let d4 := set_vxlanIdm (vxlanIdm d1)
                       (asked (set_vxlanIdm idm1 d1) (ReqPut n2) rest) in
           if bool_decide (e = ErrKeyModified) then loop f d4 n1 i
           else Done (d4, n1,
                      Some (Errorf ("network " +:+ quoted (net_id n1)
                                    +:+ " failed to update data store: " +:+ Error e)))
       end).
Proof.
  intros Hr Hg Hv Hid Hst.
  destruct (GetObject_inv _ _ _ _ _ _ Hg) as (r0 & rest0 & Hs0 & Hd1 & _).
  assert (Hidm : vxlanIdm d1 = vxlanIdm d) by (subst d1; reflexivity).
  destruct (GetID_ok _ _ _ Hid) as (Hx & Hfresh & Hi1).
  rewrite Hidm in Hx, Hfresh.
  destruct (in_range_conv _ _ Hr Hx) as (Hx0 & Hx32 & Hx64).
  destruct (vxlanID_inv _ _ _ Hv) as (c & s & Hc & Hs & Hvs).
  eexists. split; [apply (setVxlanID_ok _ _ _ _ _ Hc Hs)|].
  split; [apply vxlanID_after_set; assumption|].
  split; [assumption|]. split; [assumption|].
  split; [rewrite Hi1, Hidm; reflexivity|]. split; [assumption|].
  cbn [obtainVxlanID_loop]. rewrite Hg. cbn [obind]. rewrite Hv. cbn [obind].
  change (negb (0 =? 0)) with false. cbv iota. rewrite Hid. rewrite Hx32.
  rewrite (setVxlanID_ok _ _ _ _ _ Hc Hs). cbn [obind].
  unfold writeToStore, PutObjectAtomic.
  destruct (Value IPNet_String _) as [j| |]; try reflexivity. cbn [obind].
  unfold ask. cbn [store set_vxlanIdm]. rewrite Hst. cbn [obind snd fst].
  destruct r as [e|v idx]; [|reflexivity].
  cbn [obind]. rewrite (vxlanID_after_set _ _ _ _ _ Hs). cbn [obind].
  rewrite (set_then_reset _ _ _ _ _ Hc Hs Hvs). cbn [obind].
  rewrite Hx64. cbn [vxlanIdm set_vxlanIdm].
  assert (Hrel : Release x idm1 = vxlanIdm d1).
  { rewrite Hi1. apply Release_fresh. rewrite Hidm. exact Hfresh. }
  rewrite Hrel. reflexivity.
Qed.

(** Whatever the store answers, a finished loop satisfies [obtain_post]. *)
Lemma loop_outcome (i : nat) (f : nat) :
  forall (d : driver) (n : network) (d' : driver) (n' : network) (err : option error),
    idm_in_range (vxlanIdm d) = true ->
    vxlanID n i = Done 0 ->
    loop f d n i = Done (d', n', err) ->
    obtain_post i d d' n' err.
Proof.
  induction f as [|f IH]; intros d n d' n' err Hr Hv0 Hrun; [discriminate|].
  pose proof Hrun as Hturn.
  cbn [obtainVxlanID_loop] in Hrun.
  destruct (GetObject' d n) as [[[d1 n1] gerr]| |] eqn:Hg; try discriminate.
  destruct (GetObject_inv _ _ _ _ _ _ Hg) as (r0 & rest0 & Hs0 & Hd1 & Hn1).
  assert (Hidm : vxlanIdm d1 = vxlanIdm d) by (subst d1; reflexivity).
  assert (Hst1 : store d1 = Some rest0) by (subst d1; reflexivity).
  cbn [obind] in Hrun.
  destruct gerr as [e|].
  { inversion Hrun; subst d' n' err. simpl. rewrite Hn1 by discriminate.
    split; [exact Hv0|exact Hidm]. }
  destruct (vxlanID n1 i) as [v| |] eqn:Hv1; try discriminate.
  cbn [obind] in Hrun.
  destruct (Z.eqb_spec v 0) as [->|Hv].
  2: { cbn [negb] in Hrun. inversion Hrun; subst d' n' err.
       exists v. split; [exact Hv1|]. split; [exact Hv|]. left. exact Hidm. }
  cbn [negb] in Hrun.
  destruct (GetID (vxlanIdm d1)) as [[x aerr] idm1] eqn:Hid.
  destruct aerr as [e|].
  { inversion Hrun; subst d' n' err. simpl. split; [exact Hv1|exact Hidm]. }
  destruct rest0 as [|r rest].
  { destruct (setVxlanID n1 i (uint32 x)) as [n2| |]; try discriminate.
    cbn [obind] in Hrun. unfold writeToStore, PutObjectAtomic in Hrun.
    destruct (Value IPNet_String n2) as [j| |]; try discriminate.
    cbn [obind] in Hrun. unfold ask in Hrun.
    cbn [store set_vxlanIdm] in Hrun. rewrite Hst1 in Hrun. discriminate. }
  clear Hrun.
  destruct (loop_turn f d n i d1 n1 x idm1 r rest Hr Hg Hv1 Hid Hst1)
    as (n2 & Hset & Hv2 & Hx0 & Hfresh & Hlive & _ & Heq).
  rewrite Heq in Hturn. clear Heq.
  destruct (Value IPNet_String n2) as [j| |]; try discriminate.
  cbn [obind] in Hturn.
  destruct r as [e|v idx].
  - cbv zeta in Hturn. destruct (bool_decide (e = ErrKeyModified)).
    + apply IH in Hturn; [|cbn [vxlanIdm set_vxlanIdm]; rewrite Hidm; exact Hr|exact Hv1].
      unfold obtain_post in *. cbn [vxlanIdm set_vxlanIdm] in Hturn.
      rewrite Hidm in Hturn. exact Hturn.
    + inversion Hturn; subst d' n' err. simpl. split; [exact Hv1|exact Hidm].
  - inversion Hturn; subst d' n' err.
    exists x. split; [exact Hv2|]. split; [exact Hx0|]. right.
    split; [exact Hfresh|]. split; [exact Hlive|].
    exists n2. split; [|exact Hv2].
    cbn [store_log asked]. apply last_snoc.
Qed.

(** Every turn takes an answer off the script, so the loop never runs out
    of turns before the script runs out of answers. *)
Lemma loop_fuel (i : nat) (f1 : nat) :
  forall (f2 : nat) (d : driver) (n : network) (script : list reply),
    store d = Some script ->
    (length script < f1)%nat -> (length script < f2)%nat ->
    loop f1 d n i = loop f2 d n i.
Proof.
  induction f1 as [|f1 IH]; intros f2 d n script Hst H1 H2; [lia|].
  destruct f2 as [|f2]; [lia|].
  cbn [obtainVxlanID_loop].
  destruct (GetObject' d n) as [[[d1 n1] gerr]| |] eqn:Hg; try reflexivity.
  destruct (GetObject_inv _ _ _ _ _ _ Hg) as (r0 & rest0 & Hs0 & Hd1 & _).
  assert (Hst1 : store d1 = Some rest0) by (subst d1; reflexivity).
  rewrite Hst in Hs0. inversion Hs0; subst script. simpl in H1, H2.
  cbn [obind]. destruct gerr; [reflexivity|].
  destruct (vxlanID n1 i) as [v| |]; try reflexivity. cbn [obind].
  destruct (negb (v =? 0)); [reflexivity|].
  destruct (GetID (vxlanIdm d1)) as [[x aerr] idm1]. destruct aerr; [reflexivity|].
  destruct (setVxlanID n1 i (uint32 x)) as [n2| |]; try reflexivity. cbn [obind].
  unfold writeToStore, PutObjectAtomic.
  destruct (Value IPNet_String n2) as [j| |]; try reflexivity. cbn [obind].
  unfold ask. cbn [store set_vxlanIdm]. rewrite Hst1.
  destruct rest0 as [|r rest]; [reflexivity|]. cbn [obind snd fst].
  destruct r as [e|v' idx]; [|reflexivity].
  cbn [obind]. destruct (vxlanID n2 i) as [cur| |]; try reflexivity. cbn [obind].
  destruct (setVxlanID n2 i 0) as [n4| |]; try reflexivity. cbn [obind].
  destruct (bool_decide (e = ErrKeyModified)); [|reflexivity].
  apply (IH f2 _ n4 rest); [reflexivity| simpl in *; lia | simpl in *; lia].
Qed.

(** C1: [obtainVxlanID] on the subnet at index [i], with an allocator
    whose range is within the 24-bit space.  (1) If the subnet already has a
    non-zero [vni] the call succeeds at once and driver, store and network
    are untouched.  (2) Otherwise a turn of the loop re-reads the network
    from the store; when the [vni] is still 0 it takes a fresh identifier
    [x] from the allocator, assigns it and puts the network, which can be
    encoded when every subnet has its gateway and its address: on a
    positive answer the call succeeds with [vni = x] and [x] added to the
    live identifiers; on [KeyModified] the identifier is released, the
    [vni] is back to 0 and the call goes on exactly as a new call on the
    remaining answers; on any other error the identifier is released, the
    [vni] is back to 0 and the error is returned.  (3) Whatever the store
    answers and however often the loop turns, a successful return leaves
    the subnet with one non-zero [vni] and the allocator holding at most
    that identifier more than before, put to the store with the network,
    and a failed return leaves the subnet without [vni] and the allocator
    as it was.  (4) When the re-read brings the network's configuration as
    another host stored it, with a non-zero [vni] on the subnet, that
    [vni] is adopted: the call succeeds with the stored configuration and
    index, after the one read, and nothing is allocated or written.
    (5) When a subnet lacks its gateway or its address, the turn that has
    to put the network does not return: encoding it panics. *)
Theorem obtainVxlanID_spec (d : driver) (n : network) (i : nat) :
  idm_in_range (vxlanIdm d) = true ->
  (forall v, vxlanID n i = Done v -> v <> 0 ->
             obtain d n i = Done (d, n, None)) /\
  (forall c d1 n1 x idm1 r rest,
      config n = Some c ->
      encodable (subnets c) ->
      vxlanID n i = Done 0 ->
      GetObject' d n = Done (d1, n1, None) ->
      vxlanID n1 i = Done 0 ->
      GetID (vxlanIdm d1) = (x, None, idm1) ->
      store d1 = Some (r :: rest) ->
      exists n2,
        setVxlanID n1 i x = Done n2 /\ vxlanID n2 i = Done x /\
        x <> 0 /\ (x ∉ idm_live (vxlanIdm d)) /\
        let d_put := asked (set_vxlanIdm idm1 d1) (ReqPut n2) rest in
        let d_back := set_vxlanIdm (vxlanIdm d) d_put in
        match r with
        | ReplyOk _ idx =>
            obtain d n i = Done (d_put, SetIndex idx n2, None) /\
            idm_live (vxlanIdm d_put) = idm_live (vxlanIdm d) ∪ {[x]}
        | ReplyErr ErrKeyModified =>
            obtain d n i = obtain d_back n1 i
        | ReplyErr e =>
            obtain d n i
            = Done (d_back, n1,
                    Some (Errorf ("network " +:+ quoted (net_id n1)
                                  +:+ " failed to update data store: " +:+ Error e)))
        end) /\
  (forall d' n' err,
      obtain d n i = Done (d', n', err) -> obtain_post i d d' n' err) /\
  (forall c c' v,
      config n = Some c ->
      vxlanID n i = Done 0 ->
      map (set_vni 0) (subnets c') = map (set_vni 0) (subnets c) ->
      forallb (well_formed IPNet_String ParseCIDR) (subnets c') = true ->
      told_apart IPNet_String ParseCIDR (subnets c) ->
      vxlanID (set_config (Some c') n) i = Done v ->
      v <> 0 ->
      exists value,
        networkConfiguration_MarshalJSON IPNet_String c' = Done value /\
        forall idx rest,
          store d = Some (ReplyOk value idx :: rest) ->
          obtain d n i
          = Done (asked d (ReqGet (Key n)) rest, SetIndex idx (set_config (Some c') n), None)) /\
  (forall c d1 n1 x idm1,
      config n = Some c ->
      Exists lacks_address (subnets c) ->
      vxlanID n i = Done 0 ->
      GetObject' d n = Done (d1, n1, None) ->
      vxlanID n1 i = Done 0 ->
      GetID (vxlanIdm d1) = (x, None, idm1) ->
      obtain d n i = Panic).
Proof.
  intros Hr. split; [|split; [|split; [|split]]].
  - intros v Hv Hv0. unfold obtainVxlanID. rewrite Hv. cbn [obind].
    destruct (Z.eqb_spec v 0); [contradiction|]. reflexivity.
  - intros c d1 n1 x idm1 r rest Hc Henc Hv0 Hg Hv1 Hid Hst1.
    destruct (GetObject_inv _ _ _ _ _ _ Hg) as (r0 & rest0 & Hs0 & Hd1 & _).
    assert (Hrest : rest0 = r :: rest).
    { subst d1. cbn [store asked] in Hst1. congruence. }
    subst rest0.
    destruct (loop_turn (S (S (length rest))) d n i d1 n1 x idm1 r rest Hr Hg Hv1 Hid Hst1)
      as (n2 & Hset & Hv2 & Hx0 & Hfresh & Hlive & Hidm & Heq).
    exists n2. split; [exact Hset|]. split; [exact Hv2|]. split; [exact Hx0|].
    split; [exact Hfresh|].
    destruct (put_keeps_subnets _ _ _ _ _ _ _ _ Hc Hv0 Hg Hset) as (c2 & Hc2 & Hm2).
    destruct (Value_encodable IPNet_String n2 c2 Hc2 (encodable_up_to_vni _ _ Hm2 Henc))
      as [j Hj].
    rewrite Hj in Heq. cbn [obind] in Heq.
    assert (Hob : obtain d n i = loop (S (S (S (length rest)))) d n i).
    { unfold obtainVxlanID. rewrite Hv0. cbn [obind]. change (negb (0 =? 0)) with false.
      cbv iota. rewrite Hs0. reflexivity. }
    rewrite Hob, Heq. rewrite Hidm. cbv zeta.
    destruct r as [e|v idx].
    + assert (Hback :
        loop (S (S (length rest)))
          (set_vxlanIdm (vxlanIdm d) (asked (set_vxlanIdm idm1 d1) (ReqPut n2) rest)) n1 i
        = obtain
            (set_vxlanIdm (vxlanIdm d) (asked (set_vxlanIdm idm1 d1) (ReqPut n2) rest)) n1 i).
      { unfold obtainVxlanID. rewrite Hv1. cbn [obind]. change (negb (0 =? 0)) with false.
        cbv iota. cbn [store set_vxlanIdm asked].
        apply (loop_fuel i _ _ _ n1 rest); [reflexivity|lia|lia]. }
      destruct e; cbn [bool_decide decide_rel]; try reflexivity.
      rewrite bool_decide_eq_true_2 by reflexivity. exact Hback.
    + split; [reflexivity|]. exact Hlive.
  - intros d' n' err Hrun. unfold obtainVxlanID in Hrun.
    destruct (vxlanID n i) as [v| |] eqn:Hv; try discriminate. cbn [obind] in Hrun.
    destruct (Z.eqb_spec v 0) as [->|Hv0]; cbn [negb] in Hrun.
    + destruct (store d) as [script|].
      * eapply loop_outcome; eauto.
      * inversion Hrun; subst d' n' err. simpl. split; [exact Hv|reflexivity].
    + inversion Hrun; subst d' n' err. exists v.
      split; [exact Hv|]. split; [exact Hv0|]. left. reflexivity.
  - intros c c' v Hc Hv0 Hm Hw Hta Hv Hne.
    assert (Hss : subnets c <> []).
    { destruct (vxlanID_inv _ _ _ Hv0) as (c0 & s & Hc0 & Hs & _).
      rewrite Hc in Hc0. injection Hc0 as <-. intros E. rewrite E in Hs. discriminate. }
    destruct (SetValue_adopts IPNet_String ParseCIDR n c c' Hc Hss Hm Hw Hta)
      as (value & Hval & Hset).
    exists value. split; [exact Hval|]. intros idx rest Hst.
    unfold obtainVxlanID. rewrite Hv0. cbn [obind]. change (negb (0 =? 0)) with false.
    cbv iota. rewrite Hst. cbn [length obtainVxlanID_loop].
    unfold GetObject, ask. rewrite Hst. cbn [obind snd fst]. rewrite Hset.
    cbn [obind snd fst].
    assert (Hv' : vxlanID (SetIndex idx (set_config (Some c') n)) i = Done v) by exact Hv.
    rewrite Hv'. cbn [obind].
    destruct (Z.eqb_spec v 0); [contradiction|]. reflexivity.
  - intros c d1 n1 x idm1 Hc Hlack Hv0 Hg Hv1 Hid.
    destruct (GetObject_inv _ _ _ _ _ _ Hg) as (r0 & rest0 & Hs0 & _ & _).
    destruct (vxlanID_inv _ _ _ Hv1) as (c1 & s & Hc1 & Hs & _).
    pose proof (setVxlanID_ok n1 i c1 s (uint32 x) Hc1 Hs) as Hset.
    destruct (put_keeps_subnets _ _ _ _ _ _ _ _ Hc Hv0 Hg Hset) as (c2 & Hc2 & Hm2).
    unfold obtainVxlanID. rewrite Hv0. cbn [obind]. change (negb (0 =? 0)) with false.
    cbv iota. rewrite Hs0. cbn [length obtainVxlanID_loop].
    rewrite Hg. cbn [obind]. rewrite Hv1. cbn [obind].
    change (negb (0 =? 0)) with false. cbv iota. rewrite Hid.
    rewrite Hset. cbn [obind]. unfold writeToStore, PutObjectAtomic.
    rewrite (Value_lacking IPNet_String _ c2 Hc2 (exists_lacking_up_to_vni _ _ Hm2 Hlack)).
    reflexivity.
Qed.

End ObtainVxlanID.

Lemma obtainVxlanID_spec_witness :
  (exists d' n',
     obtainVxlanID IPv4Text.String_ IPv4Text.Parse Examples.retry_driver Examples.net1 0
     = Done (d', n', None) /\
     obtain_post 0 Examples.retry_driver d' n' None) /\
  obtainVxlanID IPv4Text.String_ IPv4Text.Parse
    (Examples.mk_driver (Some [ReplyOk Examples.stored1_300 2]) ∅) Examples.net1 0
  = Done (asked (Examples.mk_driver (Some [ReplyOk Examples.stored1_300 2]) ∅)
            (ReqGet ["overlay"; "network"; "n1"]) [],
          SetIndex 2 Examples.net1_300, None).
Proof.
  split.
  - destruct (obtainVxlanID IPv4Text.String_ IPv4Text.Parse Examples.retry_driver
                Examples.net1 0)
      as [[[d' n'] [e|]]| |] eqn:Hrun; try (vm_compute in Hrun; discriminate).
    exists d', n'. split; [reflexivity|].
    exact (proj1 (proj2 (proj2 (obtainVxlanID_spec IPv4Text.String_ IPv4Text.Parse
                                  Examples.retry_driver Examples.net1 0 eq_refl)))
             d' n' None Hrun).
  - destruct (proj1 (proj2 (proj2 (proj2
                (obtainVxlanID_spec IPv4Text.String_ IPv4Text.Parse
                   (Examples.mk_driver (Some [ReplyOk Examples.stored1_300 2]) ∅)
                   Examples.net1 0 eq_refl))))
                {| subnets := [new_subnet (Some IPv4Text.pool1) (Some IPv4Text.gw1) 0];
                   disableDefaultGW := false |}
                {| subnets := [new_subnet (Some IPv4Text.pool1) (Some IPv4Text.gw1) 300];
                   disableDefaultGW := false |}
                300 eq_refl eq_refl eq_refl)
      as (value & Hval & Hrun).
    + vm_compute. reflexivity.
    + intros [|j] s y Hs Hy; [|destruct j; discriminate].
      injection Hs as <-. vm_compute in Hy. injection Hy as <-.
      split; [|intros j s' Hlt; lia].
      eexists. split; [reflexivity|]. vm_compute. reflexivity.
    + reflexivity.
    + discriminate.
    + vm_compute in Hval. injection Hval as <-.
      exact (Hrun 2 [] eq_refl).
Defined.

(** The race of the specification's scenario: the first put meets
    [KeyModified], the next read brings the winner's identifier 300; the
    subnet ends with 300 and the allocator holds nothing. *)
Example obtainVxlanID_lost_race :
  exists d' n',
    obtainVxlanID IPv4Text.String_ IPv4Text.Parse Examples.lost_race_driver Examples.net1 0
    = Done (d', n', None) /\
    vxlanID n' 0 = Done 300 /\
    elements (idm_live (vxlanIdm d')) = [].
Proof.
  destruct (obtainVxlanID IPv4Text.String_ IPv4Text.Parse Examples.lost_race_driver
              Examples.net1 0)
    as [[[d' n'] [e|]]| |] eqn:Hrun; try (vm_compute in Hrun; discriminate).
  exists d', n'. split; [reflexivity|].
  vm_compute in Hrun. inversion Hrun; subst. split; vm_compute; reflexivity.
Qed.



Section DeviceNames.

Lemma str_length_append (a b : string) :
  String.length (a +:+ b) = (String.length a + String.length b)%nat.
Proof. induction a as [|c a IH]; [reflexivity|]. simpl. f_equal. exact IH. Qed.

Lemma substring_prefix_length (s : string) :
  forall k, (k <= String.length s)%nat -> String.length (substring 0 k s) = k.
Proof.
  induction s as [|c s IH]; intros [|k] Hk; simpl in *; try reflexivity; try lia.
  f_equal. apply IH. lia.
Qed.

Lemma substring_prefix_append (a b : string) :
  substring 0 (String.length a) (a +:+ b) = a.
Proof.
  induction a as [|c a IH]; simpl.
  - destruct b; reflexivity.
  - f_equal. exact IH.
Qed.

Lemma hex_value_char (d : Z) : 0 <= d < 16 -> hex_value (hex_char d) = d.
Proof.
  intros Hd.
  assert (H : d = 0 \/ d = 1 \/ d = 2 \/ d = 3 \/ d = 4 \/ d = 5 \/ d = 6 \/ d = 7 \/
              d = 8 \/ d = 9 \/ d = 10 \/ d = 11 \/ d = 12 \/ d = 13 \/ d = 14 \/ d = 15)
    by lia.
  repeat (destruct H as [->|H]; [reflexivity|]). subst. reflexivity.
Qed.

Lemma hex_digits_length (f : nat) :
  forall (k : nat) (v : Z),
    0 <= v < 16 ^ Z.of_nat k -> (1 <= k <= f)%nat ->
    (1 <= String.length (hex_digits f v) <= k)%nat.
Proof.
  induction f as [|f IH]; intros k v Hv Hk; [lia|].
  cbn [hex_digits]. destruct (Z.ltb_spec v 16) as [Hlt|Hge].
  - cbn. lia.
  - rewrite str_length_append. cbn [String.length].
    destruct k as [|[|k]]; [lia| |].
    + change (16 ^ Z.of_nat 1) with 16 in Hv. lia.
    + assert (Hdiv : 0 <= v / 16 < 16 ^ Z.of_nat (S k)).
      { split; [apply Z.div_pos; lia|].
        apply Z.div_lt_upper_bound; [lia|].
        replace (16 * 16 ^ Z.of_nat (S k)) with (16 ^ Z.of_nat (S (S k))); [lia|].
        rewrite (Nat2Z.inj_succ (S k)), Z.pow_succ_r by lia. reflexivity. }
      specialize (IH (S k) (v / 16) Hdiv ltac:(lia)). lia.
Qed.

Lemma unhex_from_append (a b : string) :
  forall acc, unhex_from acc (a +:+ b) = unhex_from (unhex_from acc a) b.
Proof. induction a as [|c a IH]; intros acc; cbn; [reflexivity|apply IH]. Qed.

Lemma unhex_hex_digits (f : nat) :
  forall v, 0 <= v < 16 ^ Z.of_nat f -> unhex_from 0 (hex_digits f v) = v.
Proof.
  induction f as [|f IH]; intros v Hv.
  - change (16 ^ Z.of_nat 0) with 1 in Hv. cbn. lia.
  - cbn [hex_digits]. destruct (Z.ltb_spec v 16) as [Hlt|Hge].
    + cbn [unhex_from]. rewrite hex_value_char by lia. lia.
    + rewrite unhex_from_append. rewrite IH.
      * cbn [unhex_from]. rewrite hex_value_char by (apply Z.mod_pos_bound; lia).
        pose proof (Z.div_mod v 16 ltac:(lia)). lia.
      * split; [apply Z.div_pos; lia|].
        apply Z.div_lt_upper_bound; [lia|].
        rewrite Nat2Z.inj_succ, Z.pow_succ_r in Hv by lia. lia.
Qed.

Lemma unhex_zeros (k : nat) : unhex_from 0 (zeros k) = 0.
Proof. induction k as [|k IH]; cbn; [reflexivity|exact IH]. Qed.

Lemma zeros_length (k : nat) : String.length (zeros k) = k.
Proof. induction k as [|k IH]; cbn; [reflexivity|rewrite IH; reflexivity]. Qed.

(** The six-digit form of a 24-bit number: six characters that read back
    as the number. *)
Lemma Sprintf_06x_24 (v : Z) :
  0 <= v < 2 ^ 24 ->
  String.length (Sprintf_06x v) = 6%nat /\ unhex (Sprintf_06x v) = v.
Proof.
  intros Hv. unfold Sprintf_06x, unhex. cbv zeta.
  assert (Hlen : (1 <= String.length (hex_digits 8 v) <= 6)%nat).
  { apply hex_digits_length; [|lia]. change (16 ^ Z.of_nat 6) with (2 ^ 24). exact Hv. }
  split.
  - rewrite str_length_append, zeros_length. lia.
  - rewrite unhex_from_append, unhex_zeros. apply unhex_hex_digits.
    change (16 ^ Z.of_nat 8) with (2 ^ 32). lia.
Qed.

(** X13: the names of a subnet's devices.  For a subnet whose [vni] is a
    24-bit number, on a network whose id has at least five characters,
    [generateVxlanName] and [generateBridgeName] return names of exactly 15
    characters, the longest name the kernel takes for an interface; the two
    names differ, and the six characters after the prefix read back, as a
    hexadecimal number, as the [vni], so that subnets with different
    identifiers never share a device name. *)
Theorem device_names (n : network) (i : nat) (v : Z) :
  vxlanID n i = Done v ->
  0 <= v < 2 ^ 24 ->
  (5 <= String.length (net_id n))%nat ->
  exists vx br,
    generateVxlanName n i = Done vx /\ generateBridgeName n i = Done br /\
    String.length vx = 15%nat /\ String.length br = 15%nat /\
    vx <> br /\
    unhex (substring 3 6 vx) = v /\ unhex (substring 3 6 br) = v.
Proof.
  intros Hv Hr Hid.
  destruct (Sprintf_06x_24 v Hr) as [Hlen Hback].
  unfold generateVxlanName, generateBridgeName, slice_to. rewrite Hv. cbn [obind].
  destruct (Nat.leb_spec 5 (String.length (net_id n))) as [_|Hlt]; [|lia].
  cbn [obind]. eexists. eexists. split; [reflexivity|]. split; [reflexivity|].
  assert (Hsub : String.length (substring 0 5 (net_id n)) = 5%nat)
    by (apply substring_prefix_length; exact Hid).
  assert (Hpre : forall a b c r,
             String a (String b (String c EmptyString)) +:+ r
             = String a (String b (String c r))) by reflexivity.
  rewrite !Hpre.
  repeat split.
  - cbn [String.length]. rewrite !str_length_append. cbn [String.length].
    rewrite Hlen, Hsub. reflexivity.
  - cbn [String.length]. rewrite !str_length_append. cbn [String.length].
    rewrite Hlen, Hsub. reflexivity.
  - intros H. inversion H.
  - cbn [substring]. rewrite <- Hlen at 1.
    rewrite substring_prefix_append. exact Hback.
  - cbn [substring]. rewrite <- Hlen at 1.
    rewrite substring_prefix_append. exact Hback.
Qed.

End DeviceNames.

Section SubnetBringUpProperties.

Variable h : Host.
Variable x : SubnetHost.
Variable IPNet_String : IPNet -> string.

Local Abbreviation initSubnetSandbox' := (initSubnetSandbox h x IPNet_String).
Local Abbreviation joinSubnetSandbox' := (joinSubnetSandbox h x IPNet_String).

Lemma generateVxlanName_set_sbox (sb : option Sandbox) (n : network) (i : nat) :
  generateVxlanName (set_sbox sb n) i = generateVxlanName n i.
Proof. reflexivity. Qed.

(** The outcomes of [initSubnetSandbox], path by path. *)
Lemma initSubnetSandbox_inv (w : world) (n : network) (i : nat)
    (calls : list call) (n' : network) (e : option error) :
  initSubnetSandbox' w n i = Done (calls, n', e) ->
  match e with
  | Some _ => config n' = config n
  | None =>
      exists c s sb vx br,
        config n = Some c /\ subnets c !! i = Some s /\ sbox n = Some sb /\
        generateVxlanName n i = Done vx /\ generateBridgeName n i = Done br /\
        config n' = Some (set_subnets (<[i := set_names vx br s]> (subnets c)) c) /\
        sbox n' = Some (with_iface vx (with_iface br sb)) /\
        calls = [SandboxAddInterface (sb_key sb) br "br" (gwIP s) true "";
                 Kernel (DeleteVxlan vx);
                 Kernel (CreateVxlan vx (vni s));
                 SandboxAddInterface (sb_key sb) vx "vxlan" None false br]
                ++ (if hostMode w then [AddFilters (substring 0 12 (net_id n)) br] else [])
  end.
Proof.
  unfold initSubnetSandbox, n_subnets. intros H.
  destruct (config n) as [c|] eqn:Hc; [|discriminate]. cbn [obind] in H.
  destruct (subnets c !! i) as [s|] eqn:Hs; [|discriminate].
  destruct (hostMode w && isOverlap x (subnetIP s)).
  { destruct (subnet_text IPNet_String s) as [t| |]; try discriminate.
    cbn [obind] in H. inversion H; subst. exact Hc. }
  destruct (generateBridgeName n i) as [br| |] eqn:Hbr; try discriminate.
  cbn [obind] in H.
  destruct (sbox n) as [sb|] eqn:Hsb; [|discriminate].
  destruct (AddInterface x (sb_key sb) br "br").
  { destruct (subnet_text IPNet_String s) as [t| |]; try discriminate.
    cbn [obind] in H. inversion H; subst. exact Hc. }
  rewrite generateVxlanName_set_sbox in H.
  destruct (generateVxlanName n i) as [vx| |] eqn:Hvx; try discriminate.
  cbn [obind] in H.
  assert (Hv : vxlanID (set_sbox (Some (with_iface br sb)) n) i = Done (vni s)).
  { unfold vxlanID, n_subnets. cbn [config set_sbox]. rewrite Hc. cbn [obind].
    rewrite Hs. reflexivity. }
  rewrite Hv in H. cbn [obind] in H.
  destruct (createVxlan h vx (vni s)).
  { inversion H; subst. exact Hc. }
  destruct (AddInterface x (sb_key sb) vx "vxlan").
  { destruct (subnet_text IPNet_String s) as [t| |]; try discriminate.
    cbn [obind] in H. inversion H; subst. exact Hc. }
  unfold update_subnet in H. cbn [config set_sbox net_id] in H. rewrite Hc, Hs in H.
  destruct (hostMode w).
  - unfold slice_to in H.
    destruct (Nat.leb 12 (String.length (net_id n))); [|discriminate].
    cbn [obind snd fst] in H.
    destruct (addFilters x _ br); cbn [obind] in H; inversion H; subst; [exact Hc|].
    exists c, s, sb, vx, br. repeat split; try assumption.
  - cbn [obind snd fst] in H. inversion H; subst.
    exists c, s, sb, vx, br. repeat split; try assumption.
Qed.

(** X14: what [initSubnetSandbox] leaves behind.  When it returns an
    error, at whatever step, the configuration is as it was: no device name
    is recorded on the subnet.  When it returns success, the subnet at the
    index carries the names [generateVxlanName] and [generateBridgeName]
    give and nothing else of it has changed, the sandbox reports the bridge
    and the vxlan interface after those it had, and the calls made are, in
    order: the bridge added to the sandbox with the gateway address, the
    best-effort deletion of a stale vxlan device of that name, the creation
    of the vxlan device with the subnet's [vni], the vxlan interface added
    with the bridge as master and, in host mode only, the filters for the
    bridge under the first twelve characters of the network id. *)
Theorem initSubnetSandbox_outcome (w : world) (n : network) (i : nat)
    (calls : list call) (n' : network) (e : option error) :
  initSubnetSandbox' w n i = Done (calls, n', e) ->
  match e with
  | Some _ => config n' = config n
  | None =>
      exists c s sb vx br,
        config n = Some c /\ subnets c !! i = Some s /\ sbox n = Some sb /\
        generateVxlanName n i = Done vx /\ generateBridgeName n i = Done br /\
        config n' = Some (set_subnets (<[i := set_names vx br s]> (subnets c)) c) /\
        sbox n' = Some (with_iface vx (with_iface br sb)) /\
        calls = [SandboxAddInterface (sb_key sb) br "br" (gwIP s) true "";
                 Kernel (DeleteVxlan vx);
                 Kernel (CreateVxlan vx (vni s));
                 SandboxAddInterface (sb_key sb) vx "vxlan" None false br]
                ++ (if hostMode w then [AddFilters (substring 0 12 (net_id n)) br] else [])
  end.
Proof. apply initSubnetSandbox_inv. Qed.

Lemma update_subnet_lookup (f : subnet -> subnet) (i : nat) (n n' : network) :
  update_subnet f i n = Done n' ->
  exists c s,
    config n = Some c /\ subnets c !! i = Some s /\
    n_subnets n' = Done (<[i := f s]> (subnets c)) /\
    (<[i := f s]> (subnets c)) !! i = Some (f s).
Proof.
  unfold update_subnet. destruct (config n) as [c|] eqn:Hc; [|discriminate].
  destruct (subnets c !! i) as [s|] eqn:Hs; [|discriminate].
  intros H. inversion H; subst. exists c, s.
  split; [reflexivity|]. split; [exact Hs|]. split; [reflexivity|].
  apply list_lookup_insert_eq. eapply lookup_lt_Some; eauto.
Qed.

(** X15: the subnet's one-shot guard.  Once [joinSubnetSandbox] has
    returned for a subnet, any further [joinSubnetSandbox] for it, in
    whatever state the host is by then, makes no call, leaves the network
    alone and returns the error (or the success) of the first:
    [initSubnetSandbox] is not run again. *)
Theorem joinSubnetSandbox_once (w w' : world) (n : network) (i : nat)
    (calls : list call) (n1 : network) (e : option error) :
  joinSubnetSandbox' w n i = Done (calls, n1, e) ->
  joinSubnetSandbox' w' n1 i = Done ([], n1, e).
Proof.
  unfold joinSubnetSandbox. intros H.
  destruct (n_subnets n) as [ss| |] eqn:Hn; try discriminate. cbn [obind] in H.
  destruct (ss !! i) as [s|] eqn:Hs; [|discriminate].
  destruct (s_once s) eqn:Ho.
  - inversion H; subst. rewrite Hn. cbn [obind]. rewrite Hs, Ho. reflexivity.
  - destruct (initSubnetSandbox h x IPNet_String w n i) as [[[cs n0] err]| |];
      try discriminate.
    cbn [obind] in H.
    destruct (update_subnet _ i n0) as [n2| |] eqn:Hu; try discriminate.
    cbn [obind] in H. inversion H; subst.
    apply update_subnet_lookup in Hu as (c & s0 & _ & _ & Hn1 & Hl).
    rewrite Hn1. cbn [obind]. rewrite Hl. reflexivity.
Qed.

End SubnetBringUpProperties.

Section TeardownProperties.

Variable h : Host.

Lemma fold_IfaceRemove (ifaces : list string) :
  forall w,
    effects (fold_left (fun w' iface => emit (IfaceRemove iface) w') ifaces w)
    = effects w ++ map IfaceRemove ifaces /\
    hostMode (fold_left (fun w' iface => emit (IfaceRemove iface) w') ifaces w) = hostMode w.
Proof.
  induction ifaces as [|a l IH]; intros w; cbn [fold_left map].
  - rewrite app_nil_r. split; reflexivity.
  - destruct (IH (emit (IfaceRemove a) w)) as [He Hm]. rewrite He, Hm.
    rewrite effects_emit, <- app_assoc. split; reflexivity.
Qed.

Lemma destroy_subnets_effects (nid : string) (ss : list subnet) :
  forall w w',
    destroy_subnets h nid ss w = Done w' ->
    exists tail,
      effects w' = effects w ++ tail /\
      (forall s, In s ss -> vxlanName s <> "" -> In (DeleteVxlan (vxlanName s)) tail).
Proof.
  induction ss as [|s ss IH]; intros w w' H; cbn [destroy_subnets] in H.
  - inversion H; subst. exists []. rewrite app_nil_r. split; [reflexivity|]. intros s [].
  - match type of H with
    | obind ?m _ = _ => destruct m as [w1| |] eqn:H1; try discriminate
    end.
    cbn [obind] in H.
    assert (E1 : exists t1, effects w1 = effects w ++ t1).
    { destruct (hostMode w).
      - destruct (slice_to 12 nid) as [key| |]; try discriminate. cbn [obind] in H1.
        destruct (removeFilters h key (brName s)); inversion H1; subst;
          eexists; rewrite !effects_emit, <- ?app_assoc; reflexivity.
      - inversion H1; subst. exists []. rewrite app_nil_r. reflexivity. }
    destruct E1 as (t1 & E1).
    apply IH in H as (t2 & E2 & Hin).
    destruct (String.eqb_spec (vxlanName s) "") as [Hempty|Hname]; cbn [negb] in E2.
    + exists (t1 ++ t2). rewrite E2, E1, <- app_assoc. split; [reflexivity|].
      intros s' [<-|Hs'] Hne; [contradiction|].
      apply in_or_app. right. apply Hin; assumption.
    + assert (E3 : exists t3,
                 effects (match deleteVxlan h (vxlanName s) with
                          | Some _ => emit (Logged "could not cleanup sandbox properly")
                                        (emit (DeleteVxlan (vxlanName s)) w1)
                          | None => emit (DeleteVxlan (vxlanName s)) w1
                          end)
                 = effects w1 ++ DeleteVxlan (vxlanName s) :: t3).
      { destruct (deleteVxlan h (vxlanName s)); eexists;
          rewrite !effects_emit, <- ?app_assoc; reflexivity. }
      destruct E3 as (t3 & E3). rewrite E3, E1 in E2.
      exists (t1 ++ DeleteVxlan (vxlanName s) :: t3 ++ t2).
      rewrite E2, <- !app_assoc. split; [reflexivity|].
      intros s' [<-|Hs'] Hne; apply in_or_app; right.
      * left. reflexivity.
      * right. apply in_or_app. right. apply Hin; assumption.
Qed.

(** The effects of a [destroySandbox] that returns. *)
Lemma destroySandbox_effects (w : world) (n : network) (sb : Sandbox)
    (c : networkConfiguration) (w' : world) (n' : network) :
  sbox n = Some sb ->
  config n = Some c ->
  destroySandbox h w n = Done (w', n') ->
  sbox n' = None /\
  exists tail,
    effects w' = effects w ++ tail /\
    (forall name, In name (sb_ifaces sb) -> In (IfaceRemove name) tail) /\
    (forall s, In s (subnets c) -> vxlanName s <> "" -> In (DeleteVxlan (vxlanName s)) tail) /\
    last tail = Some (SandboxDestroy (sb_key sb)).
Proof.
  intros Hsb Hc H. unfold destroySandbox, n_subnets in H. rewrite Hsb, Hc in H.
  cbn [obind] in H.
  destruct (fold_IfaceRemove (sb_ifaces sb) w) as [E0 _].
  destruct (destroy_subnets h _ _ _) as [w2| |] eqn:H2; try discriminate.
  cbn [obind] in H.
  apply destroy_subnets_effects in H2 as (t2 & E2 & Hdel). rewrite E0 in E2.
  assert (E3 : exists t3 w3,
             (if hostMode w2
              then key <- slice_to 12 (net_id n) ;;;
                   match removeNetworkChain h key with
                   | Some _ => Done (emit (Logged "could not remove network chain")
                                       (emit (RemoveNetworkChain key) w2))
                   | None => Done (emit (RemoveNetworkChain key) w2)
                   end
              else Done w2) = Done w3 /\ effects w3 = effects w2 ++ t3 /\
             Done (w', n') = Done (emit (SandboxDestroy (sb_key sb)) w3, set_sbox None n)).
  { destruct (hostMode w2).
    - destruct (slice_to 12 (net_id n)) as [key| |]; try discriminate. cbn [obind] in H |- *.
      destruct (removeNetworkChain h key); cbn [obind] in H; eexists; eexists;
        (split; [reflexivity|]); (split; [|symmetry; exact H]);
        rewrite !effects_emit, <- ?app_assoc; reflexivity.
    - cbn [obind] in H. exists [], w2. rewrite app_nil_r.
      split; [reflexivity|]. split; [reflexivity|]. symmetry. exact H. }
  destruct E3 as (t3 & w3 & _ & E3 & Hres). inversion Hres; subst w' n'.
  split; [reflexivity|].
  exists (map IfaceRemove (sb_ifaces sb) ++ t2 ++ t3 ++ [SandboxDestroy (sb_key sb)]).
  rewrite effects_emit, E3, E2, <- !app_assoc. split; [reflexivity|].
  split; [|split].
  - intros name Hin. apply in_or_app. left. apply in_map. exact Hin.
  - intros s Hin Hne. apply in_or_app. right. apply in_or_app. left. apply Hdel; assumption.
  - rewrite !app_assoc. apply last_snoc.
Qed.

(** X16: a teardown that returns has released everything the network
    recorded.  When [destroySandbox] returns for a network with a sandbox,
    it has removed every interface the sandbox reported, deleted the vxlan
    device of every subnet that has a device name recorded, destroyed the
    sandbox and set the sandbox field to nil; what was in the effects
    before is still there, in order. *)
Theorem destroySandbox_releases (w : world) (n : network) (sb : Sandbox)
    (c : networkConfiguration) (w' : world) (n' : network) :
  sbox n = Some sb ->
  config n = Some c ->
  destroySandbox h w n = Done (w', n') ->
  sbox n' = None /\
  exists tail,
    effects w' = effects w ++ tail /\
    (forall name, In name (sb_ifaces sb) -> In (IfaceRemove name) tail) /\
    (forall s, In s (subnets c) -> vxlanName s <> "" -> In (DeleteVxlan (vxlanName s)) tail) /\
    last tail = Some (SandboxDestroy (sb_key sb)).
Proof. apply destroySandbox_effects. Qed.

End TeardownProperties.

Section BringUpThenTeardown.

Variable h : Host.
Variable x : SubnetHost.
Variable IPNet_String : IPNet -> string.

Lemma generateVxlanName_nonempty (n : network) (i : nat) (vx : string) :
  generateVxlanName n i = Done vx -> vx <> "".
Proof.
  unfold generateVxlanName. destruct (vxlanID n i) as [v| |]; try discriminate.
  cbn [obind]. destruct (slice_to 5 (net_id n)) as [p| |]; try discriminate.
  cbn [obind]. intros H. inversion H. discriminate.
Qed.

(** X17: what a subnet's bring-up creates, the teardown removes.  After
    an [initSubnetSandbox] that succeeded, a [destroySandbox] that returns
    has deleted the vxlan device that was created for the subnet and has
    removed the bridge and the vxlan interface from the sandbox. *)
Theorem subnet_devices_torn_down (w w1 : world) (n : network) (i : nat)
    (calls : list call) (n1 : network) (w' : world) (n2 : network) :
  initSubnetSandbox h x IPNet_String w n i = Done (calls, n1, None) ->
  destroySandbox h w1 n1 = Done (w', n2) ->
  exists vx br v,
    generateVxlanName n i = Done vx /\ generateBridgeName n i = Done br /\
    vxlanID n i = Done v /\
    In (Kernel (CreateVxlan vx v)) calls /\
    In (DeleteVxlan vx) (effects w') /\
    In (IfaceRemove br) (effects w') /\
    In (IfaceRemove vx) (effects w') /\
    sbox n2 = None.
Proof.
  intros Hinit Hdestroy.
  apply initSubnetSandbox_inv in Hinit
    as (c & s & sb & vx & br & Hc & Hs & Hsb & Hvx & Hbr & Hc1 & Hsb1 & Hcalls).
  destruct (destroySandbox_effects h _ _ _ _ _ _ Hsb1 Hc1 Hdestroy)
    as (Hnil & tail & He & Hif & Hdel & _).
  exists vx, br, (vni s). split; [exact Hvx|]. split; [exact Hbr|].
  split; [unfold vxlanID, n_subnets; rewrite Hc; cbn [obind]; rewrite Hs; reflexivity|].
  split; [rewrite Hcalls; cbn; tauto|].
  rewrite He. repeat split; try exact Hnil; apply in_or_app; right.
  - specialize (Hdel (set_names vx br s)). cbn [vxlanName set_names] in Hdel.
    apply Hdel; [|eapply generateVxlanName_nonempty; eauto].
    cbn [subnets set_subnets]. apply list_elem_of_In.
    apply list_elem_of_lookup. exists i. apply list_lookup_insert_eq.
    eapply lookup_lt_Some; eauto.
  - apply Hif. cbn [sb_ifaces with_iface]. apply in_or_app. left.
    apply in_or_app. right. left. reflexivity.
  - apply Hif. cbn [sb_ifaces with_iface]. apply in_or_app. right. left. reflexivity.
Qed.

End BringUpThenTeardown.

Section CreateThenDelete.

Variable IPNet_String : IPNet -> string.
Variable ParseCIDR : string -> option IPNet.
Variable GenericData : string.
Variable DisableDefaultGW : string.
Variable configure : driver -> outcome (driver * option error).

Local Abbreviation Create :=
  (CreateNetwork IPNet_String GenericData DisableDefaultGW configure).
Local Abbreviation gateway_off := (disables_gateway GenericData DisableDefaultGW).

Lemma parseNetworkOptions_created (id : string) (opts : gmap string option_value) :
  exists b,
    parseNetworkOptions GenericData DisableDefaultGW (created_network id [] false) opts
    = Done (created_network id [] b) /\
    (b = true <-> gateway_off opts).
Proof.
  unfold parseNetworkOptions, disables_gateway.
  destruct (opts !! GenericData) as [[|m|]|] eqn:Ho.
  - exists false. split; [reflexivity|]. split; [discriminate|].
    intros (m & Hm & _). discriminate.
  - destruct (m !! DisableDefaultGW) as [v|] eqn:Hm.
    + exists true. split; [reflexivity|]. split; [|reflexivity].
      intros _. exists m. split; [reflexivity|]. rewrite Hm. eauto.
    + exists false. split; [reflexivity|]. split; [discriminate|].
      intros (m' & Hm' & Hs). inversion Hm'; subst m'. rewrite Hm in Hs.
      destruct Hs as [? Hs]. discriminate.
  - exists false. split; [reflexivity|]. split; [discriminate|].
    intros (m & Hm & _). discriminate.
  - exists false. split; [reflexivity|]. split; [discriminate|].
    intros (m & Hm & _). discriminate.
Qed.

(** A [CreateNetwork] that succeeds, step by step. *)
Lemma CreateNetwork_success (d : driver) (id : string) (opts : gmap string option_value)
    (ipV4Data ipV6Data : list IPAMData) (d' : driver) :
  id <> "" ->
  Create d id opts ipV4Data ipV6Data = Done (d', None) ->
  exists d1 v idx rest b,
    configure d = Done (d1, None) /\
    store d1 = Some (ReplyOk v idx :: rest) /\
    (b = true <-> gateway_off opts) /\
    d' = addNetwork (asked d1 (ReqPut (created_network id ipV4Data b)) rest)
           (SetIndex idx (created_network id ipV4Data b)).
Proof.
  intros Hid H. unfold CreateNetwork in H.
  destruct (String.eqb_spec id "") as [|_]; [contradiction|].
  destruct (configure d) as [[d1 [e|]]| |]; try discriminate.
  cbn [obind snd fst] in H.
  destruct (parseNetworkOptions_created id opts) as (b & Hp & Hb).
  unfold created_network in Hp. cbn [fold_left] in Hp. rewrite Hp in H.
  cbn [obind config set_config] in H.
  unfold writeToStore, PutObjectAtomic in H.
  destruct (Value IPNet_String _) as [j| |]; try discriminate.
  cbn [obind] in H. unfold ask in H.
  destruct (store d1) as [[|r rest]|] eqn:Hst; try discriminate.
  cbn [obind snd fst] in H.
  destruct r as [e|v idx]; [discriminate|].
  exists d1, v, idx, rest, b.
  split; [reflexivity|]. split; [exact Hst|]. split; [exact Hb|].
  inversion H. reflexivity.
Qed.

(** X18: a [CreateNetwork] that succeeds has made exactly one request to
    the store, the atomic put of the new network, and has registered that
    network with the index the store returned, marked as existing in the
    store, without a sandbox and with a join count of 0.  Its default
    gateway is disabled exactly when the generic options are a string map
    that has the key [DisableDefaultGW], whatever the value under it. *)
Theorem CreateNetwork_registers (d : driver) (id : string) (opts : gmap string option_value)
    (ipV4Data ipV6Data : list IPAMData) (d' : driver) :
  id <> "" ->
  Create d id opts ipV4Data ipV6Data = Done (d', None) ->
  exists d1 n c v idx rest n_put,
    configure d = Done (d1, None) /\
    store d1 = Some (ReplyOk v idx :: rest) /\
    store d' = Some rest /\
    store_log d' = store_log d1 ++ [ReqPut n_put] /\
    vxlanIdm d' = vxlanIdm d1 /\
    networks d' !! id = Some n /\
    n = SetIndex idx n_put /\
    dbIndex n = idx /\ dbExists n = true /\ dbExists n_put = false /\
    sbox n = None /\ joinCnt n = 0 /\ once n = false /\
    config n = Some c /\
    (disableDefaultGW c = true <-> gateway_off opts).
Proof.
  intros Hid H.
  destruct (CreateNetwork_success _ _ _ _ _ _ Hid H)
    as (d1 & v & idx & rest & b & Hc & Hst & Hb & ->).
  exists d1, (SetIndex idx (created_network id ipV4Data b)),
    (fold_left append_pool ipV4Data {| subnets := []; disableDefaultGW := b |}),
    v, idx, rest, (created_network id ipV4Data b).
  split; [exact Hc|]. split; [exact Hst|].
  cbn [store store_log vxlanIdm networks addNetwork set_networks asked
       net_id SetIndex created_network dbIndex dbExists sbox joinCnt once config].
  rewrite lookup_insert_eq.
  destruct (fold_append_pool ipV4Data {| subnets := []; disableDefaultGW := b |}) as [_ Hd].
  rewrite Hd. cbn [disableDefaultGW].
  repeat (split; [reflexivity|]). exact Hb.
Qed.

Hypothesis configure_keeps_registry :
  forall d d' e, configure d = Done (d', e) -> networks d' = networks d.

Lemma released_unallocated (ss : list subnet) (live : gset Z) :
  Forall (fun s => vni s = 0) ss ->
  live ∖ list_to_set (map (fun s => uint64 (vni s)) ss) ∖ {[0]} = live ∖ {[0]}.
Proof.
  induction 1 as [|s ss Hs _ IH]; cbn [map list_to_set].
  - rewrite difference_empty_L. reflexivity.
  - rewrite Hs. change (uint64 0) with 0.
    rewrite <- difference_difference_l_L.
    rewrite (difference_difference_l_L live {[0]}), (union_comm_L {[0]}).
    rewrite <- (difference_difference_l_L live), IH.
    rewrite difference_difference_l_L, union_idemp_L. reflexivity.
Qed.

(** X19: deleting a network right after creating it.  When [id] was free,
    [CreateNetwork id] succeeded and [DeleteNetwork id] returns, the
    registry is what it was before the creation.  A network created
    without IPv4 pools is deleted without any request to the store, so the
    record written at creation stays there; one created with pools is
    deleted from the store by one atomic delete, and the allocator keeps
    every identifier other than 0 that was live. *)
Theorem CreateNetwork_then_DeleteNetwork (d : driver) (id : string)
    (opts : gmap string option_value) (ipV4Data ipV6Data : list IPAMData)
    (d1 d2 : driver) (err : option error) :
  id <> "" ->
  networks d !! id = None ->
  Create d id opts ipV4Data ipV6Data = Done (d1, None) ->
  DeleteNetwork ParseCIDR d1 id = Done (d2, err) ->
  networks d2 = networks d /\
  (ipV4Data = [] ->
   err = None /\ store d2 = store d1 /\ store_log d2 = store_log d1 /\
   vxlanIdm d2 = vxlanIdm d1) /\
  (ipV4Data <> [] ->
   exists n, store_log d2 = store_log d1 ++ [ReqDelete n] /\ net_id n = id /\
     idm_live (vxlanIdm d2) ∖ {[0]} = idm_live (vxlanIdm d1) ∖ {[0]}).
Proof.
  intros Hid Hfree Hc Hdel.
  destruct (CreateNetwork_success _ _ _ _ _ _ Hid Hc)
    as (d0 & v & idx & rest & b & Hcfg & Hst & _ & ->).
  apply configure_keeps_registry in Hcfg.
  set (n0 := created_network id ipV4Data b) in *.
  unfold DeleteNetwork in Hdel.
  destruct (String.eqb_spec id "") as [|_]; [contradiction|].
  unfold driver_network in Hdel.
  cbn [networks addNetwork set_networks asked] in Hdel.
  change (net_id (SetIndex idx n0)) with id in Hdel.
  rewrite lookup_insert_eq in Hdel. cbn [obind snd fst] in Hdel.
  destruct (fold_append_pool ipV4Data {| subnets := []; disableDefaultGW := b |}) as [Hss _].
  cbn [subnets app] in Hss.
  unfold releaseVxlanID, n_subnets in Hdel.
  cbn [store deleteNetwork set_networks addNetwork asked config SetIndex n0 created_network]
    in Hdel.
  cbn [obind] in Hdel. rewrite Hss, length_map in Hdel.
  assert (Hreg : delete id (<[id := SetIndex idx n0]> (networks d0)) = networks d).
  { rewrite delete_insert_eq, delete_id; [exact Hcfg|]. rewrite Hcfg. exact Hfree. }
  destruct ipV4Data as [|ipd l].
  - cbn [length Nat.eqb obind snd fst] in Hdel. inversion Hdel; subst d2 err.
    cbn [networks store store_log vxlanIdm set_networks asked addNetwork deleteNetwork].
    split; [exact Hreg|]. split; [|congruence]. intros _. repeat split.
  - cbn [length Nat.eqb] in Hdel. split; [|split; [discriminate|]].
    + destruct (DeleteObjectAtomic _ _) as [[d3 e3]| |] eqn:Hd in Hdel; try discriminate.
      unfold DeleteObjectAtomic, ask in Hd. cbn [store set_networks] in Hd.
      destruct rest as [|r rest]; try discriminate. cbn [obind snd fst] in Hd.
      cbn [obind snd fst] in Hdel.
      destruct r as [e|v' idx']; inversion Hd; subst d3 e3; clear Hd.
      * destruct (bool_decide (e = ErrKeyModified) || bool_decide (e = ErrKeyNotFound));
          inversion Hdel; subst; exact Hreg.
      * destruct (release_loop _ _ _) as [[d4 n4]| |] eqn:Hr in Hdel; try discriminate.
        cbn [obind snd fst] in Hdel. inversion Hdel; subst d2 err.
        apply release_loop_networks in Hr as (Hn & _). rewrite Hn. exact Hreg.
    + intros _.
      destruct (DeleteObjectAtomic _ _) as [[d3 e3]| |] eqn:Hd in Hdel; try discriminate.
      unfold DeleteObjectAtomic, ask in Hd. cbn [store set_networks] in Hd.
      destruct rest as [|r rest]; try discriminate. cbn [obind snd fst] in Hd.
      cbn [obind snd fst] in Hdel.
      eexists. 
      destruct r as [e|v' idx']; inversion Hd; subst d3 e3; clear Hd.
      * destruct (bool_decide (e = ErrKeyModified) || bool_decide (e = ErrKeyNotFound));
          inversion Hdel; subst; cbn [store_log set_networks asked addNetwork deleteNetwork
                                       vxlanIdm];
          (split; [reflexivity|split; reflexivity]).
      * assert (Hlen : S (length l)
                       = length (subnets (fold_left append_pool (ipd :: l)
                                            {| subnets := []; disableDefaultGW := b |})))
          by (rewrite Hss, length_map; reflexivity).
        rewrite Hlen in Hdel.
        match type of Hdel with
        | context [release_loop _ ?dd ?nn] =>
            rewrite (release_loop_all dd nn _ eq_refl) in Hdel
        end.
        cbn [obind snd fst] in Hdel. inversion Hdel; subst d2 err.
        cbn [store_log set_networks asked addNetwork deleteNetwork vxlanIdm set_vxlanIdm
             released idm_live].
        split; [reflexivity|]. split; [reflexivity|].
        apply released_unallocated.
        match goal with
        | |- Forall _ ?ss =>
            replace ss with (map pool_subnet (ipd :: l)) by (symmetry; exact Hss)
        end.
        apply Forall_forall. intros s Hs. apply list_elem_of_In, in_map_iff in Hs as (p & <- & _).
        reflexivity.
Qed.

End CreateThenDelete.

Section JoinThenLeave.

Variable h : Host.

(** The sandbox a successful [initSandbox] installs. *)
Lemma initSandbox_inv (w : world) (n : network) (w' : world) (n' : network) :
  initSandbox h w n = Done (w', n', None) ->
  exists sb,
    sb_key sb = GenerateKey h (pretty (wrap_int (initEpoch n + 1)) +:+ "-" +:+ net_id n) /\
    sb_ifaces sb = [] /\
    n' = set_sbox (Some sb) (set_initEpoch (wrap_int (initEpoch n + 1)) n) /\
    In (SandboxNew (sb_key sb) (sb_osCreate sb)) (effects w').
Proof.
  unfold initSandbox. intros H.
  destruct (hostMode (hostModeOnce_Do h w)).
  - destruct (slice_to 12 _) as [key| |]; try discriminate. cbn [obind snd fst] in H.
    destruct (addNetworkChain h key); [discriminate|].
    destruct (NewSandbox h _ _); [discriminate|].
    inversion H; subst.
    refine (ex_intro _ {| sb_key := _; sb_osCreate := _; sb_ifaces := _ |} _).
    split; [reflexivity|]. split; [reflexivity|]. split; [reflexivity|].
    rewrite !effects_emit. cbn [sb_key sb_osCreate].
    apply in_or_app; left. apply in_or_app; left. apply in_or_app; left.
    apply in_or_app; right. left. reflexivity.
  - cbn [obind snd fst] in H.
    destruct (NewSandbox h _ _); [discriminate|].
    inversion H; subst.
    refine (ex_intro _ {| sb_key := _; sb_osCreate := _; sb_ifaces := _ |} _).
    split; [reflexivity|]. split; [reflexivity|]. split; [reflexivity|].
    rewrite !effects_emit. cbn [sb_key sb_osCreate].
    apply in_or_app; left. apply in_or_app; left. apply in_or_app; left.
    apply in_or_app; right. left. reflexivity.
Qed.

(** X20: the sandbox the first join creates is the one the last leave
    destroys.  For a network with a fresh guard and one endpoint counted,
    a [joinSandbox] that succeeds has created a sandbox whose key is made
    of the incremented epoch and the network id, and the [leaveSandbox]
    that follows ends by destroying the sandbox with that key, leaving the
    network without a sandbox, with a fresh guard, a count of 0 and the
    epoch of the join. *)
Theorem joinSandbox_then_leaveSandbox (w : world) (n : network)
    (w1 : world) (n1 : network) (w2 : world) (n2 : network) :
  once n = false ->
  joinCnt n = 1 ->
  joinSandbox h w n = Done (w1, n1, None) ->
  leaveSandbox h w1 n1 = Done (w2, n2) ->
  exists sb,
    sbox n1 = Some sb /\
    sb_key sb = GenerateKey h (pretty (wrap_int (initEpoch n + 1)) +:+ "-" +:+ net_id n) /\
    In (SandboxNew (sb_key sb) (sb_osCreate sb)) (effects w1) /\
    last (effects w2) = Some (SandboxDestroy (sb_key sb)) /\
    sbox n2 = None /\ once n2 = false /\ joinCnt n2 = 0 /\
    initEpoch n2 = wrap_int (initEpoch n + 1).
Proof.
  intros Honce Hcnt Hjoin Hleave.
  unfold joinSandbox in Hjoin. rewrite Honce in Hjoin.
  destruct (initSandbox h w n) as [[[w' n'] err]| |] eqn:Hinit; try discriminate.
  cbn [obind initErr set_once set_initErr] in Hjoin.
  inversion Hjoin; subst w1 n1 err. clear Hjoin.
  apply initSandbox_inv in Hinit as (sb & Hkey & Hif & -> & Hnew).
  exists sb. split; [reflexivity|]. split; [exact Hkey|]. split; [exact Hnew|].
  unfold leaveSandbox in Hleave.
  cbn [joinCnt set_joinCnt set_once set_initErr set_sbox set_initEpoch] in Hleave.
  rewrite Hcnt in Hleave. change (wrap_int (1 - 1)) with 0 in Hleave.
  cbn [Z.eqb negb config set_once set_joinCnt set_initErr set_sbox set_initEpoch] in Hleave.
  destruct (config n) as [c|] eqn:Hc; [|discriminate].
  pose proof (destroySandbox_clears _ _ _ _ _ Hleave) as (Hsb & Hj & Ho).
  pose proof (destroySandbox_config _ _ _ _ _ Hleave) as (_ & He & _).
  pose proof (fun A B => destroySandbox_effects h _ _ sb
                (set_subnets (map (set_s_once false) (subnets c)) c) _ _ A B Hleave)
    as Heff.
  destruct (Heff eq_refl eq_refl)
    as (_ & tail & Ht & _ & _ & Hlast).
  cbn [joinCnt once initEpoch set_config set_once set_joinCnt set_initErr set_sbox
       set_initEpoch] in Hj, Ho, He.
  repeat split; try assumption.
  rewrite Ht, last_app, Hlast. reflexivity.
Qed.

End JoinThenLeave.

Section BridgeDevice.

Variable DefaultBridgeName : string.
Variable nl : Bridge.Netlink.
Variable Intn : Z -> nat -> Z.

Lemma byte_range (z : Z) : 0 <= Bridge.byte z < 256.
Proof. unfold Bridge.byte. apply Z.mod_pos_bound. lia. Qed.

Lemma first_byte_bits (b : Z) :
  0 <= b < 256 ->
  let b' := Z.lor (Z.ldiff b 1) 2 in
  0 <= b' < 256 /\ Z.testbit b' 0 = false /\ Z.testbit b' 1 = true /\
  (b < 255 -> b' < 255) /\
  (forall k, 2 <= k -> Z.testbit b' k = Z.testbit b k).
Proof.
  intros Hb b'. subst b'.
  assert (H0 : Z.testbit (Z.lor (Z.ldiff b 1) 2) 0 = false).
  { rewrite Z.lor_spec, Z.ldiff_spec. change (Z.testbit 1 0) with true.
    change (Z.testbit 2 0) with false. rewrite andb_false_r. reflexivity. }
  assert (H1 : Z.testbit (Z.lor (Z.ldiff b 1) 2) 1 = true).
  { rewrite Z.lor_spec. change (Z.testbit 2 1) with true. apply orb_true_r. }
  assert (Hk : forall k, 2 <= k ->
                 Z.testbit (Z.lor (Z.ldiff b 1) 2) k = Z.testbit b k).
  { intros k Hk. rewrite Z.lor_spec, Z.ldiff_spec.
    assert (Z.testbit 1 k = false) as ->.
    { apply Z.bits_above_log2; [lia|]. change (Z.log2 1) with 0. lia. }
    assert (Z.testbit 2 k = false) as ->.
    { apply Z.bits_above_log2; [lia|]. change (Z.log2 2) with 1. lia. }
    rewrite andb_true_r, orb_false_r. reflexivity. }
  assert (Hge : 0 <= Z.lor (Z.ldiff b 1) 2).
  { apply Z.lor_nonneg. split; [|lia]. apply Z.ldiff_nonneg. lia. }
  assert (Hlt : Z.lor (Z.ldiff b 1) 2 < 256).
  { assert (F : forallb (fun b => Z.lor (Z.ldiff b 1) 2 <? 256)
                  (map Z.of_nat (seq 0 256)) = true) by (vm_compute; reflexivity).
    rewrite forallb_forall in F. apply Z.ltb_lt, F.
    apply in_map_iff. exists (Z.to_nat b). split; [lia|]. apply in_seq. lia. }
  split; [lia|]. split; [exact H0|]. split; [exact H1|]. split; [|exact Hk].
  intros _. destruct (Z.eq_dec (Z.lor (Z.ldiff b 1) 2) 255) as [E|]; [|lia].
  rewrite E in H0. discriminate.
Qed.

Lemma generateRandomMAC_bytes :
  Bridge.generateRandomMAC Intn
  = Z.lor (Z.ldiff (Bridge.byte (Intn 255 0%nat)) 1) 2
    :: map (fun k => Bridge.byte (Intn 255 k)) [1; 2; 3; 4; 5]%nat.
Proof. reflexivity. Qed.

Lemma generateRandomMAC_is_local_unicast :
  Bridge.local_unicast (Bridge.generateRandomMAC Intn).
Proof.
  rewrite generateRandomMAC_bytes.
  destruct (first_byte_bits _ (byte_range (Intn 255 0%nat))) as (Hr & H0 & H1 & _).
  split; [reflexivity|]. split.
  - constructor; [exact Hr|]. cbn [map].
    repeat (constructor; [apply byte_range|]). constructor.
  - eexists. eexists. split; [reflexivity|]. split; assumption.
Qed.

(** X21: the address [generateRandomMAC] returns, whatever the random
    source gives: six bytes; the first has the multicast bit clear and the
    local-assignment bit set and otherwise the bits of the first draw; the
    other five are the draws, as bytes.  When the source keeps the contract
    of [rand.Intn(255)], no byte of the address is 255. *)
Theorem generateRandomMAC_local_unicast :
  Bridge.local_unicast (Bridge.generateRandomMAC Intn) /\
  (forall b0, Bridge.generateRandomMAC Intn !! 0%nat = Some b0 ->
     forall k, 2 <= k -> Z.testbit b0 k = Z.testbit (Bridge.byte (Intn 255 0%nat)) k) /\
  (forall k, (1 <= k < 6)%nat ->
     Bridge.generateRandomMAC Intn !! k = Some (Bridge.byte (Intn 255 k))) /\
  ((forall k, 0 <= Intn 255 k < 255) ->
   Forall (fun b => 0 <= b < 255) (Bridge.generateRandomMAC Intn)).
Proof.
  rewrite generateRandomMAC_bytes.
  destruct (first_byte_bits _ (byte_range (Intn 255 0%nat))) as (Hr & H0 & H1 & H255 & Hk).
  split; [|split; [|split]].
  - rewrite <- generateRandomMAC_bytes. apply generateRandomMAC_is_local_unicast.
  - intros b0 Hb0. cbn in Hb0. inversion Hb0; subst b0. exact Hk.
  - intros k Hk'.
    destruct k as [|[|[|[|[|[|k]]]]]]; try lia; reflexivity.
  - intros Hc.
    assert (Hb : forall k, 0 <= Bridge.byte (Intn 255 k) < 255).
    { intros k. unfold Bridge.byte. rewrite Z.mod_small; [apply Hc|].
      specialize (Hc k). lia. }
    constructor.
    + split; [lia|]. apply H255. apply Hb.
    + cbn [map]. repeat (constructor; [apply Hb|]). constructor.
Qed.

(** X22: [setupDevice] creates the bridge only under the default name.
    With another name it fails before any netlink call and leaves the
    interface as it was.  With the default name it makes one call,
    [LinkAdd] of a bridge of that name, records that link and returns what
    the call returned; the link carries a hardware address exactly when the
    kernel version could be read and both its [Kernel] and its [Major]
    number are at least 3, and then the address is a local unicast one. *)
Theorem setupDevice_default_only (i i' : Bridge.bridgeInterface)
    (calls : list Bridge.nl_call) (err : option error) :
  Bridge.setupDevice DefaultBridgeName nl Intn i = Done (i', calls, err) ->
  exists name,
    Bridge.Config_BridgeName i = Some name /\
    (name <> DefaultBridgeName -> i' = i /\ calls = [] /\ err <> None) /\
    (name = DefaultBridgeName ->
     exists l,
       calls = [Bridge.LinkAdd l] /\ Bridge.Link i' = Some l /\
       Bridge.Name l = DefaultBridgeName /\ err = Bridge.LinkAdd_result nl l /\
       match Bridge.HardwareAddr l with
       | Some hw =>
           Bridge.local_unicast hw /\
           exists kv, Bridge.GetKernelVersion nl = inl kv /\
                      3 <= Bridge.kv_Kernel kv /\ 3 <= Bridge.kv_Major kv
       | None =>
           forall kv, Bridge.GetKernelVersion nl = inl kv ->
                      Bridge.kv_Kernel kv < 3 \/ Bridge.kv_Major kv < 3
       end).
Proof.
  unfold Bridge.setupDevice. intros H.
  destruct (Bridge.Config_BridgeName i) as [name|]; [|discriminate].
  exists name. split; [reflexivity|].
  destruct (String.eqb_spec name DefaultBridgeName) as [E|Hne]; cbn [negb] in H.
  - split; [congruence|]. intros _. inversion H; subst i' calls err. clear H.
    eexists. split; [reflexivity|]. split; [reflexivity|].
    destruct (Bridge.GetKernelVersion nl) as [kv|e] eqn:Hkv.
    + destruct (Z.leb_spec 3 (Bridge.kv_Kernel kv)) as [Hk|Hk];
        destruct (Z.leb_spec 3 (Bridge.kv_Major kv)) as [Hm|Hm];
        cbn [andb Bridge.Name Bridge.HardwareAddr];
        (split; [exact E|]); (split; [reflexivity|]).
      * split; [apply generateRandomMAC_is_local_unicast|]. exists kv. auto.
      * intros kv' E'. inversion E'; subst kv'. right. exact Hm.
      * intros kv' E'. inversion E'; subst kv'. left. exact Hk.
      * intros kv' E'. inversion E'; subst kv'. left. exact Hk.
    + cbn [Bridge.Name Bridge.HardwareAddr]. split; [exact E|].
      split; [reflexivity|]. intros kv E'. discriminate.
  - split; [|contradiction]. intros _. inversion H; subst. repeat split. discriminate.
Qed.

(** X26: bringing up the device that was set up.  After a [setupDevice]
    that succeeded, [setupDeviceUp] first sets up the very link that was
    added.  If that fails the error is returned, nothing else is called and
    the interface is as it was; if it succeeds the call succeeds whatever
    the lookup of the default name gives, and the interface carries the
    link found, or the link added when the lookup failed. *)
Theorem setupDevice_then_setupDeviceUp (i i1 i2 : Bridge.bridgeInterface)
    (calls1 calls2 : list Bridge.nl_call) (err : option error) :
  Bridge.setupDevice DefaultBridgeName nl Intn i = Done (i1, calls1, None) ->
  Bridge.setupDeviceUp nl i1 = Done (i2, calls2, err) ->
  exists l,
    calls1 = [Bridge.LinkAdd l] /\ Bridge.Name l = DefaultBridgeName /\
    match Bridge.LinkSetUp_result nl (Some l) with
    | Some e => err = Some e /\ calls2 = [Bridge.LinkSetUp (Some l)] /\ i2 = i1
    | None =>
        err = None /\
        calls2 = [Bridge.LinkSetUp (Some l); Bridge.LinkByName DefaultBridgeName] /\
        Bridge.Link i2 = Some (match Bridge.LinkByName_result nl DefaultBridgeName with
                               | inl found => found
                               | inr _ => l
                               end)
    end.
Proof.
  intros Hset Hup. unfold Bridge.setupDevice in Hset.
  destruct (Bridge.Config_BridgeName i) as [name|] eqn:Hname; [|discriminate].
  destruct (String.eqb_spec name DefaultBridgeName) as [E|Hne]; cbn [negb] in Hset;
    [|discriminate].
  match type of Hset with
  | Done (_, [Bridge.LinkAdd ?l0], _) = _ => remember l0 as l eqn:Hl
  end.
  assert (HN : Bridge.Name l = DefaultBridgeName).
  { rewrite Hl. destruct (Bridge.GetKernelVersion nl) as [kv|];
      [destruct (_ && _)|]; exact E. }
  clear Hl. injection Hset as Hi1 Hcalls Herr. clear Herr. subst i1 calls1.
  exists l. split; [reflexivity|]. split; [exact HN|].
  unfold Bridge.setupDeviceUp in Hup.
  cbn [Bridge.Link Bridge.set_Link Bridge.Config_BridgeName] in Hup.
  rewrite Hname, E in Hup.
  destruct (Bridge.LinkSetUp_result nl (Some l)) as [e|].
  - injection Hup as <- <- <-. split; [reflexivity|]. split; reflexivity.
  - destruct (Bridge.LinkByName_result nl DefaultBridgeName) as [found|e];
      injection Hup as <- <- <-; (split; [reflexivity|]); (split; reflexivity).
Qed.

End BridgeDevice.

Section DriverConfigProperties.

Variable StoreConfig : Type.
Variable Any : Type.
Variable netlabel_Key : string -> string.
Variable netlabel_Value : string -> string.
Variable DriverPrefix : string.
Variable MakeKVClient : string -> string.
Variable IsValid : option (Drivers.ScopeCfg StoreConfig) -> bool.
Variable range_ : forall V : Type, gmap string V -> list (string * V).

(** [range] visits every entry of a map once, in an order of its own. *)
Hypothesis range_perm : forall (V : Type) (m : gmap string V), range_ V m ≡ₚ map_to_list m.

Local Abbreviation value := (Drivers.value StoreConfig Any).
Local Abbreviation insert_scopes := (Drivers.insert_scopes StoreConfig Any MakeKVClient IsValid).
Local Abbreviation insert_label :=
  (Drivers.insert_label StoreConfig Any netlabel_Key netlabel_Value DriverPrefix).
Local Abbreviation makeDriverConfig :=
  (Drivers.makeDriverConfig StoreConfig Any netlabel_Key netlabel_Value DriverPrefix
     MakeKVClient IsValid range_).
Local Abbreviation datastore_entry :=
  (fun (k : string) (sc : Drivers.ScopeCfg StoreConfig) =>
     @Drivers.VDatastore StoreConfig Any
       {| Drivers.dc_Scope := k;
          Drivers.dc_Provider := Drivers.Provider _ (Drivers.Client _ sc);
          Drivers.dc_Address := Drivers.Address _ (Drivers.Client _ sc);
          Drivers.dc_Config := Drivers.Config _ (Drivers.Client _ sc) |}).

Lemma range_lookup (V : Type) (m : gmap string V) (k : string) (v : V) :
  (k, v) ∈ range_ V m <-> m !! k = Some v.
Proof. rewrite range_perm. apply elem_of_map_to_list. Qed.

Lemma range_NoDup (V : Type) (m : gmap string V) : NoDup (range_ V m).*1.
Proof. rewrite range_perm. apply NoDup_fst_map_to_list. Qed.

Lemma fold_labels (ntype : string) (labels : list string) :
  forall (config : gmap string value) (k : string) (v : value),
    fold_left (insert_label ntype) labels config !! k = Some v ->
    config !! k = Some v \/
    exists label,
      In label labels /\ netlabel_Key label = k /\
      String.prefix (DriverPrefix +:+ "." +:+ ntype) k = true /\
      v = Drivers.VString (netlabel_Value label).
Proof.
  induction labels as [|label labels IH]; intros config k v H; cbn [fold_left] in H.
  - left. exact H.
  - apply IH in H as [H|(l & Hin & Hk & Hp & Hv)].
    + unfold Drivers.insert_label in H.
      destruct (String.prefix _ (netlabel_Key label)) eqn:Hp; cbn [negb] in H.
      * apply lookup_insert_Some in H as [[<- <-]|[_ H]]; [|left; exact H].
        right. exists label. repeat split; [left; reflexivity|exact Hp].
      * left. exact H.
    + right. exists l. repeat split; try assumption. right. exact Hin.
Qed.

Lemma fold_insert_origin {V : Type} (l : list (string * V)) :
  forall (config : gmap string V) (k : string) (v : V),
    fold_left (fun config kv => <[fst kv := snd kv]> config) l config !! k = Some v ->
    (k, v) ∈ l \/ config !! k = Some v.
Proof.
  induction l as [|[k0 v0] l IH]; intros config k v H; cbn [fold_left fst snd] in H.
  - right. exact H.
  - apply IH in H as [H|H].
    + left. right. exact H.
    + apply lookup_insert_Some in H as [[<- <-]|[_ H]]; [left; left|right; exact H].
Qed.

Lemma fold_insert_other {V : Type} (l : list (string * V)) :
  forall (config : gmap string V) (k : string),
    k ∉ l.*1 ->
    fold_left (fun config kv => <[fst kv := snd kv]> config) l config !! k = config !! k.
Proof.
  induction l as [|[k0 v0] l IH]; intros config k Hk; cbn [fold_left fst snd].
  - reflexivity.
  - cbn [fmap list_fmap fst] in Hk. apply not_elem_of_cons in Hk as [Hne Hk].
    rewrite IH by exact Hk. apply lookup_insert_ne. congruence.
Qed.

Lemma fold_insert_member {V : Type} (l : list (string * V)) :
  forall (config : gmap string V) (k : string) (v : V),
    NoDup l.*1 -> (k, v) ∈ l ->
    fold_left (fun config kv => <[fst kv := snd kv]> config) l config !! k = Some v.
Proof.
  induction l as [|[k0 v0] l IH]; intros config k v Hnd Hin; cbn [fold_left fst snd].
  - apply elem_of_nil in Hin. contradiction.
  - cbn [fmap list_fmap fst] in Hnd. apply NoDup_cons in Hnd as [Hk0 Hnd].
    apply elem_of_cons in Hin as [Heq|Hin].
    + inversion Heq; subst k0 v0. rewrite fold_insert_other by exact Hk0.
      apply lookup_insert_eq.
    + apply IH; assumption.
Qed.

Lemma insert_scopes_origin (l : list (string * option (Drivers.ScopeCfg StoreConfig))) :
  forall (config config' : gmap string value) (k : string) (v : value),
    insert_scopes l config = Done config' ->
    config' !! k = Some v ->
    config !! k = Some v \/
    exists sk sc,
      (sk, Some sc) ∈ l /\ IsValid (Some sc) = true /\ MakeKVClient sk = k /\
      v = datastore_entry sk sc.
Proof.
  induction l as [|[sk0 v0] l IH]; intros config config' k v H Hk;
    cbn [Drivers.insert_scopes] in H.
  - inversion H; subst. left. exact Hk.
  - destruct (IsValid v0) eqn:Hv; cbn [negb] in H.
    + destruct v0 as [sc|]; [|discriminate].
      destruct (IH _ _ _ _ H Hk) as [H1|(sk & sc' & Hin & Hval & Hkey & Hval')].
      * apply lookup_insert_Some in H1 as [[<- <-]|[_ H1]]; [|left; exact H1].
        right. exists sk0, sc. repeat split; [left|exact Hv].
      * right. exists sk, sc'. repeat split; try assumption. right. exact Hin.
    + destruct (IH _ _ _ _ H Hk) as [H1|(sk & sc' & Hin & Hval & Hkey & Hval')].
      * left. exact H1.
      * right. exists sk, sc'. repeat split; try assumption. right. exact Hin.
Qed.

Lemma insert_scopes_other (l : list (string * option (Drivers.ScopeCfg StoreConfig))) :
  forall (config config' : gmap string value) (k : string),
    insert_scopes l config = Done config' ->
    (forall sk sc, (sk, Some sc) ∈ l -> IsValid (Some sc) = true -> MakeKVClient sk <> k) ->
    config' !! k = config !! k.
Proof.
  induction l as [|[sk0 v0] l IH]; intros config config' k H Hfree;
    cbn [Drivers.insert_scopes] in H.
  - inversion H; subst. reflexivity.
  - destruct (IsValid v0) eqn:Hv; cbn [negb] in H.
    + destruct v0 as [sc|]; [|discriminate].
      rewrite (IH _ _ _ H).
      * apply lookup_insert_ne. apply (Hfree sk0 sc); [left|exact Hv].
      * intros sk sc' Hin. apply Hfree. right. exact Hin.
    + apply (IH _ _ _ H). intros sk sc' Hin. apply Hfree. right. exact Hin.
Qed.

(** X23: where the entries of a driver's configuration come from.  Every
    entry of the map [makeDriverConfig] returns is the datastore entry of a
    valid scope, under that scope's client key and only for a driver type
    other than "remote", or an entry of the daemon's driver configuration
    for this type, or the key and value of a daemon label whose key starts
    with the driver prefix, a dot and the type. *)
Theorem makeDriverConfig_entries (cfg : Drivers.Config_ StoreConfig Any) (ntype : string)
    (config : gmap string value) (k : string) (v : value) :
  makeDriverConfig (Some cfg) ntype = Done (Some config) ->
  config !! k = Some v ->
  (ntype <> "remote" /\
   exists sk sc,
     Drivers.Scopes _ _ cfg !! sk = Some (Some sc) /\ IsValid (Some sc) = true /\
     k = MakeKVClient sk /\ v = datastore_entry sk sc) \/
  (exists m, Drivers.DriverCfg _ _ cfg !! ntype = Some (Drivers.CfgMap m) /\
             m !! k = Some v) \/
  (exists label,
     In label (Drivers.Labels _ _ cfg) /\ netlabel_Key label = k /\
     String.prefix (DriverPrefix +:+ "." +:+ ntype) k = true /\
     v = Drivers.VString (netlabel_Value label)).
Proof.
  unfold Drivers.makeDriverConfig. intros H Hk.
  assert (Hdrv : forall c1,
    match Drivers.DriverCfg _ _ cfg !! ntype with
    | Some (Drivers.CfgMap drvCfg) =>
        Done (fold_left (fun config kv => <[fst kv := snd kv]> config)
                (range_ _ drvCfg)
                (fold_left (insert_label ntype) (Drivers.Labels _ _ cfg) ∅))
    | Some Drivers.CfgNotMap => Panic
    | None => Done (fold_left (insert_label ntype) (Drivers.Labels _ _ cfg) ∅)
    end = Done c1 ->
    c1 !! k = Some v ->
    (exists m, Drivers.DriverCfg _ _ cfg !! ntype = Some (Drivers.CfgMap m) /\
               m !! k = Some v) \/
    (exists label,
       In label (Drivers.Labels _ _ cfg) /\ netlabel_Key label = k /\
       String.prefix (DriverPrefix +:+ "." +:+ ntype) k = true /\
       v = Drivers.VString (netlabel_Value label))).
  { intros c1 H1 Hc1.
    destruct (Drivers.DriverCfg _ _ cfg !! ntype) as [[m|]|]; try discriminate;
      inversion H1; subst c1; clear H1.
    - apply fold_insert_origin in Hc1 as [Hin|Hl].
      + left. exists m. split; [reflexivity|]. apply range_lookup. exact Hin.
      + right. apply fold_labels in Hl as [Hl|Hl]; [|exact Hl].
        rewrite lookup_empty in Hl. discriminate.
    - right. apply fold_labels in Hc1 as [Hl|Hl]; [|exact Hl].
      rewrite lookup_empty in Hl. discriminate. }
  match type of H with
  | obind ?m _ = _ => destruct m as [c1| |] eqn:H1; try discriminate
  end.
  cbn [obind] in H.
  destruct (String.eqb_spec ntype "remote") as [Hr|Hr].
  - inversion H; subst config. right. apply (Hdrv c1); [reflexivity|exact Hk].
  - unfold Drivers.insertDatastoreConfig in H.
    destruct (insert_scopes _ c1) as [c2| |] eqn:H2; try discriminate.
    cbn [obind] in H. inversion H; subst config. clear H.
    destruct (insert_scopes_origin _ _ _ _ _ H2 Hk)
      as [Hc1|(sk & sc & Hin & Hval & Hkey & Hv)].
    + right. apply (Hdrv c1); [reflexivity|exact Hc1].
    + left. split; [exact Hr|]. exists sk, sc.
      split; [apply range_lookup; exact Hin|]. split; [exact Hval|].
      split; [symmetry; exact Hkey|exact Hv].
Qed.

(** X24: the driver configuration wins over the labels.  An entry of the
    daemon's driver configuration for the type is in the returned map as
    it is, whatever the labels say about its key, for the type "remote" and
    for every other type unless the key is the client key of a valid
    scope. *)
Theorem makeDriverConfig_driver_cfg_wins (cfg : Drivers.Config_ StoreConfig Any)
    (ntype : string) (config m : gmap string value) (k : string) (v : value) :
  makeDriverConfig (Some cfg) ntype = Done (Some config) ->
  Drivers.DriverCfg _ _ cfg !! ntype = Some (Drivers.CfgMap m) ->
  m !! k = Some v ->
  (ntype = "remote" \/
   forall sk sc, Drivers.Scopes _ _ cfg !! sk = Some (Some sc) ->
                 IsValid (Some sc) = true -> MakeKVClient sk <> k) ->
  config !! k = Some v.
Proof.
  unfold Drivers.makeDriverConfig. intros H Hm Hk Hfree. rewrite Hm in H.
  cbn [obind] in H.
  assert (H1 : fold_left (fun config kv => <[fst kv := snd kv]> config) (range_ _ m)
                 (fold_left (insert_label ntype) (Drivers.Labels _ _ cfg) ∅) !! k = Some v).
  { apply fold_insert_member; [apply range_NoDup|]. apply range_lookup. exact Hk. }
  destruct (String.eqb_spec ntype "remote") as [Hr|Hr].
  - inversion H; subst config. exact H1.
  - destruct Hfree as [Hfree|Hfree]; [contradiction|].
    unfold Drivers.insertDatastoreConfig in H.
    destruct (insert_scopes _ _) as [c2| |] eqn:H2; try discriminate.
    cbn [obind] in H. inversion H; subst config. clear H.
    rewrite (insert_scopes_other _ _ _ _ H2); [exact H1|].
    intros sk sc Hin. apply Hfree. apply range_lookup. exact Hin.
Qed.

(** X25: what the address managers are initialised with.  [initIpams]
    dereferences the controller's configuration, so it panics without one.
    Otherwise every entry of the map it hands over is the datastore entry
    of a valid scope under that scope's client key, the builtin manager is
    initialised first, and the remote one only if the builtin one
    succeeded: the error returned is that of the first that failed. *)
Theorem initIpams_config (cfg : option (Drivers.Config_ StoreConfig Any))
    (builtinIpam_Init remoteIpam_Init : gmap string value -> option error)
    (calls : nat) (err : option error) :
  Drivers.initIpams StoreConfig Any MakeKVClient IsValid range_ cfg
    builtinIpam_Init remoteIpam_Init = Done (calls, err) ->
  exists cfg0 config,
    cfg = Some cfg0 /\
    Drivers.insertDatastoreConfig StoreConfig Any MakeKVClient IsValid range_
      (Drivers.Scopes _ _ cfg0) ∅ = Done config /\
    (forall k v, config !! k = Some v ->
       exists sk sc,
         Drivers.Scopes _ _ cfg0 !! sk = Some (Some sc) /\ IsValid (Some sc) = true /\
         k = MakeKVClient sk /\ v = datastore_entry sk sc) /\
    match builtinIpam_Init config with
    | Some e => calls = 1%nat /\ err = Some e
    | None => calls = 2%nat /\ err = remoteIpam_Init config
    end.
Proof.
  unfold Drivers.initIpams. intros H.
  destruct cfg as [cfg0|]; [|discriminate].
  destruct (Drivers.insertDatastoreConfig _ _ _ _ _ _ _) as [config| |] eqn:Hins;
    try discriminate.
  cbn [obind] in H. exists cfg0, config. split; [reflexivity|]. split; [exact Hins|].
  split.
  - intros k v Hk. unfold Drivers.insertDatastoreConfig in Hins.
    destruct (insert_scopes_origin _ _ _ _ _ Hins Hk)
      as [Hempty|(sk & sc & Hin & Hval & Hkey & Hv)].
    + rewrite lookup_empty in Hempty. discriminate.
    + exists sk, sc. split; [apply range_lookup; exact Hin|]. split; [exact Hval|].
      split; [symmetry; exact Hkey|exact Hv].
  - cbn [Drivers.init_each] in H.
    destruct (builtinIpam_Init config) as [e|].
    + inversion H. split; reflexivity.
    + destruct (remoteIpam_Init config) as [e|]; inversion H; split; reflexivity.
Qed.

End DriverConfigProperties.

Section Encoding.

Variable IPNet_String : IPNet -> string.

(** X27: when a network can be encoded.  [Value] of a network with a
    configuration panics exactly when one of its subnets lacks its gateway
    or its own address; otherwise it returns an object with the
    [disableDefaultGW] flag and one element per subnet.  A network without
    a configuration is encoded as [null]. *)
Theorem Value_outcome (n : network) :
  match config n with
  | None => Value IPNet_String n = Done JNull
  | Some c =>
      (Value IPNet_String n = Panic <-> Exists lacks_address (subnets c)) /\
      (~ Exists lacks_address (subnets c) ->
       exists js,
         Value IPNet_String n
         = Done (JObj [("disableDefaultGW", JBool (disableDefaultGW c)); ("subnets", JArr js)]) /\
         length js = length (subnets c))
  end.
Proof.
  unfold Value. destruct (config n) as [c|]; [|reflexivity].
  unfold networkConfiguration_MarshalJSON.
  pose proof (marshal_subnets_outcome IPNet_String (subnets c)) as H.
  destruct (marshal_subnets IPNet_String (subnets c)) as [js| |]; cbn [obind].
  - destruct H as [Hlen Hall]. split.
    + split; [discriminate|]. intros Hex. exfalso.
      apply Exists_exists in Hex as (s & Hin & Hs).
      rewrite Forall_forall in Hall. exact (Hall s Hin Hs).
    + intros _. exists js. split; [reflexivity|exact Hlen].
  - split; [split; [intros _; exact H|reflexivity]|]. intros Hn. contradiction.
  - contradiction.
Qed.

End Encoding.

(** ** The further statements at concrete inputs *)

Lemma DeleteNetwork_unregisters_witness :
  exists d' err,
    DeleteNetwork IPv4Text.Parse Scenarios.registered_driver "n1" = Done (d', err) /\
    networks d' = delete "n1" (networks Scenarios.registered_driver).
Proof.
  destruct (DeleteNetwork IPv4Text.Parse Scenarios.registered_driver "n1")
    as [[d' err]| |] eqn:Hrun; try (vm_compute in Hrun; discriminate).
  exists d', err. split; [reflexivity|].
  apply (DeleteNetwork_unregisters IPv4Text.Parse Scenarios.registered_driver "n1" d' err);
    [discriminate|exact Hrun].
Defined.

Lemma driver_network_found_witness :
  exists d' n,
    driver_network IPv4Text.Parse Scenarios.stored_driver "n1" = Done (d', Some n) /\
    driver_network IPv4Text.Parse d' "n1" = Done (d', Some n).
Proof.
  destruct (driver_network IPv4Text.Parse Scenarios.stored_driver "n1")
    as [[d' [n|]]| |] eqn:Hrun; try (vm_compute in Hrun; discriminate).
  exists d', n. split; [reflexivity|].
  exact (proj1 (driver_network_found IPv4Text.Parse Scenarios.stored_driver "n1" d' n Hrun)).
Defined.

Lemma DeleteNetwork_unknown_witness :
  DeleteNetwork IPv4Text.Parse (Examples.mk_driver None ∅) "n9"
  = Done (Examples.mk_driver None ∅, Some (Errorf "could not find network with id n9")).
Proof.
  refine (proj1 (DeleteNetwork_unknown IPv4Text.Parse (Examples.mk_driver None ∅) "n9" _ _)
            eq_refl).
  - discriminate.
  - vm_compute. reflexivity.
Defined.

Lemma DeleteNetwork_registered_witness :
  DeleteNetwork IPv4Text.Parse Scenarios.registered_driver "n1"
  = Done (set_vxlanIdm
            (released [new_subnet (Some IPv4Text.pool1) (Some IPv4Text.gw1) 300]
               (vxlanIdm Scenarios.registered_driver))
            (asked (deleteNetwork Scenarios.registered_driver "n1")
               (ReqDelete Examples.net1_300) []),
          None).
Proof.
  refine (DeleteNetwork_registered IPv4Text.Parse Scenarios.registered_driver "n1"
            Examples.net1_300
            {| subnets := [new_subnet (Some IPv4Text.pool1) (Some IPv4Text.gw1) 300];
               disableDefaultGW := false |}
            (ReplyOk JNull 7) [] _ _ eq_refl _ eq_refl).
  - discriminate.
  - vm_compute. reflexivity.
  - discriminate.
Defined.

Lemma joinSandbox_once_witness :
  exists w1 n1 e,
    joinSandbox Examples.good_host Examples.w0 Examples.net1 = Done (w1, n1, e) /\
    joinSandbox Examples.good_host w1 n1 = Done (w1, n1, e).
Proof.
  destruct (joinSandbox Examples.good_host Examples.w0 Examples.net1)
    as [[[w1 n1] e]| |] eqn:Hrun; try (vm_compute in Hrun; discriminate).
  exists w1, n1, e. split; [reflexivity|].
  exact (joinSandbox_once Examples.good_host Examples.w0 Examples.net1 w1 n1 e Hrun).
Defined.

Lemma leaveSandbox_guards_witness :
  leaveSandbox Examples.good_host Examples.w0 (set_joinCnt 2 Examples.net1)
  = Done (Examples.w0, set_joinCnt (2 - 1) (set_joinCnt 2 Examples.net1)).
Proof.
  refine (proj1 (leaveSandbox_guards Examples.good_host Examples.w0
                   (set_joinCnt 2 Examples.net1) _) _).
  - cbn. lia.
  - cbn. lia.
Defined.

Lemma getSubnetforIP_first_witness :
  exists r,
    getSubnetforIP Examples.net1 (Some Scenarios.addr5) = Done r /\
    first_passing (covers Scenarios.addr5)
      [new_subnet (Some IPv4Text.pool1) (Some IPv4Text.gw1) 0] r.
Proof.
  refine (getSubnetforIP_first Examples.net1
            {| subnets := [new_subnet (Some IPv4Text.pool1) (Some IPv4Text.gw1) 0];
               disableDefaultGW := false |} Scenarios.addr5 eq_refl _).
  repeat constructor. discriminate.
Defined.

Lemma getMatchingSubnet_first_witness :
  exists r,
    getMatchingSubnet Examples.net1 (Some IPv4Text.pool1) = Done r /\
    first_passing (matches IPv4Text.pool1)
      [new_subnet (Some IPv4Text.pool1) (Some IPv4Text.gw1) 0] r.
Proof.
  refine (getMatchingSubnet_first Examples.net1
            {| subnets := [new_subnet (Some IPv4Text.pool1) (Some IPv4Text.gw1) 0];
               disableDefaultGW := false |} IPv4Text.pool1 eq_refl _).
  repeat constructor. discriminate.
Defined.

Lemma SetValue_merges_witness :
  exists n',
    SetValue IPv4Text.Parse Examples.net1 Examples.stored1_300 = Done (n', None) /\
    same_shell Examples.net1 n'.
Proof.
  destruct (SetValue IPv4Text.Parse Examples.net1 Examples.stored1_300)
    as [[n' [e|]]| |] eqn:Hrun; try (vm_compute in Hrun; discriminate).
  exists n'. split; [reflexivity|].
  exact (proj1 (SetValue_merges IPv4Text.Parse Examples.net1 Examples.stored1_300 n' None
                  eq_refl Hrun)).
Defined.

Lemma device_names_witness :
  exists vx br,
    generateVxlanName Scenarios.joined_net 0 = Done vx /\
    generateBridgeName Scenarios.joined_net 0 = Done br /\
    String.length vx = 15%nat /\ String.length br = 15%nat /\
    vx <> br /\
    unhex (substring 3 6 vx) = 300 /\ unhex (substring 3 6 br) = 300.
Proof.
  refine (device_names Scenarios.joined_net 0 300 eq_refl _ _).
  - lia.
  - cbn. lia.
Defined.

Lemma initSubnetSandbox_outcome_witness :
  exists calls n',
    initSubnetSandbox Examples.good_host Scenarios.sub_host IPv4Text.String_
      Examples.w0 Scenarios.joined_net 0 = Done (calls, n', None) /\
    length calls = 4%nat /\
    In (Kernel (CreateVxlan "vx-00012c-abcde" 300)) calls.
Proof.
  destruct (initSubnetSandbox Examples.good_host Scenarios.sub_host IPv4Text.String_
              Examples.w0 Scenarios.joined_net 0)
    as [[[calls n'] [e|]]| |] eqn:Hrun; try (vm_compute in Hrun; discriminate).
  exists calls, n'. split; [reflexivity|].
  destruct (initSubnetSandbox_outcome Examples.good_host Scenarios.sub_host IPv4Text.String_
              Examples.w0 Scenarios.joined_net 0 calls n' None Hrun)
    as (c & s & sb & vx & br & Hc & Hs & _ & Hvx & _ & _ & _ & Hcalls).
  vm_compute in Hc. inversion Hc; subst c. clear Hc.
  vm_compute in Hs. inversion Hs; subst s. clear Hs.
  vm_compute in Hvx. inversion Hvx; subst vx. clear Hvx.
  rewrite Hcalls. split; [reflexivity|]. right. right. left. reflexivity.
Defined.

Lemma joinSubnetSandbox_once_witness :
  exists calls n1 e,
    joinSubnetSandbox Examples.good_host Scenarios.sub_host IPv4Text.String_
      Examples.w0 Scenarios.joined_net 0 = Done (calls, n1, e) /\
    joinSubnetSandbox Examples.good_host Scenarios.sub_host IPv4Text.String_
      Examples.w0 n1 0 = Done ([], n1, e).
Proof.
  destruct (joinSubnetSandbox Examples.good_host Scenarios.sub_host IPv4Text.String_
              Examples.w0 Scenarios.joined_net 0)
    as [[[calls n1] e]| |] eqn:Hrun; try (vm_compute in Hrun; discriminate).
  exists calls, n1, e. split; [reflexivity|].
  exact (joinSubnetSandbox_once Examples.good_host Scenarios.sub_host IPv4Text.String_
           Examples.w0 Examples.w0 Scenarios.joined_net 0 calls n1 e Hrun).
Defined.

Lemma destroySandbox_releases_witness :
  exists w' n',
    destroySandbox Examples.good_host Examples.w0 Scenarios.joined_net = Done (w', n') /\
    sbox n' = None /\
    exists tail,
      effects w' = effects Examples.w0 ++ tail /\
      last tail = Some (SandboxDestroy "/var/run/docker/netns/1-abcdefghijkl").
Proof.
  destruct (destroySandbox Examples.good_host Examples.w0 Scenarios.joined_net)
    as [[w' n']| |] eqn:Hrun; try (vm_compute in Hrun; discriminate).
  exists w', n'. split; [reflexivity|].
  destruct (destroySandbox_releases Examples.good_host Examples.w0 Scenarios.joined_net
              {| sb_key := "/var/run/docker/netns/1-abcdefghijkl";
                 sb_osCreate := true; sb_ifaces := [] |}
              {| subnets := [new_subnet (Some IPv4Text.pool1) (Some IPv4Text.gw1) 300];
                 disableDefaultGW := false |}
              w' n' eq_refl eq_refl Hrun)
    as (Hsb & tail & Ht & _ & _ & Hlast).
  split; [exact Hsb|]. exists tail. split; [exact Ht|exact Hlast].
Defined.

Lemma subnet_devices_torn_down_witness :
  exists calls n1 w' n2,
    initSubnetSandbox Examples.good_host Scenarios.sub_host IPv4Text.String_
      Examples.w0 Scenarios.joined_net 0 = Done (calls, n1, None) /\
    destroySandbox Examples.good_host Examples.w0 n1 = Done (w', n2) /\
    exists vx, In (Kernel (CreateVxlan vx 300)) calls /\ In (DeleteVxlan vx) (effects w').
Proof.
  destruct (initSubnetSandbox Examples.good_host Scenarios.sub_host IPv4Text.String_
              Examples.w0 Scenarios.joined_net 0)
    as [[[calls n1] [e|]]| |] eqn:Hinit; try (vm_compute in Hinit; discriminate).
  destruct (destroySandbox Examples.good_host Examples.w0 n1)
    as [[w' n2]| |] eqn:Hdestroy;
    try (vm_compute in Hinit; inversion Hinit; subst n1;
         vm_compute in Hdestroy; discriminate).
  exists calls, n1, w', n2. split; [reflexivity|]. split; [exact Hdestroy|].
  destruct (subnet_devices_torn_down Examples.good_host Scenarios.sub_host IPv4Text.String_
              Examples.w0 Examples.w0 Scenarios.joined_net 0 calls n1 w' n2 Hinit Hdestroy)
    as (vx & br & v & _ & _ & Hv & Hcreate & Hdelete & _).
  vm_compute in Hv. inversion Hv; subst v.
  exists vx. split; [exact Hcreate|exact Hdelete].
Defined.

Lemma CreateNetwork_registers_witness :
  exists d' n,
    CreateNetwork IPv4Text.String_ "com.docker.network.generic" "com.docker.network.disable_default_gw"
      (fun d => Done (d, None))
      (Examples.mk_driver (Some [ReplyOk JNull 1]) ∅) "n1"
      {[ "com.docker.network.generic" :=
           OptStringMap {[ "com.docker.network.disable_default_gw" := "false" ]} ]}
      [{| Pool := Some IPv4Text.pool1; Gateway := Some IPv4Text.gw1 |}] []
    = Done (d', None) /\
    networks d' !! "n1" = Some n /\ dbIndex n = 1 /\ dbExists n = true.
Proof.
  destruct (CreateNetwork IPv4Text.String_ "com.docker.network.generic" "com.docker.network.disable_default_gw"
              (fun d => Done (d, None))
              (Examples.mk_driver (Some [ReplyOk JNull 1]) ∅) "n1"
              {[ "com.docker.network.generic" :=
                   OptStringMap {[ "com.docker.network.disable_default_gw" := "false" ]} ]}
              [{| Pool := Some IPv4Text.pool1; Gateway := Some IPv4Text.gw1 |}] [])
    as [[d' [e|]]| |] eqn:Hrun; try (vm_compute in Hrun; discriminate).
  destruct (CreateNetwork_registers _ _ _ _ _ "n1" _ _ _ d' ltac:(discriminate) Hrun)
    as (d1 & n & c & v & idx & rest & n_put & Hc & Hst & _ & _ & _ & Hn & _ & Hidx & Hex & _).
  inversion Hc; subst d1. cbn in Hst. injection Hst as _ Hi _.
  exists d', n. split; [reflexivity|]. split; [exact Hn|].
  split; [rewrite Hi; exact Hidx|exact Hex].
Defined.

Lemma CreateNetwork_then_DeleteNetwork_witness :
  exists d1 d2 err,
    CreateNetwork IPv4Text.String_ "com.docker.network.generic" "com.docker.network.disable_default_gw"
      (fun d => Done (d, None))
      (Examples.mk_driver (Some [ReplyOk JNull 1; ReplyOk JNull 2]) ∅) "n1" ∅
      [{| Pool := Some IPv4Text.pool1; Gateway := Some IPv4Text.gw1 |}] []
    = Done (d1, None) /\
    DeleteNetwork IPv4Text.Parse d1 "n1" = Done (d2, err) /\
    networks d2 = networks (Examples.mk_driver (Some [ReplyOk JNull 1; ReplyOk JNull 2]) ∅).
Proof.
  destruct (CreateNetwork IPv4Text.String_ "com.docker.network.generic" "com.docker.network.disable_default_gw"
              (fun d => Done (d, None))
              (Examples.mk_driver (Some [ReplyOk JNull 1; ReplyOk JNull 2]) ∅) "n1" ∅
              [{| Pool := Some IPv4Text.pool1; Gateway := Some IPv4Text.gw1 |}] [])
    as [[d1 [e|]]| |] eqn:Hcreate; try (vm_compute in Hcreate; discriminate).
  destruct (DeleteNetwork IPv4Text.Parse d1 "n1") as [[d2 err]| |] eqn:Hdelete;
    try (vm_compute in Hcreate; inversion Hcreate; subst d1;
         vm_compute in Hdelete; discriminate).
  exists d1, d2, err. split; [reflexivity|]. split; [exact Hdelete|].
  refine (proj1 (CreateNetwork_then_DeleteNetwork IPv4Text.String_ IPv4Text.Parse
                   "com.docker.network.generic" "com.docker.network.disable_default_gw"
                   (fun d => Done (d, None)) _
                   (Examples.mk_driver (Some [ReplyOk JNull 1; ReplyOk JNull 2]) ∅) "n1" ∅
                   [{| Pool := Some IPv4Text.pool1; Gateway := Some IPv4Text.gw1 |}] []
                   d1 d2 err _ _ Hcreate Hdelete)).
  - intros d d' e H. inversion H. reflexivity.
  - discriminate.
  - vm_compute. reflexivity.
Defined.

Lemma joinSandbox_then_leaveSandbox_witness :
  exists w1 n1 w2 n2,
    joinSandbox Examples.good_host Examples.w0 (set_joinCnt 1 Examples.net1)
    = Done (w1, n1, None) /\
    leaveSandbox Examples.good_host w1 n1 = Done (w2, n2) /\
    sbox n1 <> None /\ sbox n2 = None /\ joinCnt n2 = 0.
Proof.
  destruct (joinSandbox Examples.good_host Examples.w0 (set_joinCnt 1 Examples.net1))
    as [[[w1 n1] [e|]]| |] eqn:Hjoin; try (vm_compute in Hjoin; discriminate).
  destruct (leaveSandbox Examples.good_host w1 n1) as [[w2 n2]| |] eqn:Hleave;
    try (vm_compute in Hjoin; inversion Hjoin; subst w1 n1;
         vm_compute in Hleave; discriminate).
  exists w1, n1, w2, n2. split; [reflexivity|]. split; [exact Hleave|].
  destruct (joinSandbox_then_leaveSandbox Examples.good_host Examples.w0
              (set_joinCnt 1 Examples.net1) w1 n1 w2 n2 eq_refl eq_refl Hjoin Hleave)
    as (sb & Hsb & _ & _ & _ & Hnone & _ & Hcnt & _).
  split; [rewrite Hsb; discriminate|]. split; [exact Hnone|exact Hcnt].
Defined.

Lemma setupDevice_default_only_witness :
  exists i' calls err,
    Bridge.setupDevice "docker0" Scenarios.kernel_4_0 (fun _ k => 255 - Z.of_nat k)
      Scenarios.docker0 = Done (i', calls, err) /\
    exists l, calls = [Bridge.LinkAdd l] /\ Bridge.Name l = "docker0".
Proof.
  destruct (Bridge.setupDevice "docker0" Scenarios.kernel_4_0 (fun _ k => 255 - Z.of_nat k)
              Scenarios.docker0)
    as [[[i' calls] err]| |] eqn:Hrun; try (vm_compute in Hrun; discriminate).
  exists i', calls, err. split; [reflexivity|].
  destruct (setupDevice_default_only "docker0" Scenarios.kernel_4_0
              (fun _ k => 255 - Z.of_nat k) Scenarios.docker0 i' calls err Hrun)
    as (name & Hname & _ & Hdef).
  inversion Hname; subst name.
  destruct (Hdef eq_refl) as (l & Hcalls & _ & Hl & _).
  exists l. split; [exact Hcalls|exact Hl].
Defined.

Lemma makeDriverConfig_entries_witness :
  Scenarios.make_config (Some Scenarios.daemon_cfg) "overlay"
  = Done (Some Scenarios.overlay_config) /\
  Scenarios.overlay_config !! "peer" = Some (Drivers.VString "10.0.0.9") /\
  exists m,
    Drivers.DriverCfg unit unit Scenarios.daemon_cfg !! "overlay" = Some (Drivers.CfgMap m) /\
    m !! "peer" = Some (Drivers.VString "10.0.0.9").
Proof.
  assert (Hrun : Scenarios.make_config (Some Scenarios.daemon_cfg) "overlay"
                 = Done (Some Scenarios.overlay_config)) by (vm_compute; reflexivity).
  assert (Hk : Scenarios.overlay_config !! "peer" = Some (Drivers.VString "10.0.0.9"))
    by (vm_compute; reflexivity).
  split; [exact Hrun|]. split; [exact Hk|].
  unfold Scenarios.make_config in Hrun.
  destruct (makeDriverConfig_entries unit unit Scenarios.label_key Scenarios.label_value
              "drv" (fun scope => "kv." +:+ scope)
              (fun v => match v with Some _ => true | None => false end)
              (fun V => map_to_list) (fun V m => reflexivity _)
              Scenarios.daemon_cfg "overlay" Scenarios.overlay_config "peer"
              (Drivers.VString "10.0.0.9") Hrun Hk)
    as [(_ & sk & sc & _ & _ & Hkey & _)|[Hm|(label & _ & _ & Hp & _)]].
  - discriminate Hkey.
  - exact Hm.
  - discriminate Hp.
Defined.

Lemma makeDriverConfig_driver_cfg_wins_witness :
  Scenarios.make_config (Some Scenarios.daemon_cfg) "overlay"
  = Done (Some Scenarios.overlay_config) /\
  Scenarios.overlay_config !! "peer" = Some (Drivers.VString "10.0.0.9").
Proof.
  assert (Hrun : Scenarios.make_config (Some Scenarios.daemon_cfg) "overlay"
                 = Done (Some Scenarios.overlay_config)) by (vm_compute; reflexivity).
  split; [exact Hrun|].
  unfold Scenarios.make_config in Hrun.
  refine (makeDriverConfig_driver_cfg_wins unit unit Scenarios.label_key Scenarios.label_value
            "drv" (fun scope => "kv." +:+ scope)
            (fun v => match v with Some _ => true | None => false end)
            (fun V => map_to_list) (fun V m => reflexivity _)
            Scenarios.daemon_cfg "overlay" Scenarios.overlay_config
            {[ "peer" := Drivers.VString "10.0.0.9" ]} "peer"
            (Drivers.VString "10.0.0.9") Hrun _ _ _).
  - vm_compute. reflexivity.
  - vm_compute. reflexivity.
  - right. intros sk sc _ _ Hkey. discriminate Hkey.
Defined.

Lemma initIpams_config_witness :
  Drivers.initIpams unit unit (fun scope => "kv." +:+ scope)
    (fun v => match v with Some _ => true | None => false end) (fun V => map_to_list)
    (Some Scenarios.daemon_cfg) (fun _ => None) (fun _ => Some (Errorf "plugin not found"))
  = Done (2%nat, Some (Errorf "plugin not found")) /\
  exists config,
    Drivers.insertDatastoreConfig unit unit (fun scope => "kv." +:+ scope)
      (fun v => match v with Some _ => true | None => false end) (fun V => map_to_list)
      (Drivers.Scopes unit unit Scenarios.daemon_cfg) ∅ = Done config.
Proof.
  assert (Hrun : Drivers.initIpams unit unit (fun scope => "kv." +:+ scope)
                   (fun v => match v with Some _ => true | None => false end)
                   (fun V => map_to_list) (Some Scenarios.daemon_cfg)
                   (fun _ => None) (fun _ => Some (Errorf "plugin not found"))
                 = Done (2%nat, Some (Errorf "plugin not found")))
    by (vm_compute; reflexivity).
  split; [exact Hrun|].
  destruct (initIpams_config unit unit (fun scope => "kv." +:+ scope)
              (fun v => match v with Some _ => true | None => false end)
              (fun V => map_to_list) (fun V m => reflexivity _)
              (Some Scenarios.daemon_cfg) (fun _ => None)
              (fun _ => Some (Errorf "plugin not found")) 2%nat _ Hrun)
    as (cfg0 & config & Hcfg & Hins & _).
  injection Hcfg as <-. exists config. exact Hins.
Defined.

Lemma setupDevice_then_setupDeviceUp_witness :
  exists i1 calls1 i2 calls2 err,
    Bridge.setupDevice "docker0" Scenarios.kernel_4_0 (fun _ k => 255 - Z.of_nat k)
      Scenarios.docker0 = Done (i1, calls1, None) /\
    Bridge.setupDeviceUp Scenarios.kernel_4_0 i1 = Done (i2, calls2, err) /\
    exists l, calls1 = [Bridge.LinkAdd l] /\ Bridge.Name l = "docker0".
Proof.
  destruct (Bridge.setupDevice "docker0" Scenarios.kernel_4_0 (fun _ k => 255 - Z.of_nat k)
              Scenarios.docker0)
    as [[[i1 calls1] [e|]]| |] eqn:Hset; try (vm_compute in Hset; discriminate).
  destruct (Bridge.setupDeviceUp Scenarios.kernel_4_0 i1) as [[[i2 calls2] err]| |] eqn:Hup;
    try (vm_compute in Hset; injection Hset as <- <-; vm_compute in Hup; discriminate).
  exists i1, calls1, i2, calls2, err. split; [reflexivity|]. split; [exact Hup|].
  destruct (setupDevice_then_setupDeviceUp "docker0" Scenarios.kernel_4_0
              (fun _ k => 255 - Z.of_nat k) Scenarios.docker0 i1 i2 calls1 calls2 err
              Hset Hup)
    as (l & Hcalls & Hname & _).
  exists l. split; [exact Hcalls|exact Hname].
Defined.

